(** * Groundwater trend analysis: quality control, trend classification
      and spatial consistency

    A shallow embedding of the analytical core of the repository
    (DownloadData.py, Classification.py, SpatialHeterogeneity.py and their
    earlier variants 0_DownloadData.py, 1_Classification.py,
    2_SpatialHeterogeneity.py) together with the properties stated about it.

    Conventions of the embedding.

    - A pandas data frame indexed by date with one ['value'] column is a list
      of rows in frame order.  A pandas Series is a list; a missing entry
      (NaN introduced by [shift]) is [None].
    - Measurements are exact rationals ([Q]).  A numpy float that can be
      non-finite (the result of a division, of [std] or of a median) is an
      [npfloat]: a rational, an infinity or NaN, with numpy's rules for
      division by zero and for comparisons against NaN.  Rounding error is not
      modelled.
    - The standard deviation is irrational in general; it is carried by its
      square (the variance) and every comparison against it is made on
      squares, which is equivalent for a non-negative deviation.
    - Python exceptions are the [Raise] branch of [result].
    - [stats.theilslopes] and [curve_fit] are scipy functions, not code of the
      repository: the classifier is parameterised by them.  (The two
      classification files use [np], [stats] and [curve_fit] without importing
      them; the names are read as numpy, scipy.stats and
      scipy.optimize.curve_fit.) *)

From Stdlib Require Import String List ZArith QArith Qabs Qround Bool Lia Lqa Arith PeanoNat.
Import ListNotations.

Set Implicit Arguments.

(** ** Python exceptions and results *)

Inductive exn : Type :=
| IndexError
| ValueError
| RuntimeError
| NameError
| ZeroDivisionError.

Inductive result (A : Type) : Type :=
| Ok (a : A)
| Raise (e : exn).

Arguments Ok {A} a.
Arguments Raise {A} e.

Definition bind {A B : Type} (r : result A) (k : A -> result B) : result B :=
  match r with
  | Ok a => k a
  | Raise e => Raise e
  end.

Declare Scope result_scope.
Delimit Scope result_scope with result.
Notation "x <- r ;; k" := (bind r (fun x => k))
  (at level 61, r at next level, right associativity) : result_scope.
Notation "' pat <- r ;; k" := (bind r (fun x => match x with pat => k end))
  (at level 61, pat pattern, r at next level, right associativity) : result_scope.

(** ** numpy floating-point values *)

Inductive npfloat : Type :=
| Fin (q : Q)
| PInf
| NInf
| NaN.

Definition Qlt_bool (a b : Q) : bool := negb (Qle_bool b a).

Module Np.

(** [a / b] on float64 scalars: a zero divisor gives an infinity of the
    sign of the dividend, or NaN for [0 / 0]; nothing is raised. *)
Definition div (a b : npfloat) : npfloat :=
  match a, b with
  | NaN, _ | _, NaN => NaN
  | Fin x, Fin y =>
      if Qeq_bool y 0 then
        if Qlt_bool 0 x then PInf else if Qlt_bool x 0 then NInf else NaN
      else Fin (x / y)
  | Fin _, (PInf | NInf) => Fin 0
  | PInf, Fin y => if Qlt_bool y 0 then NInf else PInf
  | NInf, Fin y => if Qlt_bool y 0 then PInf else NInf
  | (PInf | NInf), (PInf | NInf) => NaN
  end.

Definition sub (a b : npfloat) : npfloat :=
  match a, b with
  | NaN, _ | _, NaN => NaN
  | Fin x, Fin y => Fin (x - y)
  | Fin _, PInf => NInf
  | Fin _, NInf => PInf
  | PInf, PInf => NaN
  | PInf, _ => PInf
  | NInf, NInf => NaN
  | NInf, _ => NInf
  end.

Definition mul (a b : npfloat) : npfloat :=
  match a, b with
  | NaN, _ | _, NaN => NaN
  | Fin x, Fin y => Fin (x * y)
  | Fin x, PInf | PInf, Fin x =>
      if Qlt_bool 0 x then PInf else if Qlt_bool x 0 then NInf else NaN
  | Fin x, NInf | NInf, Fin x =>
      if Qlt_bool 0 x then NInf else if Qlt_bool x 0 then PInf else NaN
  | PInf, PInf | NInf, NInf => PInf
  | PInf, NInf | NInf, PInf => NInf
  end.

(** Comparisons: every comparison with NaN is [False]. *)
Definition lt (a b : npfloat) : bool :=
  match a, b with
  | NaN, _ | _, NaN => false
  | Fin x, Fin y => Qlt_bool x y
  | NInf, (Fin _ | PInf) => true
  | Fin _, PInf => true
  | _, _ => false
  end.

Definition gt (a b : npfloat) : bool := lt b a.

Definition le (a b : npfloat) : bool :=
  match a, b with
  | NaN, _ | _, NaN => false
  | Fin x, Fin y => Qle_bool x y
  | NInf, _ => true
  | _, PInf => true
  | _, _ => false
  end.

Definition ge (a b : npfloat) : bool := le b a.

Definition is_finite (a : npfloat) : bool :=
  match a with Fin _ => true | _ => false end.

Definition is_nan (a : npfloat) : bool :=
  match a with NaN => true | _ => false end.

End Np.

(** ** Dates *)

(** A pandas [Timestamp] at midnight, by its calendar fields. *)
Record Timestamp : Type := mkTs { year : Z; month : Z; day : Z }.

Record row : Type := mkRow { date : Timestamp; value : Q }.

Definition DailySeries := list row.

Module Ts.

Definition leb (a b : Timestamp) : bool :=
  (year a <? year b)%Z
  || ((year a =? year b)%Z
      && ((month a <? month b)%Z
          || ((month a =? month b)%Z && (day a <=? day b)%Z))).

Definition eqb (a b : Timestamp) : bool :=
  (year a =? year b)%Z && (month a =? month b)%Z && (day a =? day b)%Z.

Definition ltb (a b : Timestamp) : bool := leb a b && negb (eqb a b).

Definition is_leap (y : Z) : bool :=
  ((y mod 4 =? 0) && (negb (y mod 100 =? 0) || (y mod 400 =? 0)))%Z.

(** Days since 1970-01-01 of a civil date (proleptic Gregorian). *)
Definition to_days (t : Timestamp) : Z :=
  let y := if (month t <=? 2)%Z then (year t - 1)%Z else year t in
  let era := (y / 400)%Z in
  let yoe := (y - era * 400)%Z in
  let mp := if (month t >? 2)%Z then (month t - 3)%Z else (month t + 9)%Z in
  let doy := ((153 * mp + 2) / 5 + day t - 1)%Z in
  let doe := (yoe * 365 + yoe / 4 - yoe / 100 + doy)%Z in
  (era * 146097 + doe - 719468)%Z.

(** [(a - b).days] *)
Definition days_between (a b : Timestamp) : Z := (to_days a - to_days b)%Z.

(** [t + pd.DateOffset(years=k)]: same month and day, 29 February falling
    back to 28 February in a common year. *)
Definition add_years (t : Timestamp) (k : Z) : Timestamp :=
  let y := (year t + k)%Z in
  if ((month t =? 2) && (day t =? 29))%Z && negb (is_leap y)
  then mkTs y 2 28
  else mkTs y (month t) (day t).

(** Label of the ['YS-OCT'] bin of [t]: the first of October that starts the
    water year containing [t]. *)
Definition water_year (t : Timestamp) : Timestamp :=
  if (10 <=? month t)%Z then mkTs (year t) 10 1 else mkTs (year t - 1) 10 1.

End Ts.

(** ** pandas Series primitives *)

Section Series.

Variable A : Type.

(** [s.shift(k)]: every entry moves [k] places down, the first [k] entries
    become NaN and the length is kept. *)
Definition shift (k : nat) (s : list A) : list (option A) :=
  firstn (length s) (repeat None k ++ map Some s).

(** [frame.loc[mask]]: the rows whose mask entry is [True]. *)
Fixpoint loc (mask : list bool) (s : list A) : list A :=
  match mask, s with
  | b :: mask', x :: s' => if b then x :: loc mask' s' else loc mask' s'
  | _, _ => []
  end.

(** Element-wise [x != y] against a shifted Series: NaN differs from
    everything. *)
Definition ne_opt (eqb : A -> A -> bool) (x : A) (y : option A) : bool :=
  match y with
  | None => true
  | Some y' => negb (eqb x y')
  end.

Definition ne (eqb : A -> A -> bool) (s : list A) (t : list (option A)) : list bool :=
  map (fun p => ne_opt eqb (fst p) (snd p)) (combine s t).

(** [s.iloc[0]] and [s.iloc[-1]], [s.iloc[-2]] *)
Definition iloc_first (s : list A) : result A :=
  match s with
  | [] => Raise IndexError
  | x :: _ => Ok x
  end.

Definition iloc_back (k : nat) (s : list A) : result A :=
  match nth_error (rev s) k with
  | Some x => Ok x
  | None => Raise IndexError
  end.

End Series.

(** [mask.cumsum()] of a boolean Series: [True] counts for one. *)
Definition b2n (b : bool) : nat := if b then 1%nat else 0%nat.

Fixpoint cumsum_from (acc : nat) (bs : list bool) : list nat :=
  match bs with
  | [] => []
  | b :: bs' =>
      let acc' := (acc + b2n b)%nat in
      acc' :: cumsum_from acc' bs'
  end.

Definition cumsum (bs : list bool) : list nat := cumsum_from 0 bs.

(** [s.duplicated(keep=False)]: every entry whose value occurs more than
    once. *)
Definition duplicated (s : list nat) : list bool :=
  map (fun x => (1 <? count_occ Nat.eq_dec s x)%nat) s.

(** ** Numeric helpers *)

Definition sum_Q (l : list Q) : Q := fold_right Qplus 0 l.

Definition len_Q (A : Type) (l : list A) : Q := inject_Z (Z.of_nat (length l)).

Definition sq (x : Q) : Q := x * x.

(** [s.mean()]: NaN for an empty Series. *)
Definition mean (l : list Q) : npfloat := Np.div (Fin (sum_Q l)) (Fin (len_Q l)).

(** Square of [s.std()] (pandas default [ddof=1]); NaN when there are fewer
    than two entries. *)
Definition var_ddof1 (s : list Q) : npfloat :=
  match s with
  | [] | [_] => NaN
  | _ =>
      let m := sum_Q s / len_Q s in
      Fin (sum_Q (map (fun x => sq (x - m)) s) / (len_Q s - 1))
  end.

(** Square of the population standard deviation ([ddof=0]); the quality
    filter does not use it, the properties compare against it. *)
Definition var_ddof0 (s : list Q) : npfloat :=
  match s with
  | [] => NaN
  | _ =>
      let m := sum_Q s / len_Q s in
      Fin (sum_Q (map (fun x => sq (x - m)) s) / len_Q s)
  end.

(** [abs(d) <= 3 * std], with [std] given by its square. *)
Definition abs_le_3std (d : Q) (variance : npfloat) : bool :=
  Np.le (Fin (sq d)) (Np.mul (Fin 9) variance).

Fixpoint insert_sorted (x : Q) (l : list Q) : list Q :=
  match l with
  | [] => [x]
  | y :: l' => if Qle_bool x y then x :: l else y :: insert_sorted x l'
  end.

Definition sort_Q (l : list Q) : list Q := fold_right insert_sorted [] l.

(** [np.median]: the middle entry of the sorted data, the mean of the two
    middle entries for an even count, NaN for no data. *)
Definition median (l : list Q) : npfloat :=
  let s := sort_Q l in
  let n := length s in
  match n with
  | O => NaN
  | _ =>
      if Nat.even n
      then Fin ((nth (n / 2 - 1) s 0 + nth (n / 2) s 0) / 2)
      else Fin (nth (n / 2) s 0)
  end.

Fixpoint max_Q (x : Q) (l : list Q) : Q :=
  match l with
  | [] => x
  | y :: l' => max_Q (if Qle_bool x y then y else x) l'
  end.

Fixpoint min_Q (x : Q) (l : list Q) : Q :=
  match l with
  | [] => x
  | y :: l' => min_Q (if Qle_bool y x then y else x) l'
  end.

(** Python [max(values)] and [min(values)]: [ValueError] on an empty
    sequence. *)
Definition py_max (l : list Q) : result Q :=
  match l with
  | [] => Raise ValueError
  | x :: l' => Ok (max_Q x l')
  end.

Definition py_min (l : list Q) : result Q :=
  match l with
  | [] => Raise ValueError
  | x :: l' => Ok (min_Q x l')
  end.

(** Python [round(x)]: to the nearest integer, ties to the even one. *)
Definition py_round (x : Q) : Z :=
  let f := Qfloor x in
  let r := x - inject_Z f in
  if Qlt_bool r (1 # 2) then f
  else if Qlt_bool (1 # 2) r then (f + 1)%Z
  else if Z.even f then f else (f + 1)%Z.

(** [int(days / 365 + 1)]: truncation toward zero. *)
Definition years_spanned (days : Z) : Z := Z.quot (days + 365) 365.

(** ** Resampling *)

Fixpoint insert_label (t : Timestamp) (l : list Timestamp) : list Timestamp :=
  match l with
  | [] => [t]
  | u :: l' =>
      if Ts.eqb t u then l
      else if Ts.leb t u then t :: l
      else u :: insert_label t l'
  end.

Section Resample.

(** The bin a timestamp falls in, named by the bin's first day. *)
Variable label : Timestamp -> Timestamp.

(** Labels of the non-empty bins (the rows left by [dropna()]), in time
    order. *)
Definition bin_labels (s : list row) : list Timestamp :=
  fold_right insert_label [] (map (fun r => label (date r)) s).

Definition bin_values (s : list row) (l : Timestamp) : list Q :=
  map value (filter (fun r => Ts.eqb (label (date r)) l) s).

Definition agg_max (vs : list Q) : Q :=
  match vs with [] => 0 | v :: vs' => max_Q v vs' end.

Definition agg_min (vs : list Q) : Q :=
  match vs with [] => 0 | v :: vs' => min_Q v vs' end.

Definition agg_mean (vs : list Q) : Q := sum_Q vs / len_Q vs.

(** [s.resample(rule).agg().dropna()] *)
Definition resample (agg : list Q -> Q) (s : list row) : list row :=
  map (fun l => mkRow l (agg (bin_values s l))) (bin_labels s).

End Resample.

Definition month_start (t : Timestamp) : Timestamp := mkTs (year t) (month t) 1.

(** ** The quality filter (DownloadData.py and 0_DownloadData.py,
       [quality_control]; the two files agree on it) *)

(** Stage 1, R3TCSV.  [count] numbers the runs of equal values; a row whose
    run number equals the one two rows up closes three equal values in a row;
    [cumulative_sum] stalls on such rows and [duplicated] marks every row that
    shares its cumulative sum with another one. *)
Definition R3TCSV (gw_daily : DailySeries) : DailySeries :=
  let values := map value gw_daily in
  let count := cumsum (ne Qeq_bool values (shift 1 values)) in
  let previous_row := shift 2 count in
  let not_equal := ne Nat.eqb count previous_row in
  let cumulative_sum := cumsum not_equal in
  let duplicates := duplicated cumulative_sum in
  loc (map negb duplicates) gw_daily.

(** Stage 2, RVZ3.  [deviation = value - mean]; on an empty frame the mean is
    NaN and there is no row to carry a deviation. *)
Definition deviations (gw : DailySeries) : list Q :=
  match mean (map value gw) with
  | Fin m => map (fun r => value r - m) gw
  | _ => []
  end.

(** [std_deviation] is held by its square, see [abs_le_3std]. *)
Definition RVZ3 (gw_R3TCSV : DailySeries) : DailySeries :=
  let deviation := deviations gw_R3TCSV in
  let std_deviation := var_ddof1 deviation in
  loc (map (fun d => abs_le_3std d std_deviation) deviation) gw_R3TCSV.

(** Stage 3, RDRVI. *)
Definition remove_year (start : Timestamp) (gw : DailySeries) : DailySeries :=
  filter (fun r => negb (Ts.leb start (date r)
                         && Ts.leb (date r) (Ts.add_years start 1))) gw.

Definition RVI (year_max year_min : Q) (median_range : npfloat) : npfloat :=
  Np.div (Fin (year_max - year_min)) median_range.

Definition RVI_out_of_bounds (rvi : npfloat) : bool :=
  Np.gt rvi (Fin 5) || Np.lt rvi (Fin (2 # 10)).

Definition RDRVI_step (median_range : npfloat) (gw : DailySeries)
    (k : row * row) : DailySeries :=
  if RVI_out_of_bounds (RVI (value (fst k)) (value (snd k)) median_range)
  then remove_year (date (fst k)) gw
  else gw.

Definition Max_Y (gw : DailySeries) : list row := resample Ts.water_year agg_max gw.

Definition Min_Y (gw : DailySeries) : list row := resample Ts.water_year agg_min gw.

(** [Max_Y - Min_Y]: the two frames carry the same index. *)
Definition Range_Y (gw : DailySeries) : list Q :=
  map (fun k => value (fst k) - value (snd k)) (combine (Max_Y gw) (Min_Y gw)).

(** The loop over the water years: [Range_Y] and its median come from the
    series as it enters the stage, the rows are removed from the running
    frame. *)
Definition RDRVI (gw_RVZ3 : DailySeries) : DailySeries :=
  fold_left (RDRVI_step (median (Range_Y gw_RVZ3)))
            (combine (Max_Y gw_RVZ3) (Min_Y gw_RVZ3)) gw_RVZ3.

Definition quality_control (gw_daily : DailySeries) : DailySeries :=
  RDRVI (RVZ3 (R3TCSV gw_daily)).

(** *** What the three stages are meant to leave behind *)

(** Three equal values in a row, starting at the head of [vs]. *)
Definition flat3_head (vs : list Q) : bool :=
  match vs with
  | a :: b :: c :: _ => Qeq_bool a b && Qeq_bool b c
  | _ => false
  end.

Fixpoint has_flat3 (vs : list Q) : bool :=
  match vs with
  | [] => false
  | _ :: vs' => flat3_head vs || has_flat3 vs'
  end.

Definition within_3std (gw : DailySeries) : bool :=
  forallb (fun d => abs_le_3std d (var_ddof1 (deviations gw))) (deviations gw).

Definition RVI_within_bounds (gw : DailySeries) : bool :=
  forallb (fun rg => negb (RVI_out_of_bounds (Np.div (Fin rg) (median (Range_Y gw)))))
          (Range_Y gw).

Definition clean (gw : DailySeries) : bool :=
  negb (has_flat3 (map value gw)) && within_3std gw && RVI_within_bounds gw.

(** Membership of a row in a water year. *)
Definition in_water_year (start : Timestamp) (r : row) : bool :=
  Ts.eqb (Ts.water_year (date r)) start.

(** ** The per-station gate (the [__main__] loop of DownloadData.py) *)

Inductive report : Type :=
| NoEnoughData
| NegativeMeanDepth
| Statistics (data_amount : nat) (mean_depth max_depth min_depth : Q)
             (first_year last_year : Timestamp) (total_year : Z) (cover_year : nat).

Record station_output : Type := mkOutput {
  summary_row : report;
  annual_file : option (list row)
}.

Definition monthly (gd : DailySeries) : list row := resample month_start agg_mean gd.

Definition annual (gd_m : list row) : list row := resample Ts.water_year agg_mean gd_m.

(** DownloadData.py, lines 156--178, from the quality-controlled series on. *)
Definition station_summary (gd : DailySeries) : result station_output :=
  let gd_m := monthly gd in
  let YMG := annual gd_m in
  let mean_depth := mean (map value YMG) in
  if (length gd <=? 100)%nat || (length YMG <=? 8)%nat then
    Ok (mkOutput NoEnoughData None)
  else if Np.le mean_depth (Fin 0) then
    Ok (mkOutput NegativeMeanDepth None)
  else
    (first_year <- iloc_first (map date YMG) ;;
     last_year <- iloc_back 0 (map date YMG) ;;
     let total_year := years_spanned (Ts.days_between last_year first_year) in
     mx <- py_max (map value gd) ;;
     mn <- py_min (map value gd) ;;
     Ok (mkOutput
           (Statistics (length gd) (agg_mean (map value gd)) mx mn
                       first_year last_year total_year (length YMG))
           (Some YMG)))%result.

(** 0_DownloadData.py, lines 92--108.  The gate reads [len(gwl)], and [gwl]
    is bound nowhere in that file: evaluating the condition raises
    [NameError] before either branch is taken. *)
Definition unbound_name (A : Type) : result A := Raise NameError.

Definition station_summary_0 (gd : DailySeries) : result station_output :=
  let gd_m := monthly gd in
  let YMG := annual gd_m in
  (gwl <- unbound_name DailySeries ;;
   if (length gwl <=? 100)%nat || (length YMG <=? 8)%nat then
     Ok (mkOutput NoEnoughData None)
   else
     first_year <- iloc_first (map date YMG) ;;
     last_year <- iloc_back 0 (map date YMG) ;;
     let total_year := years_spanned (Ts.days_between last_year first_year) in
     mx <- py_max (map value gd) ;;
     mn <- py_min (map value gd) ;;
     Ok (mkOutput
           (Statistics (length gd) (agg_mean (map value gd)) mx mn
                       first_year last_year total_year (length YMG))
           (Some YMG)))%result.

(** ** The trend classifier (Classification.py and 1_Classification.py) *)

Inductive trend : Type :=
| SuddenUpwardChange
| Increasing
| SuddenDownwardChange
| Decreasing
| NoTrend.

Definition trend_eqb (a b : trend) : bool :=
  match a, b with
  | SuddenUpwardChange, SuddenUpwardChange
  | Increasing, Increasing
  | SuddenDownwardChange, SuddenDownwardChange
  | Decreasing, Decreasing
  | NoTrend, NoTrend => true
  | _, _ => false
  end.

(** The two files differ in the dead-zone of the slope (0.02 against 0.1) and
    in the wording of the steady labels ('Increasing' against 'Slow
    increasing'), not in the decision tree. *)
Inductive variant : Type :=
| Refined   (* Classification.py *)
| Earlier.  (* 1_Classification.py *)

Definition dead_zone (v : variant) : Q :=
  match v with
  | Refined => 2 # 100
  | Earlier => 1 # 10
  end.

(** The label as the file writes it. *)
Definition label_text (v : variant) (t : trend) : string :=
  match t, v with
  | SuddenUpwardChange, _ => "Sudden upward change"
  | Increasing, Refined => "Increasing"
  | Increasing, Earlier => "Slow increasing"
  | SuddenDownwardChange, _ => "Sudden downward change"
  | Decreasing, Refined => "Decreasing"
  | Decreasing, Earlier => "Slow decreasing"
  | NoTrend, _ => "No trend"
  end.

(** Annual series with the derived ['sequence'] column. *)
Record yrow : Type := mkYrow { y_date : Timestamp; y_value : Q; sequence : Z }.

(** Parameters of the flat--ramp--flat curve. *)
Record params : Type := mkParams { px0 : Q; px1 : Q; py0 : Q; py1 : Q }.

(** The six values [classidication] returns. *)
Record classification : Type := mkClassification {
  label : trend;
  ts_slope : npfloat;
  pw_R2 : npfloat;
  windows : Z;
  start_year : Timestamp;
  end_year : Timestamp
}.

(** [piecewise(x, x0, x1, y0, y1)] at one abscissa.  [np.piecewise] starts
    from zero and assigns under each condition in turn. *)
Definition piecewise (p : params) (x : Q) : Q :=
  let x0 := if Qle_bool (px1 p) (px0 p) then px1 p else px0 p in
  let x1 := if Qle_bool (px1 p) (px0 p) then px0 p else px1 p in
  let y := 0 in
  let y := if Qle_bool x x0 then py0 p else y in
  let y := if Qlt_bool x0 x && Qle_bool x x1
           then (x - x0) * (py1 p - py0 p) / (x1 - x0) + py0 p else y in
  let y := if Qlt_bool x1 x then py1 p else y in
  y.

(** [1 - np.sum(np.square(y_t - yy)) / np.sum(np.square(yy - np.mean(yy)))],
    the value of the expression in exact arithmetic.  float64 rounds the mean
    and the quotient: a total sum of squares that is 0 here can be rounding
    noise there, and a quotient far below one unit in the last place is lost
    in the subtraction from 1.  Only what survives that rounding is stated
    about R2: the thresholds it is compared with, that it does not exceed 1,
    and the NaN of [0 / 0] on data that sum exactly. *)
Definition r_squared (y_t yy : list Q) : npfloat :=
  let ssr := sum_Q (map (fun p => sq (fst p - snd p)) (combine y_t yy)) in
  let m := sum_Q yy / len_Q yy in
  let sst := sum_Q (map (fun y => sq (y - m)) yy) in
  Np.sub (Fin 1) (Np.div (Fin ssr) (Fin sst)).

(** The ['sequence'] column:
    [((YMG.index - YMG.index[0]).days / 365 + 1).astype(int)] *)
Definition with_sequence (YMG : list row) : result (list yrow) :=
  (first <- iloc_first (map date YMG) ;;
   Ok (map (fun r => mkYrow (date r) (value r)
                            (years_spanned (Ts.days_between (date r) first)))
           YMG))%result.

Definition seq_Q (r : yrow) : Q := inject_Z (sequence r).

(** [YMG.drop(label)]: every row carrying that index label goes. *)
Definition drop (lbl : Timestamp) (YMG : list yrow) : list yrow :=
  filter (fun r => negb (Ts.eqb (y_date r) lbl)) YMG.

Section Classifier.

(** [stats.theilslopes(y, x, alpha=0.9).slope]: the median of the pairwise
    slopes, a rational, or NaN ([None]) when no two abscissae differ. *)
Variable theilslopes : list Q -> list Q -> option Q.

(** [scipy.optimize.curve_fit(piecewise, xx, yy, p0=..., bounds=(lo, hi))]:
    the fitted parameters, or the exception scipy raises ([ValueError] on
    infeasible bounds or start, [RuntimeError] when the optimiser gives
    up). *)
Variable curve_fit :
  list Q -> list Q -> params -> params -> params -> result params.

Variable v : variant.

Definition slope_of (YMG : list yrow) : npfloat :=
  match theilslopes (map y_value YMG) (map seq_Q YMG) with
  | Some s => Fin s
  | None => NaN
  end.

(** The arguments [suddenchange] hands to [curve_fit]. *)
Definition fit_p0 (s2 : Z) (a0 a1 : Q) : params :=
  mkParams 2 (inject_Z s2) (inject_Z (py_round a0)) (inject_Z (py_round a1)).

Definition fit_lower : params := mkParams 1 2 (-100) (-100).

Definition fit_upper (s2 s1 : Z) : params :=
  mkParams (inject_Z s2) (inject_Z s1) 1000 1000.

Definition suddenchange (xx yy : list Q) (YMG : list yrow) (a0 a1 : Q)
  : result (npfloat * Z * Z * Timestamp * Timestamp) :=
  (first_year <- iloc_first (map y_date YMG) ;;
   last_year <- iloc_back 0 (map y_date YMG) ;;
   s2 <- iloc_back 1 (map sequence YMG) ;;
   s1 <- iloc_back 0 (map sequence YMG) ;;
   fitted <- curve_fit xx yy (fit_p0 s2 a0 a1) fit_lower (fit_upper s2 s1) ;;
   let y_t := map (piecewise fitted) xx in
   let R2 := r_squared y_t yy in
   let lo := if Qlt_bool (px0 fitted) (px1 fitted) then px0 fitted else px1 fitted in
   let hi := if Qlt_bool (px0 fitted) (px1 fitted) then px1 fitted else px0 fitted in
   let start_year := Ts.add_years first_year (py_round (lo - 1)) in
   let end_year := Ts.add_years start_year (py_round (hi - lo)) in
   let windows := years_spanned (Ts.days_between end_year start_year) in
   let total_year := years_spanned (Ts.days_between last_year first_year) in
   Ok (R2, windows, total_year, start_year, end_year))%result.

Definition trendstable (YMG : list yrow) : list npfloat :=
  map (fun r => slope_of (drop (y_date r) YMG)) YMG.

(** [pw_R2 >= 0.7 and windows / total_year <= 0.5 and windows <= 15], with
    Python's short-circuit: the quotient of the two integers is taken only
    when the first test passed, and raises on a zero divisor. *)
Definition step_change (R2 : npfloat) (windows total_year : Z) : result bool :=
  if Np.ge R2 (Fin (7 # 10)) then
    if (total_year =? 0)%Z then Raise ZeroDivisionError
    else Ok (Qle_bool (inject_Z windows / inject_Z total_year) (1 # 2)
             && (windows <=? 15)%Z)
  else Ok false.

Definition classidication (YMG0 : list row) : result classification :=
  (YMG <- with_sequence YMG0 ;;
   let ts_s := slope_of YMG in
   let xx := map seq_Q YMG in
   let yy := map y_value YMG in
   if Np.lt ts_s (Fin (- dead_zone v)) then
     a0 <- py_min yy ;;
     a1 <- py_max yy ;;
     '(R2, windows, total_year, start_year, end_year) <- suddenchange xx yy YMG a0 a1 ;;
     sudden <- step_change R2 windows total_year ;;
     let label :=
       if sudden then SuddenUpwardChange
       else if forallb (fun item => Np.lt item (Fin (1 # 10))) (trendstable YMG)
            then Increasing else NoTrend in
     Ok (mkClassification label ts_s R2 windows start_year end_year)
   else if Np.gt ts_s (Fin (dead_zone v)) then
     a0 <- py_min yy ;;
     a1 <- py_max yy ;;
     '(R2, windows, total_year, start_year, end_year) <- suddenchange xx yy YMG a0 a1 ;;
     sudden <- step_change R2 windows total_year ;;
     let label :=
       if sudden then SuddenDownwardChange
       else if forallb (fun item => Np.gt item (Fin (- (2 # 100)))) (trendstable YMG)
            then Decreasing else NoTrend in
     Ok (mkClassification label ts_s R2 windows start_year end_year)
   else
     a0 <- py_min yy ;;
     a1 <- py_max yy ;;
     '(R2, windows, total_year, start_year, end_year) <- suddenchange xx yy YMG a0 a1 ;;
     Ok (mkClassification NoTrend ts_s R2 windows start_year end_year))%result.

(** ** The pair comparison of the spatial scorer (SpatialHeterogeneity.py,
       lines 50--67, and 2_SpatialHeterogeneity.py, lines 34--48) *)

Inductive consistency : Type :=
| Consistent
| Inconsistent.

Definition ts_max (a b : Timestamp) : Timestamp := if Ts.ltb a b then b else a.

Definition ts_min (a b : Timestamp) : Timestamp := if Ts.ltb b a then b else a.

Definition common_period (start stop : Timestamp) (GWL : list row) : list row :=
  filter (fun r => Ts.leb start (date r) && Ts.leb (date r) stop) GWL.

Definition agreement (c1 c2 : classification) : consistency :=
  if trend_eqb (label c1) NoTrend
     || trend_eqb (label c2) NoTrend
     || Np.gt (Np.div (ts_slope c1) (ts_slope c2)) (Fin 0)
  then Consistent else Inconsistent.

(** One neighbour that passed the distance and aquifer tests: [None] when
    the common period is too short for the pair to be evaluated. *)
Definition compare_pair (GWL_1 GWL_2 : list row) : result (option consistency) :=
  (f1 <- iloc_first (map date GWL_1) ;;
   f2 <- iloc_first (map date GWL_2) ;;
   l1 <- iloc_back 0 (map date GWL_1) ;;
   l2 <- iloc_back 0 (map date GWL_2) ;;
   let start := ts_max f1 f2 in
   let stop := ts_min l1 l2 in
   let GWL_1 := common_period start stop GWL_1 in
   let GWL_2 := common_period start stop GWL_2 in
   if (8 <? length GWL_1)%nat && (8 <? length GWL_2)%nat then
     c1 <- classidication GWL_1 ;;
     c2 <- classidication GWL_2 ;;
     Ok (Some (agreement c1 c2))
   else Ok None)%result.

(** [consistency.count(label)] over the evaluated neighbours. *)
Definition tally (labels : list consistency) : nat * nat * nat :=
  (length labels,
   length (filter (fun l => match l with Consistent => true | _ => false end) labels),
   length (filter (fun l => match l with Inconsistent => true | _ => false end) labels)).

End Classifier.

(** ** A reference slope estimator and concrete series *)

(** The Theil--Sen estimator as scipy computes it: the median of
    [(y_i - y_j) / (x_i - x_j)] over the ordered pairs with [x_i - x_j > 0]. *)
Definition pairwise_slopes (y x : list Q) : list Q :=
  let pts := combine x y in
  flat_map (fun pi =>
    flat_map (fun pj =>
      if Qlt_bool 0 (fst pi - fst pj)
      then [(snd pi - snd pj) / (fst pi - fst pj)]
      else []) pts) pts.

Definition theil_sen (y x : list Q) : option Q :=
  match median (pairwise_slopes y x) with
  | Fin s => Some s
  | _ => None
  end.

(** A fit that never converges, and one that returns its starting point. *)
Definition fit_gives_up (xx yy : list Q) (p0 lo hi : params) : result params :=
  Raise RuntimeError.

Definition fit_returns_start (xx yy : list Q) (p0 lo hi : params) : result params :=
  Ok p0.

Definition on (y m d : Z) (v : Q) : row := mkRow (mkTs y m d) v.

(** Rows [i], [i+1] and [i+2] exist and carry three equal values. *)
Definition flat3_at (vs : list Q) (i : nat) : bool :=
  (i + 2 <? length vs)%nat
  && Qeq_bool (nth i vs 0) (nth (i + 1) vs 0)
  && Qeq_bool (nth (i + 1) vs 0) (nth (i + 2) vs 0).

(** Row [i] is the third, or the second, of three equal values in a row. *)
Definition closes_flat3 (vs : list Q) (i : nat) : bool :=
  ((2 <=? i)%nat && flat3_at vs (i - 2)) || ((1 <=? i)%nat && flat3_at vs (i - 1)).

(** Row [i] opens a run: it is the first row or differs from the row above. *)
Definition run_head (vs : list Q) (i : nat) : bool :=
  (i =? 0)%nat || negb (Qeq_bool (nth (i - 1) vs 0) (nth i vs 0)).

(** The mask [duplicates] that stage 1 computes. *)
Definition R3TCSV_duplicates (vs : list Q) : list bool :=
  let count := cumsum (ne Qeq_bool vs (shift 1 vs)) in
  duplicated (cumsum (ne Nat.eqb count (shift 2 count))).

(** The row test of stage 2 written against the values themselves, for a
    given notion of variance. *)
Definition zscore_keep (variance : list Q -> npfloat) (gw : DailySeries) (r : row) : bool :=
  match mean (map value gw) with
  | Fin m => abs_le_3std (value r - m) (variance (map value gw))
  | _ => false
  end.

(** Five daily readings, the middle three equal. *)
Definition flat_run_series : DailySeries :=
  [on 2001 1 1 1; on 2001 1 2 5; on 2001 1 3 5; on 2001 1 4 5; on 2001 1 5 2].

(** Eleven daily readings in one water year; the last one lies 3.03
    population standard deviations, and 2.89 sample standard deviations,
    from the mean. *)
Definition borderline_series : DailySeries :=
  [on 2001 1 1 0; on 2001 1 2 1; on 2001 1 3 0; on 2001 1 4 1; on 2001 1 5 0;
   on 2001 1 6 1; on 2001 1 7 0; on 2001 1 8 1; on 2001 1 9 0; on 2001 1 10 1;
   on 2001 1 11 6].

(** Twelve daily readings in one water year with a large and a moderate
    excursion. *)
Definition two_outlier_series : DailySeries :=
  [on 2001 1 1 0; on 2001 1 2 1; on 2001 1 3 0; on 2001 1 4 1; on 2001 1 5 0;
   on 2001 1 6 1; on 2001 1 7 0; on 2001 1 8 1; on 2001 1 9 0; on 2001 1 10 1;
   on 2001 1 11 18; on 2001 1 12 55].

(** Two water years: 2000/01 with a range of 1, 2001/02 with a range of 20
    and a reading on its first day. *)
Definition two_year_series : DailySeries :=
  [on 2000 11 1 10; on 2001 3 1 11;
   on 2001 10 1 10; on 2002 1 1 30; on 2002 5 1 20].

Definition small_clean_series : DailySeries :=
  [on 2001 1 1 0; on 2001 1 2 1; on 2001 1 3 0; on 2001 1 4 1].

(** Ten water years: a depth falling by one unit a year, one rising by one
    unit a year, and one that never changes. *)
Definition falling_depth : list row :=
  [on 2000 10 1 20; on 2001 10 1 19; on 2002 10 1 18; on 2003 10 1 17;
   on 2004 10 1 16; on 2005 10 1 15; on 2006 10 1 14; on 2007 10 1 13;
   on 2008 10 1 12; on 2009 10 1 11].

Definition rising_depth : list row :=
  [on 2000 10 1 11; on 2001 10 1 12; on 2002 10 1 13; on 2003 10 1 14;
   on 2004 10 1 15; on 2005 10 1 16; on 2006 10 1 17; on 2007 10 1 18;
   on 2008 10 1 19; on 2009 10 1 20].

Definition constant_depth : list row :=
  [on 2000 10 1 7; on 2001 10 1 7; on 2002 10 1 7; on 2003 10 1 7;
   on 2004 10 1 7; on 2005 10 1 7; on 2006 10 1 7; on 2007 10 1 7;
   on 2008 10 1 7; on 2009 10 1 7].

(** Flat at 10 for five years, down to 2 over three years, flat at 2 after. *)
Definition step_down_depth : list row :=
  [on 2000 10 1 10; on 2001 10 1 10; on 2002 10 1 10; on 2003 10 1 10;
   on 2004 10 1 10; on 2005 10 1 (22 # 3); on 2006 10 1 (14 # 3); on 2007 10 1 2;
   on 2008 10 1 2; on 2009 10 1 2; on 2010 10 1 2; on 2011 10 1 2;
   on 2012 10 1 2; on 2013 10 1 2; on 2014 10 1 2; on 2015 10 1 2].

(** A fit that lands on the ramp of [step_down_depth]. *)
Definition fit_finds_ramp (xx yy : list Q) (p0 lo hi : params) : result params :=
  Ok (mkParams 5 8 10 2).

(** What the classifier returns on the series above, with the reference
    slope estimator. *)
Definition no_classification : classification :=
  mkClassification NoTrend NaN NaN 0 (mkTs 0 0 0) (mkTs 0 0 0).

Definition classified (r : result classification) : classification :=
  match r with
  | Ok c => c
  | Raise _ => no_classification
  end.

Definition falling_depth_result : classification :=
  Eval vm_compute in
    classified (classidication theil_sen fit_returns_start Refined falling_depth).

Definition rising_depth_result : classification :=
  Eval vm_compute in
    classified (classidication theil_sen fit_returns_start Refined rising_depth).

Definition constant_depth_result : classification :=
  Eval vm_compute in
    classified (classidication theil_sen fit_returns_start Refined constant_depth).

Definition step_down_depth_result : classification :=
  Eval vm_compute in
    classified (classidication theil_sen fit_finds_ramp Refined step_down_depth).

(** Six identical daily readings. *)
Definition stuck_sensor_series : DailySeries :=
  [on 2001 1 1 7; on 2001 1 2 7; on 2001 1 3 7; on 2001 1 4 7; on 2001 1 5 7;
   on 2001 1 6 7].

Definition falling_depth_sequenced : list yrow :=
  Eval vm_compute in
    match with_sequence falling_depth with
    | Ok YMG => YMG
    | Raise _ => []
    end.

(** ** Downloading one measure (DownloadData.py and 0_DownloadData.py,
       [get_data]; the two files agree on it) *)

(** One entry of the ['items'] array of the readings endpoint.  The code
    tests for the ['value'] key and reads ['quality'] and ['date'] unguarded:
    the value is optional here, the other two are present. *)
Record reading : Type := mkReading {
  r_date : Timestamp;
  r_value : option Q;
  r_quality : string
}.

Record response : Type := mkResponse {
  status_code : Z;
  items : list reading
}.

(** The only exception [get_data] raises itself. *)
Inductive download (A : Type) : Type :=
| Downloaded (a : A)
| ConnectionError.

Arguments Downloaded {A} a.
Arguments ConnectionError {A}.

Definition has_value (d : reading) : bool :=
  match r_value d with Some _ => true | None => false end.

(** [(df['quality'] == 'Estimated') | (df['quality'] == 'Good')] *)
Definition accepted (d : reading) : bool :=
  String.eqb (r_quality d) "Estimated" || String.eqb (r_quality d) "Good".

(** The values read on day [t]; a missing value is NaN and [mean] skips it. *)
Definition day_values (df : list reading) (t : Timestamp) : list Q :=
  flat_map (fun d =>
    if Ts.eqb (r_date d) t
    then match r_value d with Some x => [x] | None => [] end
    else []) df.

(** [df.resample('D').mean(numeric_only=True).dropna(subset=['value'])] *)
Definition daily_mean (df : list reading) : list row :=
  flat_map (fun t =>
    match day_values df t with
    | [] => []
    | vs => [mkRow t (agg_mean vs)]
    end) (fold_right insert_label [] (map r_date df)).

(** The two kinds of frame [get_data] returns.  [pd.DataFrame()] has no
    ['value'] column and no date index; the frame of the first branch keeps
    both, also when the quality filter has left it without any row.  The
    callers can tell them apart: [resample] accepts an empty date index and
    refuses the index of [pd.DataFrame()]. *)
Inductive frame : Type :=
| EmptyDataFrame                 (* pd.DataFrame() *)
| DateIndexed (rows : list row).

Definition rows_of (f : frame) : list row :=
  match f with
  | EmptyDataFrame => []
  | DateIndexed rows => rows
  end.

Definition get_data (resp : response) : download frame :=
  if negb (status_code resp =? 200)%Z then ConnectionError
  else if negb (forallb (fun d => negb (has_value d)) (items resp)) then
    Downloaded (DateIndexed (daily_mean (filter accepted (items resp))))
  else Downloaded EmptyDataFrame.

(** ** The station loop of the spatial scorer (SpatialHeterogeneity.py,
       lines 18--69, and 2_SpatialHeterogeneity.py, lines 7--50) *)

Record station : Type := mkStation {
  No : Z;
  lat : Q;
  long : Q;
  total_year_col : Z;
  classification_col : string;
  revised_aquifers : string
}.

(** The rows of 'stations info.csv' the scorer works on: more than 8 years
    and a steady label, in the wording of the variant. *)
Definition select_stations (v : variant) (data : list station) : list station :=
  filter (fun s =>
    (8 <? total_year_col s)%Z
    && (String.eqb (classification_col s) (label_text v Increasing)
        || String.eqb (classification_col s) (label_text v Decreasing))) data.

(** [ini_select]: the other stations inside the box of 0.15 degrees of
    latitude and 0.25 degrees of longitude around the centre, bounds
    excluded. *)
Definition ini_select (data : list station) (centre : station) : list station :=
  filter (fun s =>
    negb (No s =? No centre)%Z
    && Qlt_bool (lat centre - (15 # 100)) (lat s)
    && Qlt_bool (lat s) (lat centre + (15 # 100))
    && Qlt_bool (long centre - (25 # 100)) (long s)
    && Qlt_bool (long s) (long centre + (25 # 100))) data.

Section SpatialLoop.

Variable theilslopes : list Q -> list Q -> option Q.
Variable curve_fit : list Q -> list Q -> params -> params -> params -> result params.
Variable v : variant.

(** [read_csv(No)]: the annual series saved for a station, or the exception
    of a failed read. *)
Variable read_csv : Z -> result (list row).

(** [geodesic((lat1, long1), (lat2, long2)).kilometers], from geopy. *)
Variable geodesic_km : Q -> Q -> Q -> Q -> Q.

(** The two tests a candidate must pass before its series is read. *)
Definition eligible (centre other : station) : bool :=
  Qle_bool (geodesic_km (lat centre) (long centre) (lat other) (long other)) 15
  && (negb (String.eqb (revised_aquifers centre) "Unallocated to aquifers")
      && String.eqb (revised_aquifers centre) (revised_aquifers other)).

(** The body of the loop over [j]; [labels] is the list the code calls
    [consistency]. *)
Definition neighbour (centre : station) (labels : list consistency)
    (other : station) : result (list consistency) :=
  (GWL_1 <- read_csv (No centre) ;;
   let distance_km := geodesic_km (lat centre) (long centre) (lat other) (long other) in
   if Qle_bool distance_km 15 then
     if negb (String.eqb (revised_aquifers centre) "Unallocated to aquifers")
        && String.eqb (revised_aquifers centre) (revised_aquifers other)
     then
       GWL_2 <- read_csv (No other) ;;
       verdict <- compare_pair theilslopes curve_fit v GWL_1 GWL_2 ;;
       match verdict with
       | Some l => Ok (labels ++ [l])
       | None => Ok labels
       end
     else Ok labels
   else Ok labels)%result.

Fixpoint neighbours (centre : station) (labels : list consistency)
    (others : list station) : result (list consistency) :=
  match others with
  | [] => Ok labels
  | other :: others' =>
      (labels' <- neighbour centre labels other ;;
       neighbours centre labels' others')%result
  end.

(** The row written for one centre station. *)
Definition consistency_row (data : list station) (centre : station)
  : result (Z * (nat * nat * nat)) :=
  (labels <- neighbours centre [] (ini_select data centre) ;;
   Ok (No centre, tally labels))%result.

End SpatialLoop.

(** ** Stage 1 read row by row *)

(** One pass over the rows with the two previous values in hand: a row is
    dropped when it equals the row above and either that row equalled the one
    before it or the next row equals this one. *)
Fixpoint R3TCSV_pass (p2 p1 : option Q) (l : list row) : list row :=
  match l with
  | [] => []
  | x :: rest =>
      let same :=
        match p1 with Some b => Qeq_bool b (value x) | None => false end in
      let before :=
        match p2, p1 with Some a, Some b => Qeq_bool a b | _, _ => false end in
      let after :=
        match rest with y :: _ => Qeq_bool (value x) (value y) | [] => false end in
      let tail := R3TCSV_pass p1 (Some (value x)) rest in
      if same && (before || after) then tail else x :: tail
  end.

(** The value [j] rows above row [k], if there is one. *)
Definition above (vs : list Q) (k j : nat) : option Q :=
  if (j <=? k)%nat then Some (nth (k - j) vs 0) else None.

(** ** Calendar arithmetic *)

(** Leap days of the proleptic Gregorian calendar up to year [y]. *)
Definition leap_days (y : Z) : Z := (y / 4 - y / 100 + y / 400)%Z.

(** The index of an annual series: first days of October. *)
Definition october_first (t : Timestamp) : bool :=
  (month t =? 10)%Z && (day t =? 1)%Z.

(** Strictly increasing dates. *)
Fixpoint increasing (ts : list Timestamp) : bool :=
  match ts with
  | [] => true
  | t :: ts' =>
      match ts' with
      | [] => true
      | u :: _ => Ts.ltb t u && increasing ts'
      end
  end.

(** Ten consecutive water years from [y]. *)
Definition consecutive_octobers (y : Z) (n : nat) : list Timestamp :=
  map (fun i => mkTs (y + Z.of_nat i) 10 1) (seq 0 n).

(** ** Concrete inputs *)

(** One reading on the first of every month from January 2000 to December
    2009. *)
Definition ten_year_record : DailySeries :=
  map (fun i => mkRow (mkTs (2000 + Z.of_nat (i / 12)) (Z.of_nat (i mod 12) + 1) 1)
                      (inject_Z (Z.of_nat (i mod 5)) + 3))
      (seq 0 120).

Definition ten_year_output : station_output :=
  Eval vm_compute in
    match station_summary ten_year_record with
    | Ok out => out
    | Raise _ => mkOutput NoEnoughData None
    end.

(** Two stations ten kilometres apart on the same aquifer, with the annual
    series [falling_depth] and [rising_depth]. *)
Definition station_a : station :=
  mkStation 1 (515 # 10) (-(1 # 10)) 10 "Increasing" "Chalk".

Definition station_b : station :=
  mkStation 2 (516 # 10) 0 10 "Decreasing" "Chalk".

Definition two_files (no : Z) : result (list row) :=
  if (no =? 1)%Z then Ok falling_depth else Ok rising_depth.

Definition ten_km (lat1 long1 lat2 long2 : Q) : Q := 10.

(** A payload whose only reading with a value is of a rejected quality. *)
Definition suspect_response : response :=
  mkResponse 200 [mkReading (mkTs 2001 1 1) (Some 5) "Suspect"].

(** * Properties *)

(** ** Series primitives *)

Section SeriesFacts.

Variable A : Type.

Lemma shift_length (k : nat) (s : list A) : length (shift k s) = length s.
Proof.
  unfold shift. rewrite length_firstn, length_app, repeat_length, length_map. lia.
Qed.

Lemma nth_shift (k i : nat) (s : list A) (d : A) :
  (i < length s)%nat ->
  nth i (shift k s) None = if (i <? k)%nat then None else Some (nth (i - k) s d).
Proof.
  intros Hi. unfold shift. rewrite nth_firstn.
  destruct (Nat.ltb_spec i (length s)) as [_|]; [|lia].
  destruct (Nat.ltb_spec i k) as [Hk|Hk].
  - rewrite app_nth1 by (rewrite repeat_length; lia). apply nth_repeat.
  - rewrite app_nth2 by (rewrite repeat_length; lia). rewrite repeat_length.
    rewrite (nth_indep _ None (Some d)) by (rewrite length_map; lia).
    apply (map_nth Some).
Qed.

Lemma ne_length (eqb : A -> A -> bool) (s : list A) (t : list (option A)) :
  length s = length t -> length (ne eqb s t) = length s.
Proof.
  intros H. unfold ne. rewrite length_map, length_combine. lia.
Qed.

Lemma nth_ne (eqb : A -> A -> bool) (s : list A) (t : list (option A))
    (i : nat) (d : A) (b : bool) :
  length s = length t -> (i < length s)%nat ->
  nth i (ne eqb s t) b = ne_opt eqb (nth i s d) (nth i t None).
Proof.
  intros Hl Hi. unfold ne.
  rewrite (nth_indep _ b (ne_opt eqb (fst (d, @None A)) (snd (d, @None A))))
    by (rewrite length_map, length_combine; lia).
  rewrite (map_nth (fun p => ne_opt eqb (fst p) (snd p))).
  rewrite combine_nth by exact Hl. reflexivity.
Qed.

Lemma loc_all_true (mask : list bool) (s : list A) :
  length mask = length s -> (forall i, (i < length s)%nat -> nth i mask false = true) ->
  loc mask s = s.
Proof.
  revert s. induction mask as [|b mask IH]; intros [|x s] Hl H; simpl in *; try discriminate; auto.
  generalize (H 0%nat ltac:(lia)). simpl. intros ->.
  f_equal. apply IH; [lia|]. intros i Hi. apply (H (S i)). lia.
Qed.

Lemma loc_map_filter (f : A -> bool) (s : list A) :
  loc (map f s) s = filter f s.
Proof.
  induction s as [|x s IH]; simpl; auto. rewrite IH. reflexivity.
Qed.

Lemma loc_In (mask : list bool) (s : list A) (x : A) :
  In x (loc mask s) -> In x s.
Proof.
  revert s. induction mask as [|b mask IH]; intros [|y s]; simpl; try tauto.
  destruct b; simpl; intros H; [destruct H|]; auto.
Qed.

Lemma loc_nth_kept (mask : list bool) (s : list A) (i : nat) (d : A) :
  (i < length s)%nat -> nth i mask false = true -> In (nth i s d) (loc mask s).
Proof.
  revert s i. induction mask as [|b mask IH]; intros [|y s] i Hi Hm; simpl in *; try lia.
  - destruct i; discriminate.
  - destruct i as [|i].
    + rewrite Hm. left. reflexivity.
    + assert (In (nth i s d) (loc mask s)) by (apply IH; [lia|exact Hm]).
      destruct b; simpl; auto.
Qed.

End SeriesFacts.

Lemma cumsum_from_length (bs : list bool) (a : nat) :
  length (cumsum_from a bs) = length bs.
Proof.
  revert a. induction bs as [|b bs IH]; intros a; simpl; auto.
Qed.

Lemma cumsum_from_step (bs : list bool) (a i : nat) :
  (S i < length bs)%nat ->
  nth (S i) (cumsum_from a bs) 0%nat
  = (nth i (cumsum_from a bs) 0 + b2n (nth (S i) bs false))%nat.
Proof.
  revert a i. induction bs as [|b bs IH]; intros a i Hi; simpl in *; [lia|].
  destruct i as [|i].
  - destruct bs as [|b' bs]; simpl in *; [lia|]. reflexivity.
  - apply IH. lia.
Qed.

Lemma cumsum_from_mono (bs : list bool) (a i j : nat) :
  (i <= j)%nat -> (j < length bs)%nat ->
  (nth i (cumsum_from a bs) 0 <= nth j (cumsum_from a bs) 0)%nat.
Proof.
  intros Hij Hj. induction Hij as [|j Hij IH]; [lia|].
  rewrite cumsum_from_step by lia. specialize (IH ltac:(lia)). lia.
Qed.

(** ** [duplicated] on a non-decreasing Series *)

Lemma count_occ_two (s : list nat) (x : nat) :
  (2 <= count_occ Nat.eq_dec s x)%nat <->
  exists i j, (i < j < length s)%nat /\ nth i s 0%nat = x /\ nth j s 0%nat = x.
Proof.
  induction s as [|a s IH]; simpl.
  - split; [lia|]. intros (i & j & H & _). lia.
  - destruct (Nat.eq_dec a x) as [->|Hax]; split.
    + intros H. assert (Hin : In x s) by (apply (count_occ_In Nat.eq_dec); lia).
      destruct (In_nth s x 0%nat Hin) as (j & Hj & Hx).
      exists 0%nat, (S j). simpl. repeat split; auto; lia.
    + intros (i & j & Hij & Hi & Hj). destruct j as [|j]; [lia|]. simpl in Hj.
      assert (In x s) by (rewrite <- Hj; apply nth_In; lia).
      assert (count_occ Nat.eq_dec s x > 0)%nat by (apply count_occ_In; assumption).
      lia.
    + intros H. apply IH in H. destruct H as (i & j & Hij & Hi & Hj).
      exists (S i), (S j). simpl. repeat split; auto; lia.
    + intros (i & j & Hij & Hi & Hj). apply IH.
      destruct j as [|j]; [lia|]. destruct i as [|i]; simpl in *; [congruence|].
      exists i, j. repeat split; auto; lia.
Qed.

Lemma nth_duplicated (s : list nat) (i : nat) :
  (i < length s)%nat ->
  nth i (duplicated s) false = (1 <? count_occ Nat.eq_dec s (nth i s 0))%nat.
Proof.
  intros Hi. unfold duplicated.
  rewrite (nth_indep _ false ((fun x => (1 <? count_occ Nat.eq_dec s x)%nat) 0%nat))
    by (rewrite length_map; exact Hi).
  apply (map_nth (fun x => (1 <? count_occ Nat.eq_dec s x)%nat)).
Qed.

Lemma duplicated_length (s : list nat) : length (duplicated s) = length s.
Proof. apply length_map. Qed.

Lemma duplicated_mono (s : list nat) (i : nat) :
  (forall a b, (a <= b)%nat -> (b < length s)%nat -> (nth a s 0 <= nth b s 0)%nat) ->
  (i < length s)%nat ->
  nth i (duplicated s) false = true <->
  ((1 <= i)%nat /\ nth (i - 1) s 0%nat = nth i s 0%nat)
  \/ ((i + 1 < length s)%nat /\ nth (i + 1) s 0%nat = nth i s 0%nat).
Proof.
  intros Hmono Hi. rewrite nth_duplicated by exact Hi.
  rewrite Nat.ltb_lt. change (1 < ?n)%nat with (2 <= n)%nat. rewrite count_occ_two.
  split.
  - intros (a & b & Hab & Ha & Hb).
    destruct (Nat.eq_dec b i) as [->|Hbi].
    + left. split; [lia|].
      generalize (Hmono a (i - 1)%nat ltac:(lia) ltac:(lia)).
      generalize (Hmono (i - 1)%nat i ltac:(lia) ltac:(lia)). lia.
    + destruct (Nat.lt_ge_cases b i) as [Hlt|Hge].
      * left. split; [lia|].
        generalize (Hmono b (i - 1)%nat ltac:(lia) ltac:(lia)).
        generalize (Hmono (i - 1)%nat i ltac:(lia) ltac:(lia)). lia.
      * right. split; [lia|].
        generalize (Hmono i (i + 1)%nat ltac:(lia) ltac:(lia)).
        generalize (Hmono (i + 1)%nat b ltac:(lia) ltac:(lia)). lia.
  - intros [[H1 He]|[H1 He]].
    + exists (i - 1)%nat, i. repeat split; auto; lia.
    + exists i, (i + 1)%nat. repeat split; auto; lia.
Qed.

(** ** Stage 1: the mask of dropped rows *)

Lemma Qeq_bool_comm (x y : Q) : Qeq_bool x y = Qeq_bool y x.
Proof.
  destruct (Qeq_bool x y) eqn:E1, (Qeq_bool y x) eqn:E2; auto.
  - apply Qeq_bool_iff in E1. symmetry in E1. apply Qeq_bool_iff in E1. congruence.
  - apply Qeq_bool_iff in E2. symmetry in E2. apply Qeq_bool_iff in E2. congruence.
Qed.

Section Stage1.

Variable vs : list Q.

Let change := ne Qeq_bool vs (shift 1 vs).
Let count := cumsum change.
Let not_equal := ne Nat.eqb count (shift 2 count).
Let cumulative_sum := cumsum not_equal.

Lemma change_length : length change = length vs.
Proof. unfold change. apply ne_length. symmetry. apply shift_length. Qed.

Lemma count_length : length count = length vs.
Proof. unfold count, cumsum. rewrite cumsum_from_length. apply change_length. Qed.

Lemma not_equal_length : length not_equal = length vs.
Proof.
  unfold not_equal. rewrite ne_length by (symmetry; apply shift_length).
  apply count_length.
Qed.

Lemma cumulative_sum_length : length cumulative_sum = length vs.
Proof.
  unfold cumulative_sum, cumsum. rewrite cumsum_from_length. apply not_equal_length.
Qed.

Lemma nth_change (i : nat) :
  (i < length vs)%nat ->
  nth i change false
  = if (i <? 1)%nat then true else negb (Qeq_bool (nth (i - 1) vs 0) (nth i vs 0)).
Proof.
  intros Hi. unfold change.
  rewrite (nth_ne Qeq_bool vs (shift 1 vs) 0 false) by (rewrite ?shift_length; auto).
  rewrite (nth_shift 1 vs 0 Hi).
  destruct (i <? 1)%nat; simpl; auto. rewrite Qeq_bool_comm. reflexivity.
Qed.

Lemma nth_not_equal (i : nat) :
  (i < length vs)%nat ->
  nth i not_equal false = negb ((2 <=? i)%nat && flat3_at vs (i - 2)).
Proof.
  intros Hi. unfold not_equal.
  rewrite (nth_ne Nat.eqb count (shift 2 count) 0%nat false)
    by (rewrite ?shift_length, ?count_length; auto).
  rewrite (nth_shift 2 count 0%nat) by (rewrite count_length; exact Hi).
  destruct (Nat.ltb_spec i 2) as [H2|H2]; destruct (Nat.leb_spec 2 i) as [H2'|H2'];
    try lia.
  - reflexivity.
  - cbn [ne_opt andb]. f_equal.
    assert (Hc1 : nth (i - 1) count 0%nat
                  = (nth (i - 2) count 0 + b2n (nth (i - 1) change false))%nat).
    { unfold count, cumsum. replace (i - 1)%nat with (S (i - 2)) by lia.
      apply cumsum_from_step. rewrite change_length. lia. }
    assert (Hc2 : nth i count 0%nat
                  = (nth (i - 1) count 0 + b2n (nth i change false))%nat).
    { unfold count, cumsum. replace i with (S (i - 1)) at 1 3 by lia.
      apply cumsum_from_step. rewrite change_length. lia. }
    rewrite nth_change in Hc1, Hc2 by lia.
    destruct (Nat.ltb_spec (i - 1) 1); [lia|]. destruct (Nat.ltb_spec i 1); [lia|].
    unfold flat3_at. destruct (Nat.ltb_spec (i - 2 + 2) (length vs)); [|lia].
    replace (i - 2 + 1)%nat with (i - 1)%nat by lia.
    replace (i - 2 + 2)%nat with i by lia.
    replace (i - 1 - 1)%nat with (i - 2)%nat in Hc1 by lia.
    simpl.
    destruct (Qeq_bool (nth (i - 2) vs 0) (nth (i - 1) vs 0)),
             (Qeq_bool (nth (i - 1) vs 0) (nth i vs 0));
      simpl in *; apply Nat.eqb_eq || apply Nat.eqb_neq; lia.
Qed.

Lemma cumulative_sum_mono (a b : nat) :
  (a <= b)%nat -> (b < length cumulative_sum)%nat ->
  (nth a cumulative_sum 0 <= nth b cumulative_sum 0)%nat.
Proof.
  intros Hab Hb. unfold cumulative_sum, cumsum. apply cumsum_from_mono; auto.
  rewrite cumulative_sum_length in Hb. rewrite not_equal_length. exact Hb.
Qed.

Lemma cumulative_sum_stalls (i : nat) :
  (S i < length vs)%nat ->
  nth i cumulative_sum 0%nat = nth (S i) cumulative_sum 0%nat
  <-> nth (S i) not_equal false = false.
Proof.
  intros Hi. unfold cumulative_sum, cumsum.
  rewrite cumsum_from_step by (rewrite not_equal_length; exact Hi).
  destruct (nth (S i) not_equal false); simpl; split; intros; try lia; congruence.
Qed.

(** The mask [duplicates] marks exactly the second and later rows of three
    equal values in a row. *)
Lemma R3TCSV_duplicates_spec (i : nat) :
  (i < length vs)%nat ->
  nth i (R3TCSV_duplicates vs) false = closes_flat3 vs i.
Proof.
  intros Hi. change (R3TCSV_duplicates vs) with (duplicated cumulative_sum).
  apply eq_true_iff_eq.
  rewrite (duplicated_mono cumulative_sum cumulative_sum_mono)
    by (rewrite cumulative_sum_length; exact Hi).
  rewrite cumulative_sum_length. unfold closes_flat3.
  rewrite orb_true_iff, !andb_true_iff, !Nat.leb_le.
  split; intros [[H1 H2]|[H1 H2]].
  - left. replace i with (S (i - 1)) in H2 at 2 by lia.
    apply cumulative_sum_stalls in H2; [|lia].
    replace (S (i - 1)) with i in H2 by lia.
    rewrite nth_not_equal in H2 by lia. apply negb_false_iff in H2.
    apply andb_true_iff in H2. rewrite Nat.leb_le in H2. exact H2.
  - right. replace (i + 1)%nat with (S i) in H2 by lia. symmetry in H2.
    apply cumulative_sum_stalls in H2; [|lia].
    rewrite nth_not_equal in H2 by lia. apply negb_false_iff in H2.
    apply andb_true_iff in H2. rewrite Nat.leb_le in H2.
    replace (S i - 2)%nat with (i - 1)%nat in H2 by lia. split; [lia|tauto].
  - left. split; [lia|]. replace i with (S (i - 1)) at 2 by lia.
    apply cumulative_sum_stalls; [lia|]. replace (S (i - 1)) with i by lia.
    rewrite nth_not_equal by lia. apply negb_false_iff.
    apply andb_true_iff. rewrite Nat.leb_le. tauto.
  - assert (Hn : (i - 1 + 2 < length vs)%nat).
    { unfold flat3_at in H2. rewrite !andb_true_iff, Nat.ltb_lt in H2. tauto. }
    right. split; [lia|]. replace (i + 1)%nat with (S i) by lia. symmetry.
    apply cumulative_sum_stalls; [lia|].
    rewrite nth_not_equal by lia. apply negb_false_iff.
    apply andb_true_iff. rewrite Nat.leb_le.
    replace (S i - 2)%nat with (i - 1)%nat by lia. split; [lia|exact H2].
Qed.

Lemma R3TCSV_duplicates_length : length (R3TCSV_duplicates vs) = length vs.
Proof.
  change (R3TCSV_duplicates vs) with (duplicated cumulative_sum).
  rewrite duplicated_length. apply cumulative_sum_length.
Qed.

End Stage1.

Lemma R3TCSV_mask (gw : DailySeries) :
  R3TCSV gw = loc (map negb (R3TCSV_duplicates (map value gw))) gw.
Proof. reflexivity. Qed.

Lemma flat3_at_cons (a : Q) (vs : list Q) (i : nat) :
  flat3_at (a :: vs) (S i) = flat3_at vs i.
Proof.
  unfold flat3_at. cbn [length nth Nat.add]. reflexivity.
Qed.

Lemma flat3_at_head (vs : list Q) : flat3_at vs 0 = flat3_head vs.
Proof.
  destruct vs as [|a [|b [|c vs]]]; reflexivity.
Qed.

Lemma has_flat3_false (vs : list Q) :
  has_flat3 vs = false -> forall i, flat3_at vs i = false.
Proof.
  induction vs as [|a vs IH]; intros H i.
  - unfold flat3_at. simpl. reflexivity.
  - cbn [has_flat3] in H. apply orb_false_iff in H. destruct H as [Hh Ht].
    destruct i as [|i].
    + rewrite flat3_at_head. exact Hh.
    + rewrite flat3_at_cons. apply IH. exact Ht.
Qed.

(** A series without three equal values in a row passes stage 1 unchanged. *)
Lemma R3TCSV_no_flat3 (gw : DailySeries) :
  has_flat3 (map value gw) = false -> R3TCSV gw = gw.
Proof.
  intros H. rewrite R3TCSV_mask. apply loc_all_true.
  - rewrite length_map, R3TCSV_duplicates_length, length_map. reflexivity.
  - intros i Hi.
    rewrite (nth_indep _ false (negb false))
      by (rewrite length_map, R3TCSV_duplicates_length, length_map; exact Hi).
    rewrite map_nth, R3TCSV_duplicates_spec by (rewrite length_map; exact Hi).
    unfold closes_flat3. rewrite !(has_flat3_false _ H), !andb_false_r. reflexivity.
Qed.

(** The row that opens a run is never marked, whatever the length of the
    run: stage 1 keeps it. *)
Lemma R3TCSV_keeps_run_head (gw : DailySeries) (i : nat) (d : row) :
  (i < length gw)%nat -> run_head (map value gw) i = true ->
  In (nth i gw d) (R3TCSV gw).
Proof.
  intros Hi Hh. rewrite R3TCSV_mask. apply loc_nth_kept; [exact Hi|].
  rewrite (nth_indep _ false (negb false))
    by (rewrite length_map, R3TCSV_duplicates_length, length_map; exact Hi).
  rewrite map_nth, R3TCSV_duplicates_spec by (rewrite length_map; exact Hi).
  apply negb_true_iff. unfold closes_flat3, run_head in *.
  apply orb_false_iff. apply orb_true_iff in Hh.
  split; apply andb_false_iff.
  - destruct (Nat.leb_spec 2 i) as [H2|H2]; [right|left; reflexivity].
    destruct Hh as [Hh|Hh]; [apply Nat.eqb_eq in Hh; lia|].
    unfold flat3_at. replace (i - 2 + 1)%nat with (i - 1)%nat by lia.
    replace (i - 2 + 2)%nat with i by lia.
    apply negb_true_iff in Hh. rewrite Hh, andb_false_r. reflexivity.
  - destruct (Nat.leb_spec 1 i) as [H1|H1]; [right|left; reflexivity].
    destruct Hh as [Hh|Hh]; [apply Nat.eqb_eq in Hh; lia|].
    unfold flat3_at. replace (i - 1 + 1)%nat with i by lia.
    apply negb_true_iff in Hh. rewrite Hh, andb_false_r. reflexivity.
Qed.

Lemma loc_ext (A : Type) (m1 m2 : list bool) (s : list A) :
  length m1 = length s -> length m2 = length s ->
  (forall i, (i < length s)%nat -> nth i m1 false = nth i m2 false) ->
  loc m1 s = loc m2 s.
Proof.
  intros H1 H2 H. f_equal. apply (nth_ext m1 m2 false false); [congruence|].
  intros i Hi. apply H. rewrite <- H1. exact Hi.
Qed.

(** Stage 1, exactly: row [i] is dropped if and only if it is the second or
    a later one of three equal values in a row. *)
Lemma R3TCSV_exact (gw : DailySeries) :
  R3TCSV gw
  = loc (map (fun i => negb (closes_flat3 (map value gw) i)) (seq 0 (length gw))) gw.
Proof.
  rewrite R3TCSV_mask. apply loc_ext.
  - rewrite length_map, R3TCSV_duplicates_length, length_map. reflexivity.
  - rewrite length_map, length_seq. reflexivity.
  - intros i Hi.
    rewrite (nth_indep _ false (negb false))
      by (rewrite length_map, R3TCSV_duplicates_length, length_map; exact Hi).
    rewrite map_nth, R3TCSV_duplicates_spec by (rewrite length_map; exact Hi).
    rewrite (nth_indep _ false ((fun i => negb (closes_flat3 (map value gw) i)) 0%nat))
      by (rewrite length_map, length_seq; exact Hi).
    rewrite (map_nth (fun i => negb (closes_flat3 (map value gw) i))).
    rewrite seq_nth by exact Hi. reflexivity.
Qed.


(** ** Sums, means and variances *)

Lemma sum_Q_map_ext (A : Type) (f g : A -> Q) (l : list A) :
  (forall x, In x l -> f x == g x) -> sum_Q (map f l) == sum_Q (map g l).
Proof.
  induction l as [|a l IH]; intros H; simpl.
  - reflexivity.
  - rewrite (H a) by (left; reflexivity). rewrite IH; [reflexivity|].
    intros x Hx. apply H. right. exact Hx.
Qed.

Lemma len_Q_cons (A : Type) (a : A) (l : list A) : len_Q (a :: l) == len_Q l + 1.
Proof.
  unfold len_Q. cbn [length]. rewrite Nat2Z.inj_succ, <- Z.add_1_r, inject_Z_plus.
  reflexivity.
Qed.

Lemma len_Q_nonneg (A : Type) (l : list A) : 0 <= len_Q l.
Proof.
  unfold len_Q. change 0 with (inject_Z 0). rewrite <- Zle_Qle. lia.
Qed.

Lemma len_Q_map (A B : Type) (f : A -> B) (l : list A) : len_Q (map f l) = len_Q l.
Proof. unfold len_Q. rewrite length_map. reflexivity. Qed.

Lemma len_Q_pos (A : Type) (a : A) (l : list A) : 0 < len_Q (a :: l).
Proof.
  rewrite len_Q_cons. generalize (len_Q_nonneg l). lra.
Qed.

Lemma sum_Q_map_sub (A : Type) (f : A -> Q) (m : Q) (l : list A) :
  sum_Q (map (fun x => f x - m) l) == sum_Q (map f l) - len_Q l * m.
Proof.
  induction l as [|a l IH].
  - change (0 == 0 - 0 * m). lra.
  - cbn [map sum_Q fold_right]. fold (sum_Q (map (fun x => f x - m) l)).
    fold (sum_Q (map f l)). rewrite IH, len_Q_cons. lra.
Qed.

Lemma mean_nonempty (x : Q) (l : list Q) :
  mean (x :: l) = Fin (sum_Q (x :: l) / len_Q (x :: l)).
Proof.
  unfold mean, Np.div.
  destruct (Qeq_bool (len_Q (x :: l)) 0) eqn:E; [|reflexivity].
  apply Qeq_bool_iff in E. generalize (len_Q_pos x l). lra.
Qed.

Lemma mean_empty : mean [] = NaN.
Proof. reflexivity. Qed.

Lemma deviations_nonempty (r : row) (gw : DailySeries) :
  deviations (r :: gw)
  = map (fun r' => value r' - sum_Q (map value (r :: gw)) / len_Q (map value (r :: gw)))
        (r :: gw).
Proof.
  unfold deviations. cbn [map]. rewrite mean_nonempty. reflexivity.
Qed.

Lemma deviations_length (gw : DailySeries) : length (deviations gw) = length gw.
Proof.
  destruct gw as [|r gw]; [reflexivity|].
  rewrite deviations_nonempty, length_map. reflexivity.
Qed.

(** The deviations from the mean sum to zero. *)
Lemma deviations_sum (gw : DailySeries) : sum_Q (deviations gw) == 0.
Proof.
  destruct gw as [|r gw]; [reflexivity|].
  rewrite deviations_nonempty.
  rewrite (sum_Q_map_sub value). rewrite len_Q_map.
  generalize (len_Q_pos r gw). intros Hpos. field. lra.
Qed.

Lemma abs_le_3std_Fin_ext (d a b : Q) :
  a == b -> abs_le_3std d (Fin a) = abs_le_3std d (Fin b).
Proof.
  intros H. unfold abs_le_3std. cbn [Np.mul Np.le]. rewrite H. reflexivity.
Qed.

(** [deviation.std()] is the sample standard deviation of the values: the
    deviations are re-centred on their own mean, which is zero. *)
Lemma std_of_deviations (gw : DailySeries) (d : Q) :
  abs_le_3std d (var_ddof1 (deviations gw))
  = abs_le_3std d (var_ddof1 (map value gw)).
Proof.
  destruct gw as [|r1 [|r2 gw]]; try reflexivity.
  assert (Hs := deviations_sum (r1 :: r2 :: gw)).
  assert (Hl := deviations_length (r1 :: r2 :: gw)).
  rewrite deviations_nonempty in *.
  set (m := sum_Q (map value (r1 :: r2 :: gw)) / len_Q (map value (r1 :: r2 :: gw))) in *.
  set (rows := r1 :: r2 :: gw) in *.
  assert (Hv1 : var_ddof1 (map (fun r' => value r' - m) rows)
    = Fin (sum_Q (map (fun x => sq (x - sum_Q (map (fun r' => value r' - m) rows)
                                          / len_Q (map (fun r' => value r' - m) rows)))
                      (map (fun r' => value r' - m) rows))
           / (len_Q (map (fun r' => value r' - m) rows) - 1))) by reflexivity.
  assert (Hv2 : var_ddof1 (map value rows)
    = Fin (sum_Q (map (fun x => sq (x - m)) (map value rows))
           / (len_Q (map value rows) - 1))) by reflexivity.
  rewrite Hv1, Hv2. apply abs_le_3std_Fin_ext.
  rewrite !len_Q_map, !map_map.
  assert (Hsum : sum_Q (map (fun x => sq (value x - m
                       - sum_Q (map (fun r' => value r' - m) rows) / len_Q rows)) rows)
                 == sum_Q (map (fun x => sq (value x - m)) rows)).
  { apply sum_Q_map_ext. intros x _. unfold sq. rewrite Hs.
    assert (Hpos := len_Q_pos r1 (r2 :: gw)). fold rows in Hpos. field. lra. }
  rewrite Hsum. reflexivity.
Qed.

(** ** Stage 2 as a filter *)

Lemma RVZ3_filter (gw : DailySeries) :
  RVZ3 gw = filter (zscore_keep var_ddof1 gw) gw.
Proof.
  destruct gw as [|r gw]; [reflexivity|].
  unfold RVZ3. rewrite deviations_nonempty.
  set (m := sum_Q (map value (r :: gw)) / len_Q (map value (r :: gw))).
  rewrite map_map, loc_map_filter. apply filter_ext. intros x.
  unfold zscore_keep.
  change (mean (map value (r :: gw))) with (mean (value r :: map value gw)).
  rewrite mean_nonempty.
  rewrite <- std_of_deviations, deviations_nonempty. reflexivity.
Qed.

Lemma RVZ3_within_3std (gw : DailySeries) :
  within_3std gw = true -> RVZ3 gw = gw.
Proof.
  intros H. unfold RVZ3. apply loc_all_true.
  - rewrite length_map, deviations_length. reflexivity.
  - intros i Hi. unfold within_3std in H. rewrite forallb_forall in H.
    rewrite (nth_indep _ false (abs_le_3std 0 (var_ddof1 (deviations gw))))
      by (rewrite length_map, deviations_length; exact Hi).
    rewrite (map_nth (fun d => abs_le_3std d (var_ddof1 (deviations gw)))).
    apply H. apply nth_In. rewrite deviations_length. exact Hi.
Qed.

(** ** Stage 3 *)

Lemma RDRVI_fold_id (med : npfloat) (years : list (row * row)) (gw : DailySeries) :
  (forall k, In k years ->
             RVI_out_of_bounds (RVI (value (fst k)) (value (snd k)) med) = false) ->
  fold_left (RDRVI_step med) years gw = gw.
Proof.
  induction years as [|k years IH]; intros H; [reflexivity|].
  cbn [fold_left]. unfold RDRVI_step at 2.
  rewrite (H k) by (left; reflexivity). apply IH.
  intros k' Hk'. apply H. right. exact Hk'.
Qed.

Lemma RDRVI_within_bounds (gw : DailySeries) :
  RVI_within_bounds gw = true -> RDRVI gw = gw.
Proof.
  intros H. unfold RDRVI. apply RDRVI_fold_id. intros k Hk.
  unfold RVI_within_bounds in H. rewrite forallb_forall in H.
  apply negb_true_iff. apply (H (value (fst k) - value (snd k))).
  unfold Range_Y. apply (in_map (fun k => value (fst k) - value (snd k))). exact Hk.
Qed.

Lemma filter_filter (A : Type) (f g : A -> bool) (l : list A) :
  filter f (filter g l) = filter (fun x => g x && f x) l.
Proof.
  induction l as [|a l IH]; [reflexivity|]. cbn [filter].
  destruct (g a); cbn [filter andb]; [destruct (f a)|]; rewrite IH; reflexivity.
Qed.

(** Stage 3, exactly: a row is dropped if and only if it lies in the closed
    interval from the first day of some out-of-bounds water year to the same
    day one year later; every year is judged with the median range of the
    series as it entered the stage. *)
Lemma RDRVI_exact (gw : DailySeries) :
  RDRVI gw
  = filter (fun r =>
      negb (existsb (fun k =>
              RVI_out_of_bounds (RVI (value (fst k)) (value (snd k))
                                     (median (Range_Y gw)))
              && (Ts.leb (date (fst k)) (date r)
                  && Ts.leb (date r) (Ts.add_years (date (fst k)) 1)))
            (combine (Max_Y gw) (Min_Y gw)))) gw.
Proof.
  unfold RDRVI. generalize (median (Range_Y gw)).
  generalize (combine (Max_Y gw) (Min_Y gw)). generalize gw.
  intros s years med. revert s. induction years as [|k years IH]; intros s.
  - cbn [fold_left existsb negb]. induction s as [|a s IHs]; [reflexivity|].
    cbn [filter]. rewrite <- IHs. reflexivity.
  - cbn [fold_left existsb]. rewrite IH. unfold RDRVI_step.
    destruct (RVI_out_of_bounds _) eqn:E.
    + unfold remove_year. rewrite filter_filter. apply filter_ext. intros r.
      cbn [andb]. rewrite negb_orb. reflexivity.
    + apply filter_ext. intros r. reflexivity.
Qed.

(** Every stage returns a sub-series of its input. *)
Lemma remove_year_incl (start : Timestamp) (gw : DailySeries) (r : row) :
  In r (remove_year start gw) -> In r gw.
Proof. unfold remove_year. intros H. apply filter_In in H. tauto. Qed.

Lemma RDRVI_fold_incl (med : npfloat) (years : list (row * row)) (gw : DailySeries) (r : row) :
  In r (fold_left (RDRVI_step med) years gw) -> In r gw.
Proof.
  revert gw. induction years as [|k years IH]; intros gw H; [exact H|].
  cbn [fold_left] in H. apply IH in H. unfold RDRVI_step in H.
  destruct (RVI_out_of_bounds _); [apply remove_year_incl in H|]; exact H.
Qed.

Lemma quality_control_incl (gw : DailySeries) (r : row) :
  In r (quality_control gw) -> In r gw.
Proof.
  unfold quality_control, RDRVI. intros H.
  apply RDRVI_fold_incl in H. unfold RVZ3 in H. apply loc_In in H.
  rewrite R3TCSV_mask in H. apply loc_In in H. exact H.
Qed.

(** ** The classifier *)

Lemma step_change_true (R2 : npfloat) (w t : Z) (b : bool) :
  step_change R2 w t = Ok b ->
  (b = true <->
   Np.ge R2 (Fin (7 # 10)) = true
   /\ inject_Z w / inject_Z t <= 1 # 2
   /\ (w <= 15)%Z).
Proof.
  unfold step_change. destruct (Np.ge R2 (Fin (7 # 10))).
  - destruct (t =? 0)%Z; [discriminate|]. intros H. inversion H; subst b. clear H.
    rewrite andb_true_iff, Qle_bool_iff, Z.leb_le. tauto.
  - intros H. inversion H; subst b. split; [discriminate|]. intros [H1 _]. discriminate.
Qed.

Lemma dead_zone_nonneg (v : variant) : 0 <= dead_zone v.
Proof. destruct v; unfold dead_zone; apply Qle_bool_iff; reflexivity. Qed.

Lemma Qlt_bool_iff (a b : Q) : Qlt_bool a b = true <-> a < b.
Proof.
  unfold Qlt_bool. rewrite negb_true_iff. split.
  - intros H. apply Qnot_le_lt. intros Hle. apply Qle_bool_iff in Hle. congruence.
  - intros H. destruct (Qle_bool b a) eqn:E; [|reflexivity].
    apply Qle_bool_iff in E. lra.
Qed.

Section ClassifierFacts.

Variable theilslopes : list Q -> list Q -> option Q.
Variable curve_fit : list Q -> list Q -> params -> params -> params -> result params.
Variable v : variant.

Lemma slope_of_cases (YMG : list yrow) :
  slope_of theilslopes YMG = NaN \/ exists s, slope_of theilslopes YMG = Fin s.
Proof.
  unfold slope_of. destruct (theilslopes _ _) as [s|]; [right; exists s|left]; reflexivity.
Qed.

(** The two sides of the dead-zone exclude each other. *)
Lemma above_not_below (s : npfloat) :
  Np.gt s (Fin (dead_zone v)) = true -> Np.lt s (Fin (- dead_zone v)) = false.
Proof.
  destruct s as [q| | |]; cbn; try reflexivity; try discriminate.
  intros H. apply Qlt_bool_iff in H.
  destruct (Qlt_bool q (- dead_zone v)) eqn:E; [|reflexivity].
  apply Qlt_bool_iff in E. generalize (dead_zone_nonneg v). lra.
Qed.

(** What a returned classification went through. *)
Lemma classidication_inv (YMG0 : list row) (c : classification) :
  classidication theilslopes curve_fit v YMG0 = Ok c ->
  exists YMG a0 a1 total_year,
    with_sequence YMG0 = Ok YMG
    /\ py_min (map y_value YMG) = Ok a0
    /\ py_max (map y_value YMG) = Ok a1
    /\ suddenchange curve_fit (map seq_Q YMG) (map y_value YMG) YMG a0 a1
       = Ok (pw_R2 c, windows c, total_year, start_year c, end_year c)
    /\ ts_slope c = slope_of theilslopes YMG
    /\ ((Np.lt (ts_slope c) (Fin (- dead_zone v)) = true
         /\ exists b, step_change (pw_R2 c) (windows c) total_year = Ok b
            /\ label c =
               if b then SuddenUpwardChange
               else if forallb (fun item => Np.lt item (Fin (1 # 10)))
                               (trendstable theilslopes YMG)
                    then Increasing else NoTrend)
        \/ (Np.lt (ts_slope c) (Fin (- dead_zone v)) = false
            /\ Np.gt (ts_slope c) (Fin (dead_zone v)) = true
            /\ exists b, step_change (pw_R2 c) (windows c) total_year = Ok b
               /\ label c =
                  if b then SuddenDownwardChange
                  else if forallb (fun item => Np.gt item (Fin (- (2 # 100))))
                                  (trendstable theilslopes YMG)
                       then Decreasing else NoTrend)
        \/ (Np.lt (ts_slope c) (Fin (- dead_zone v)) = false
            /\ Np.gt (ts_slope c) (Fin (dead_zone v)) = false
            /\ label c = NoTrend)).
Proof.
  unfold classidication.
  destruct (with_sequence YMG0) as [YMG|e] eqn:Hseq; [|discriminate].
  cbn [bind].
  destruct (Np.lt (slope_of theilslopes YMG) (Fin (- dead_zone v))) eqn:Hlt;
    [|destruct (Np.gt (slope_of theilslopes YMG) (Fin (dead_zone v))) eqn:Hgt];
    (destruct (py_min (map y_value YMG)) as [a0|] eqn:Hmin; [|discriminate]);
    (destruct (py_max (map y_value YMG)) as [a1|] eqn:Hmax; [|discriminate]);
    cbn [bind];
    (destruct (suddenchange curve_fit (map seq_Q YMG) (map y_value YMG) YMG a0 a1)
       as [[[[[R2 w] t] sy] ey]|] eqn:Hsc; [|discriminate]);
    cbn [bind].
  - destruct (step_change R2 w t) as [b|] eqn:Hstep; [|discriminate].
    cbn [bind]. intros H. inversion H; subst c; clear H. cbn.
    exists YMG, a0, a1, t. repeat split; auto.
    left. split; [exact Hlt|]. exists b. split; [exact Hstep|reflexivity].
  - destruct (step_change R2 w t) as [b|] eqn:Hstep; [|discriminate].
    cbn [bind]. intros H. inversion H; subst c; clear H. cbn.
    exists YMG, a0, a1, t. repeat split; auto.
    right; left. repeat split; auto. exists b. split; [exact Hstep|reflexivity].
  - intros H. inversion H; subst c; clear H. cbn.
    exists YMG, a0, a1, t. repeat split; auto.
Qed.

End ClassifierFacts.

Lemma Ts_eqb_eq (a b : Timestamp) : Ts.eqb a b = true <-> a = b.
Proof.
  unfold Ts.eqb. rewrite !andb_true_iff, !Z.eqb_eq. destruct a, b; cbn. split.
  - intros [[-> ->] ->]. reflexivity.
  - intros H. inversion H. auto.
Qed.




Lemma quotient_product_sign (s1 s2 : Q) :
  ~ s2 == 0 ->
  Np.gt (Np.div (Fin s1) (Fin s2)) (Fin 0) = Np.gt (Np.mul (Fin s1) (Fin s2)) (Fin 0).
Proof.
  intros Hs2. unfold Np.div.
  destruct (Qeq_bool s2 0) eqn:E; [apply Qeq_bool_iff in E; contradiction|].
  cbn. apply eq_true_iff_eq. rewrite !Qlt_bool_iff.
  assert (Hsq : 0 < s2 * s2) by nra.
  assert (Hq : s1 * s2 == s1 / s2 * (s2 * s2)) by (field; exact Hs2).
  rewrite Hq. split; intros H; nra.
Qed.

Section ClassifierClaims.

Variable theilslopes : list Q -> list Q -> option Q.
Variable curve_fit : list Q -> list Q -> params -> params -> params -> result params.
Variable v : variant.

(** A label other than 'No trend' comes with a finite, non-zero slope. *)
Lemma trend_slope_nonzero (YMG0 : list row) (c : classification) :
  classidication theilslopes curve_fit v YMG0 = Ok c ->
  label c <> NoTrend ->
  exists s, ts_slope c = Fin s /\ ~ s == 0.
Proof.
  intros H Hl. apply classidication_inv in H.
  destruct H as (YMG & a0 & a1 & t & _ & _ & _ & _ & Hs & Hcase).
  destruct (slope_of_cases theilslopes YMG) as [Hn|[s Hf]]; rewrite <- Hs in *.
  - rewrite Hn in Hcase. cbn in Hcase.
    destruct Hcase as [[H _]|[(_ & H & _)|(_ & _ & H)]]; try discriminate. contradiction.
  - exists s. split; [exact Hf|]. rewrite Hf in Hcase. cbn in Hcase.
    generalize (dead_zone_nonneg v). intros Hdz.
    destruct Hcase as [[H _]|[(_ & H & _)|(_ & _ & H)]]; [| |contradiction];
      apply Qlt_bool_iff in H; lra.
Qed.

(** C2.  On every annual series that [classidication] classifies: below the
    dead-zone the label is 'Sudden upward change' exactly when the
    piecewise fit has R2 >= 0.7, window / total years <= 0.5 and window
    <= 15; above the dead-zone the same holds for 'Sudden downward change';
    inside the dead-zone the label is 'No trend' whatever the fit says,
    and the fit is still run: its R2 and window are the ones returned. *)
Theorem classidication_step_change_rule (YMG0 : list row) (c : classification) :
  classidication theilslopes curve_fit v YMG0 = Ok c ->
  exists YMG a0 a1 total_year,
    with_sequence YMG0 = Ok YMG
    /\ ts_slope c = slope_of theilslopes YMG
    /\ py_min (map y_value YMG) = Ok a0
    /\ py_max (map y_value YMG) = Ok a1
    /\ suddenchange curve_fit (map seq_Q YMG) (map y_value YMG) YMG a0 a1
       = Ok (pw_R2 c, windows c, total_year, start_year c, end_year c)
    /\ let fit_passes :=
         Np.ge (pw_R2 c) (Fin (7 # 10)) = true
         /\ inject_Z (windows c) / inject_Z total_year <= 1 # 2
         /\ (windows c <= 15)%Z in
       (Np.lt (ts_slope c) (Fin (- dead_zone v)) = true ->
        (label c = SuddenUpwardChange <-> fit_passes)
        /\ label c <> SuddenDownwardChange)
       /\ (Np.gt (ts_slope c) (Fin (dead_zone v)) = true ->
           (label c = SuddenDownwardChange <-> fit_passes)
           /\ label c <> SuddenUpwardChange)
       /\ (Np.lt (ts_slope c) (Fin (- dead_zone v)) = false ->
           Np.gt (ts_slope c) (Fin (dead_zone v)) = false ->
           label c = NoTrend).
Proof.
  intros H. apply classidication_inv in H.
  destruct H as (YMG & a0 & a1 & t & Hseq & Hmin & Hmax & Hsc & Hs & Hcase).
  exists YMG, a0, a1, t.
  split; [exact Hseq|]. split; [exact Hs|]. split; [exact Hmin|].
  split; [exact Hmax|]. split; [exact Hsc|].
  cbv zeta. split; [|split].
  - (* below the dead-zone *)
    intros Hlt.
    destruct Hcase as [(_ & b & Hstep & Hl)|[(Hf & _)|(Hf & _)]]; try congruence.
    apply step_change_true in Hstep. rewrite <- Hstep.
    rewrite Hl. destruct b; [|destruct (forallb _ _)]; split;
      try (split; congruence); congruence.
  - (* above the dead-zone *)
    intros Hgt. assert (Hlt := above_not_below v _ Hgt).
    destruct Hcase as [(Hf & _)|[(_ & _ & b & Hstep & Hl)|(_ & Hf & _)]]; try congruence.
    apply step_change_true in Hstep. rewrite <- Hstep.
    rewrite Hl. destruct b; [|destruct (forallb _ _)]; split;
      try (split; congruence); congruence.
  - (* inside the dead-zone *)
    intros Hlt Hgt.
    destruct Hcase as [(Hf & _)|[(_ & Hf & _)|(_ & _ & Hl)]]; congruence.
Qed.


Lemma trend_eqb_NoTrend (t : trend) : trend_eqb t NoTrend = true <-> t = NoTrend.
Proof. destruct t; cbn; split; congruence. Qed.

Lemma agreement_rule (W1 W2 : list row) (c1 c2 : classification) :
  classidication theilslopes curve_fit v W1 = Ok c1 ->
  classidication theilslopes curve_fit v W2 = Ok c2 ->
  agreement c1 c2 = Consistent
  <-> (label c1 = NoTrend \/ label c2 = NoTrend
       \/ Np.gt (Np.mul (ts_slope c1) (ts_slope c2)) (Fin 0) = true).
Proof.
  intros H1 H2. unfold agreement.
  destruct (trend_eqb (label c1) NoTrend) eqn:E1.
  { apply trend_eqb_NoTrend in E1. cbn. tauto. }
  destruct (trend_eqb (label c2) NoTrend) eqn:E2.
  { apply trend_eqb_NoTrend in E2. cbn. tauto. }
  assert (N1 : label c1 <> NoTrend).
  { intros E. apply trend_eqb_NoTrend in E. congruence. }
  assert (N2 : label c2 <> NoTrend).
  { intros E. apply trend_eqb_NoTrend in E. congruence. }
  destruct (trend_slope_nonzero _ H1 N1) as (s1 & Hs1 & _).
  destruct (trend_slope_nonzero _ H2 N2) as (s2 & Hs2 & Hnz).
  rewrite Hs1, Hs2, (quotient_product_sign s1 Hnz). cbn [orb].
  destruct (Np.gt (Np.mul (Fin s1) (Fin s2)) (Fin 0)); split; try tauto; try congruence.
  intros [H|[H|H]]; congruence.
Qed.


(** C3 as the code has it.  Nothing in [suddenchange] or [classidication]
    catches what [curve_fit] raises: the exception leaves [classidication]
    unchanged, no label is produced and the leave-one-out path is not
    taken. *)
Theorem fit_failure_propagates (YMG0 : list row) (YMG : list yrow)
    (s2 s1 : Z) (a0 a1 : Q) (e : exn) :
  with_sequence YMG0 = Ok YMG ->
  iloc_back 1 (map sequence YMG) = Ok s2 ->
  iloc_back 0 (map sequence YMG) = Ok s1 ->
  py_min (map y_value YMG) = Ok a0 ->
  py_max (map y_value YMG) = Ok a1 ->
  curve_fit (map seq_Q YMG) (map y_value YMG)
            (fit_p0 s2 a0 a1) fit_lower (fit_upper s2 s1) = Raise e ->
  classidication theilslopes curve_fit v YMG0 = Raise e.
Proof.
  intros Hseq Hs2 Hs1 Hmin Hmax Hfit.
  assert (Hsc : suddenchange curve_fit (map seq_Q YMG) (map y_value YMG) YMG a0 a1
                = Raise e).
  { unfold suddenchange.
    destruct (iloc_first (map y_date YMG)) as [fy|] eqn:Hf.
    - destruct (iloc_back 0 (map y_date YMG)) as [ly|] eqn:Hl.
      + cbn [bind]. rewrite Hs2, Hs1. cbn [bind]. rewrite Hfit. reflexivity.
      + exfalso. unfold iloc_back in Hl, Hs1.
        rewrite <- map_rev, nth_error_map in Hl.
        rewrite <- map_rev, nth_error_map in Hs1.
        destruct (nth_error (rev YMG) 0); cbn in *; discriminate.
    - exfalso. destruct YMG; cbn in *; discriminate. }
  unfold classidication. rewrite Hseq. cbn [bind].
  rewrite Hmin, Hmax. cbn [bind]. rewrite Hsc. cbn [bind].
  destruct (Np.lt _ _); [reflexivity|]. destruct (Np.gt _ _); reflexivity.
Qed.

End ClassifierClaims.

(** ** Series of identical values *)

Lemma sum_Q_zero (A : Type) (f : A -> Q) (l : list A) :
  (forall x, In x l -> f x == 0) -> sum_Q (map f l) == 0.
Proof.
  induction l as [|a l IH]; intros H; [reflexivity|].
  cbn [map sum_Q fold_right]. fold (sum_Q (map f l)).
  rewrite (H a) by (left; reflexivity). rewrite IH; [lra|].
  intros x Hx. apply H. right. exact Hx.
Qed.

Lemma sum_Q_const (l : list Q) (k : Q) :
  (forall y, In y l -> y == k) -> sum_Q l == len_Q l * k.
Proof.
  induction l as [|a l IH]; intros H.
  - change (0 == 0 * k). lra.
  - cbn [sum_Q fold_right]. fold (sum_Q l).
    assert (Ha : a == k) by (apply H; left; reflexivity).
    assert (Hl : sum_Q l == len_Q l * k).
    { apply IH. intros y Hy. apply H. right. exact Hy. }
    rewrite len_Q_cons, Hl. nra.
Qed.

Lemma sum_Q_squares_nonneg (A : Type) (f : A -> Q) (l : list A) :
  0 <= sum_Q (map (fun x => sq (f x)) l).
Proof.
  induction l as [|a l IH]; [apply Qle_refl|].
  cbn [map sum_Q fold_right]. fold (sum_Q (map (fun x => sq (f x)) l)).
  unfold sq at 1. nra.
Qed.

(** With no spread in the data the R2 of any fitted curve is [1 - x / 0]:
    NaN for a perfect fit, minus infinity otherwise. *)
Lemma insert_sorted_Forall (P : Q -> Prop) (x : Q) (l : list Q) :
  P x -> Forall P l -> Forall P (insert_sorted x l).
Proof.
  intros Hx Hl. induction Hl as [|y l Hy Hl IH]; cbn [insert_sorted].
  - constructor; auto.
  - destruct (Qle_bool x y); repeat constructor; auto.
Qed.

Lemma sort_Q_Forall (P : Q -> Prop) (l : list Q) :
  Forall P l -> Forall P (sort_Q l).
Proof.
  intros H. induction H as [|x l Hx Hl IH]; [constructor|].
  cbn [sort_Q fold_right]. apply insert_sorted_Forall; assumption.
Qed.

Lemma Forall_nth_Q (P : Q -> Prop) (l : list Q) (i : nat) :
  Forall P l -> (i < length l)%nat -> P (nth i l 0).
Proof.
  intros H Hi. rewrite Forall_forall in H. apply H. apply nth_In. exact Hi.
Qed.

Lemma median_zero (l : list Q) :
  Forall (fun s => s == 0) l -> median l = NaN \/ exists s, median l = Fin s /\ s == 0.
Proof.
  intros H. apply sort_Q_Forall in H. unfold median.
  set (s := sort_Q l) in *. destruct (length s) as [|n] eqn:Hn; [left; reflexivity|].
  right. rewrite <- Hn.
  assert (Hpos : (0 < length s)%nat) by lia.
  assert (H1 : (length s / 2 < length s)%nat) by (apply Nat.div_lt; lia).
  assert (H2 : (length s / 2 - 1 < length s)%nat) by lia.
  destruct (Nat.even (length s)).
  - eexists. split; [reflexivity|].
    rewrite (Forall_nth_Q H H1), (Forall_nth_Q H H2). reflexivity.
  - eexists. split; [reflexivity|]. apply (Forall_nth_Q H H1).
Qed.

Lemma pairwise_slopes_constant (y x : list Q) (k : Q) :
  (forall v, In v y -> v == k) -> Forall (fun s => s == 0) (pairwise_slopes y x).
Proof.
  intros Hk. apply Forall_forall. intros s Hs. unfold pairwise_slopes in Hs.
  apply in_flat_map in Hs. destruct Hs as (pi & Hpi & Hs).
  apply in_flat_map in Hs. destruct Hs as (pj & Hpj & Hs).
  destruct (Qlt_bool 0 (fst pi - fst pj)) eqn:E; [|destruct Hs].
  destruct Hs as [<-|[]]. apply Qlt_bool_iff in E.
  destruct pi as [xi yi], pj as [xj yj]. cbn [fst snd] in *.
  apply in_combine_r in Hpi, Hpj.
  rewrite (Hk yi Hpi), (Hk yj Hpj). field. lra.
Qed.

(** The Theil--Sen slope of a constant series is zero, or NaN when all
    abscissae coincide; either way it lies in the dead-zone. *)
Lemma theil_sen_constant_in_dead_zone (v : variant) (YMG : list yrow) (k : Q) :
  (forall r, In r YMG -> y_value r == k) ->
  Np.lt (slope_of theil_sen YMG) (Fin (- dead_zone v)) = false
  /\ Np.gt (slope_of theil_sen YMG) (Fin (dead_zone v)) = false.
Proof.
  intros Hk. unfold slope_of, theil_sen.
  assert (Hy : forall y, In y (map y_value YMG) -> y == k).
  { intros y Hy. apply in_map_iff in Hy. destruct Hy as (r & <- & Hr). auto. }
  destruct (@median_zero _
              (@pairwise_slopes_constant (map y_value YMG) (map seq_Q YMG) k Hy))
    as [->|(s & -> & Hs)]; [split; reflexivity|].
  generalize (dead_zone_nonneg v). intros Hdz. cbn. split.
  - destruct (Qlt_bool s (- dead_zone v)) eqn:E; [|reflexivity].
    apply Qlt_bool_iff in E. lra.
  - destruct (Qlt_bool (dead_zone v) s) eqn:E; [|reflexivity].
    apply Qlt_bool_iff in E. lra.
Qed.

Lemma loc_all_false (A : Type) (mask : list bool) (s : list A) :
  (forall i, (i < length s)%nat -> nth i mask false = false) -> loc mask s = [].
Proof.
  revert s. induction mask as [|b mask IH]; intros [|x s] H; try reflexivity.
  cbn [loc]. generalize (H 0%nat ltac:(cbn; lia)). cbn [nth]. intros ->.
  apply IH. intros i Hi. apply (H (S i)). cbn. lia.
Qed.

Lemma flat3_at_constant (vs : list Q) (k : Q) (i : nat) :
  (forall x, In x vs -> x == k) -> (i + 2 < length vs)%nat -> flat3_at vs i = true.
Proof.
  intros Hk Hi. unfold flat3_at.
  assert (H0 : nth i vs 0 == k) by (apply Hk, nth_In; lia).
  assert (H1 : nth (i + 1) vs 0 == k) by (apply Hk, nth_In; lia).
  assert (H2 : nth (i + 2) vs 0 == k) by (apply Hk, nth_In; lia).
  rewrite !andb_true_iff, Nat.ltb_lt, !Qeq_bool_iff, H0, H1, H2.
  repeat split; auto; reflexivity.
Qed.

(** Of three or more identical readings stage 1 keeps the first one only. *)
Lemma R3TCSV_constant (r : row) (gw : DailySeries) (k : Q) :
  (2 <= length gw)%nat -> (forall x, In x (r :: gw) -> value x == k) ->
  R3TCSV (r :: gw) = [r].
Proof.
  intros Hn Hk. rewrite R3TCSV_mask.
  set (vs := map value (r :: gw)).
  assert (Hvs : forall x, In x vs -> x == k).
  { intros x Hx. apply in_map_iff in Hx. destruct Hx as (y & <- & Hy). auto. }
  assert (Hlen : length vs = S (length gw)) by (unfold vs; rewrite length_map; reflexivity).
  assert (Hm : forall i, (i < length vs)%nat ->
                         nth i (map negb (R3TCSV_duplicates vs)) false
                         = negb (closes_flat3 vs i)).
  { intros i Hi. rewrite (nth_indep _ false (negb false))
      by (rewrite length_map, R3TCSV_duplicates_length; exact Hi).
    rewrite map_nth, R3TCSV_duplicates_spec by exact Hi. reflexivity. }
  destruct (map negb (R3TCSV_duplicates vs)) as [|b mask] eqn:Emask.
  { exfalso. apply (f_equal (@length bool)) in Emask.
    rewrite length_map, R3TCSV_duplicates_length, Hlen in Emask. discriminate. }
  cbn [loc].
  assert (Hb : b = true).
  { generalize (Hm 0%nat ltac:(lia)). cbn [nth]. intros ->. reflexivity. }
  rewrite Hb. f_equal. apply loc_all_false. intros i Hi.
  generalize (Hm (S i) ltac:(lia)). cbn [nth]. intros ->.
  apply negb_false_iff. unfold closes_flat3.
  destruct i as [|i].
  - apply orb_true_iff. right. cbn [Nat.leb Nat.sub andb].
    apply (@flat3_at_constant vs k 0 Hvs). lia.
  - apply orb_true_iff. left. replace (S (S i) - 2)%nat with i by lia.
    cbn [Nat.leb andb]. apply (@flat3_at_constant vs k i Hvs). lia.
Qed.

Lemma RVZ3_single (r : row) : RVZ3 [r] = [].
Proof.
  unfold RVZ3. rewrite deviations_nonempty. reflexivity.
Qed.

(** The quality filter leaves nothing of three or more identical readings:
    stage 1 keeps one row, whose standard deviation is NaN, and stage 2
    drops it. *)
Lemma quality_control_constant (gw : DailySeries) (k : Q) :
  (3 <= length gw)%nat -> (forall x, In x gw -> value x == k) ->
  var_ddof1 (deviations (R3TCSV gw)) = NaN /\ quality_control gw = [].
Proof.
  intros Hn Hk. destruct gw as [|r gw]; [cbn in Hn; lia|].
  assert (H1 : R3TCSV (r :: gw) = [r]).
  { apply (@R3TCSV_constant r gw k); [cbn in Hn; lia|exact Hk]. }
  unfold quality_control. rewrite H1. split.
  - rewrite deviations_nonempty. reflexivity.
  - rewrite RVZ3_single. reflexivity.
Qed.

Lemma with_sequence_values (YMG0 : list row) (YMG : list yrow) :
  with_sequence YMG0 = Ok YMG -> map y_value YMG = map value YMG0.
Proof.
  unfold with_sequence. destruct (iloc_first (map date YMG0)); cbn [bind]; [|discriminate].
  intros H. inversion H. rewrite map_map. reflexivity.
Qed.

Lemma suddenchange_R2 (curve_fit : list Q -> list Q -> params -> params -> params -> result params)
    (xx yy : list Q) (YMG : list yrow) (a0 a1 : Q)
    (R2 : npfloat) (w t : Z) (sy ey : Timestamp) :
  suddenchange curve_fit xx yy YMG a0 a1 = Ok (R2, w, t, sy, ey) ->
  exists fitted, R2 = r_squared (map (piecewise fitted) xx) yy.
Proof.
  unfold suddenchange.
  destruct (iloc_first (map y_date YMG)); cbn [bind]; [|discriminate].
  destruct (iloc_back 0 (map y_date YMG)); cbn [bind]; [|discriminate].
  destruct (iloc_back 1 (map sequence YMG)); cbn [bind]; [|discriminate].
  destruct (iloc_back 0 (map sequence YMG)); cbn [bind]; [|discriminate].
  destruct (curve_fit _ _ _ _ _) as [fitted|]; cbn [bind]; [|discriminate].
  intros H. inversion H. exists fitted. reflexivity.
Qed.

(** ** The station gate of DownloadData.py *)

Lemma station_summary_insufficient (gd : DailySeries) :
  (length gd <= 100)%nat \/ (length (annual (monthly gd)) <= 8)%nat ->
  station_summary gd = Ok (mkOutput NoEnoughData None).
Proof.
  intros H. unfold station_summary.
  assert (E : (length gd <=? 100)%nat || (length (annual (monthly gd)) <=? 8)%nat = true).
  { apply orb_true_iff. rewrite !Nat.leb_le. exact H. }
  rewrite E. reflexivity.
Qed.

Lemma station_summary_qualified (gd : DailySeries) :
  (100 < length gd)%nat -> (8 < length (annual (monthly gd)))%nat ->
  Np.le (mean (map value (annual (monthly gd)))) (Fin 0) = false ->
  exists stats, station_summary gd = Ok (mkOutput stats (Some (annual (monthly gd))))
                /\ stats <> NoEnoughData /\ stats <> NegativeMeanDepth.
Proof.
  intros Hgd Hy Hmean. unfold station_summary.
  assert (E : (length gd <=? 100)%nat || (length (annual (monthly gd)) <=? 8)%nat = false).
  { apply orb_false_iff. split; apply Nat.leb_gt; assumption. }
  rewrite E, Hmean.
  destruct (annual (monthly gd)) as [|y YMG] eqn:EY; [cbn in Hy; lia|].
  destruct gd as [|g gd]; [cbn in Hgd; lia|].
  cbn [map iloc_first bind].
  assert (Hlast : exists l, iloc_back 0 (date y :: map date YMG) = Ok l).
  { unfold iloc_back. destruct (nth_error (rev (date y :: map date YMG)) 0) eqn:El.
    - eexists; reflexivity.
    - apply nth_error_None in El. rewrite length_rev in El. cbn in El. lia. }
  destruct Hlast as (l & ->). cbn [bind py_max py_min].
  eexists. split; [reflexivity|]. split; discriminate.
Qed.

(** ** Stage 1 on a flat run *)

(** C1.  On the five readings 1, 5, 5, 5, 2 the middle three form a maximal
    run of three equal values; stage 1 drops its second and third rows and
    keeps the row that opens the run, so the run is not entirely absent from
    the output.  The rows outside the run are kept. *)
Theorem R3TCSV_keeps_first_of_flat_run :
  flat3_at (map value flat_run_series) 1 = true
  /\ run_head (map value flat_run_series) 1 = true
  /\ R3TCSV flat_run_series = [on 2001 1 1 1; on 2001 1 2 5; on 2001 1 5 2]
  /\ In (on 2001 1 2 5) (R3TCSV flat_run_series).
Proof.
  split; [reflexivity|]. split; [reflexivity|]. split; [reflexivity|].
  right. left. reflexivity.
Qed.

(** ** Stage 2 and the two standard deviations *)

(** C5, counterexample.  The last of the eleven readings lies more than
    three population standard deviations from the mean, and stage 2 keeps
    it. *)
Lemma RVZ3_keeps_beyond_3_population_std :
  R3TCSV borderline_series = borderline_series
  /\ zscore_keep var_ddof0 borderline_series (on 2001 1 11 6) = false
  /\ In (on 2001 1 11 6) (RVZ3 borderline_series).
Proof.
  split; [reflexivity|]. split; [reflexivity|].
  vm_compute. do 10 right. left. reflexivity.
Qed.

(** C5 as the code has it.  Stage 2 is one pass over the series it is given:
    with the mean and the sample standard deviation (divisor n - 1, pandas'
    default) of that series, the output holds exactly the rows with
    |v - mean| <= 3 std, in their order.  With fewer than two rows the
    standard deviation is NaN and no row passes. *)
Theorem RVZ3_sample_standard_deviation (gw : DailySeries) :
  RVZ3 gw = filter (zscore_keep var_ddof1 gw) gw
  /\ (forall r, In r (RVZ3 gw) <-> In r gw /\ zscore_keep var_ddof1 gw r = true)
  /\ ((length gw < 2)%nat -> RVZ3 gw = []).
Proof.
  split; [apply RVZ3_filter|]. split.
  - intros r. rewrite RVZ3_filter. apply filter_In.
  - intros Hn. destruct gw as [|r [|r' gw]]; [reflexivity|apply RVZ3_single|cbn in Hn; lia].
Qed.

Lemma RVZ3_sample_standard_deviation_witness :
  (length [on 2001 1 1 4] < 2)%nat /\ RVZ3 [on 2001 1 1 4] = [].
Proof.
  split; [cbn; lia|].
  apply (RVZ3_sample_standard_deviation [on 2001 1 1 4]). cbn. lia.
Defined.

(** ** Stage 3 and the first of October *)

(** An out-of-bounds water year empties the closed interval from its first
    day to the same day a year later. *)
Lemma RDRVI_clears_closed_interval (gw : DailySeries) (k : row * row) (r : row) :
  In k (combine (Max_Y gw) (Min_Y gw)) ->
  RVI_out_of_bounds (RVI (value (fst k)) (value (snd k)) (median (Range_Y gw))) = true ->
  In r (RDRVI gw) ->
  Ts.leb (date (fst k)) (date r) && Ts.leb (date r) (Ts.add_years (date (fst k)) 1) = false.
Proof.
  unfold RDRVI. generalize (median (Range_Y gw)).
  generalize (combine (Max_Y gw) (Min_Y gw)). generalize gw.
  intros s years med. revert s. induction years as [|k' years IH]; intros s Hk Hout Hr.
  - destruct Hk.
  - cbn [fold_left] in Hr. destruct Hk as [->|Hk].
    + apply RDRVI_fold_incl in Hr. unfold RDRVI_step in Hr. rewrite Hout in Hr.
      unfold remove_year in Hr. apply filter_In in Hr. destruct Hr as [_ Hr].
      apply negb_true_iff in Hr. exact Hr.
    + apply (IH _ Hk Hout Hr).
Qed.

Lemma add_years_october_first (y k : Z) :
  Ts.add_years (mkTs y 10 1) k = mkTs (y + k) 10 1.
Proof. reflexivity. Qed.

(** The upper end of that interval is the first day of the following water
    year, not a day of the year being removed. *)
Lemma next_october_first (t : Timestamp) :
  Ts.water_year (Ts.add_years (Ts.water_year t) 1) = Ts.add_years (Ts.water_year t) 1
  /\ Ts.eqb (Ts.add_years (Ts.water_year t) 1) (Ts.water_year t) = false.
Proof.
  unfold Ts.water_year at 2 3 4 5.
  destruct (10 <=? month t)%Z; rewrite add_years_october_first;
    (split; [reflexivity|]); unfold Ts.eqb; cbn [year month day];
    apply andb_false_iff; left; apply andb_false_iff; left; apply Z.eqb_neq; lia.
Qed.

(** The text of the label decides 'No trend' as the enumeration does: the
    comparison [Trend == 'No trend'] of the pair scorer. *)
Lemma label_text_NoTrend (v : variant) (t : trend) :
  label_text v t = "No trend"%string <-> t = NoTrend.
Proof.
  destruct v, t; cbn; split; intros H; try reflexivity; discriminate.
Qed.

(** C4.  Water year 2000/01 of the five readings has RVI 1/10.5 and is
    removed; water year 2001/02 has RVI 20/10.5, inside [0.2, 5], and still
    loses its reading of 1 October 2001: the removal runs up to and
    including the first day of the following water year. *)
Theorem RDRVI_removes_next_october_first :
  RVZ3 (R3TCSV two_year_series) = two_year_series
  /\ median (Range_Y two_year_series) = Fin (21 # 2)
  /\ RVI_out_of_bounds (RVI 11 10 (median (Range_Y two_year_series))) = true
  /\ RVI_out_of_bounds (RVI 30 10 (median (Range_Y two_year_series))) = false
  /\ in_water_year (mkTs 2001 10 1) (on 2001 10 1 10) = true
  /\ In (on 2001 10 1 10) two_year_series
  /\ RDRVI two_year_series = [on 2002 1 1 30; on 2002 5 1 20]
  /\ ~ In (on 2001 10 1 10) (RDRVI two_year_series).
Proof.
  split; [reflexivity|]. split; [reflexivity|]. split; [reflexivity|].
  split; [reflexivity|]. split; [reflexivity|].
  split; [do 2 right; left; reflexivity|]. split; [reflexivity|].
  vm_compute. intros [H|[H|[]]]; discriminate.
Qed.

(** ** Running the filter twice *)

(** C8, counterexample.  The first run drops the reading 55; with it gone
    the reading 18 lies beyond three standard deviations and the second run
    drops it. *)
Lemma quality_control_not_idempotent :
  quality_control (quality_control two_outlier_series)
  <> quality_control two_outlier_series.
Proof.
  vm_compute. intros H. apply (f_equal (@length row)) in H. discriminate.
Qed.

(** C8 as the code has it.  A series that already meets the three bounds
    (no three equal values in a row, every value within three sample
    standard deviations of the mean, no water year with RVI above 5 or below
    0.2) is returned unchanged. *)
Theorem quality_control_clean_fixed (gw : DailySeries) :
  clean gw = true -> quality_control gw = gw.
Proof.
  unfold clean. rewrite !andb_true_iff, negb_true_iff. intros [[H1 H2] H3].
  unfold quality_control.
  rewrite (R3TCSV_no_flat3 _ H1), (RVZ3_within_3std _ H2).
  apply RDRVI_within_bounds. exact H3.
Qed.

Lemma quality_control_clean_fixed_witness :
  clean small_clean_series = true
  /\ quality_control small_clean_series = small_clean_series.
Proof.
  split; [reflexivity|].
  apply (quality_control_clean_fixed small_clean_series). reflexivity.
Defined.

(** ** The station gate in the two variants *)

(** DownloadData.py always writes a row: the insufficient-data sentinel
    exactly when the cleaned series has at most 100 rows or the annual series
    at most 8, and the annual series is saved exactly when the row is not a
    sentinel. *)
Lemma station_summary_gate (gd : DailySeries) :
  exists out,
    station_summary gd = Ok out
    /\ (summary_row out = NoEnoughData
        <-> (length gd <= 100)%nat \/ (length (annual (monthly gd)) <= 8)%nat)
    /\ (annual_file out = None
        <-> summary_row out = NoEnoughData \/ summary_row out = NegativeMeanDepth)
    /\ (annual_file out = None \/ annual_file out = Some (annual (monthly gd))).
Proof.
  destruct (Nat.leb_spec (length gd) 100) as [H1|H1].
  { exists (mkOutput NoEnoughData None).
    split; [apply station_summary_insufficient; left; exact H1|]. cbn. tauto. }
  destruct (Nat.leb_spec (length (annual (monthly gd))) 8) as [H2|H2].
  { exists (mkOutput NoEnoughData None).
    split; [apply station_summary_insufficient; right; exact H2|]. cbn. tauto. }
  destruct (Np.le (mean (map value (annual (monthly gd)))) (Fin 0)) eqn:Hm.
  { exists (mkOutput NegativeMeanDepth None). split.
    - unfold station_summary.
      destruct (Nat.leb_spec (length gd) 100); [lia|].
      destruct (Nat.leb_spec (length (annual (monthly gd))) 8); [lia|].
      cbn [orb]. rewrite Hm. reflexivity.
    - cbn. split; [split; [discriminate|lia]|]. split; [tauto|]. left; reflexivity. }
  destruct (station_summary_qualified gd H1 H2 Hm) as (stats & Hs & N1 & N2).
  exists (mkOutput stats (Some (annual (monthly gd)))). split; [exact Hs|]. cbn.
  split; [split; [contradiction|lia]|]. split; [|right; reflexivity].
  split; [discriminate|]. intros [H|H]; contradiction.
Qed.

(** C9.  In 0_DownloadData.py the gate never decides: whatever the cleaned
    series, evaluating [len(gwl)] raises [NameError], [gwl] being bound
    nowhere, so no sentinel row is written and no station is qualified.
    DownloadData.py, which tests [len(gd)], gates as stated: the
    insufficient-data row, and no saved annual series, exactly when the
    cleaned series has at most 100 rows or the annual series at most 8. *)
Theorem station_gate_unbound_name (gd : DailySeries) :
  station_summary_0 gd = Raise NameError
  /\ exists out,
       station_summary gd = Ok out
       /\ (summary_row out = NoEnoughData
           <-> (length gd <= 100)%nat \/ (length (annual (monthly gd)) <= 8)%nat)
       /\ (summary_row out = NoEnoughData -> annual_file out = None).
Proof.
  split; [reflexivity|].
  destruct (station_summary_gate gd) as (out & Hout & Hrow & Hfile & _).
  exists out. split; [exact Hout|]. split; [exact Hrow|].
  intros H. apply Hfile. left. exact H.
Qed.

(** ** Concrete runs of the classifier *)

Lemma classidication_step_change_rule_witness :
  classidication theil_sen fit_finds_ramp Refined step_down_depth
  = Ok step_down_depth_result
  /\ exists total_year,
       label step_down_depth_result = SuddenUpwardChange
       <-> (Np.ge (pw_R2 step_down_depth_result) (Fin (7 # 10)) = true
            /\ inject_Z (windows step_down_depth_result) / inject_Z total_year <= 1 # 2
            /\ (windows step_down_depth_result <= 15)%Z).
Proof.
  assert (H : classidication theil_sen fit_finds_ramp Refined step_down_depth
              = Ok step_down_depth_result) by (vm_compute; reflexivity).
  split; [exact H|].
  destruct (classidication_step_change_rule theil_sen fit_finds_ramp Refined
              step_down_depth H)
    as (YMG & a0 & a1 & t & _ & _ & _ & _ & _ & Hbelow & _ & _).
  exists t. apply Hbelow. reflexivity.
Defined.



(** C3, counterexample.  On ten years of steadily falling depth with a fit
    that does not converge, [classidication] raises the fit's
    [RuntimeError]: the caller gets no label at all. *)
Lemma classidication_raises_on_fit_failure :
  fit_gives_up (map seq_Q falling_depth_sequenced) (map y_value falling_depth_sequenced)
               (fit_p0 9 11 20) fit_lower (fit_upper 9 10)
  = Raise RuntimeError
  /\ classidication theil_sen fit_gives_up Refined falling_depth = Raise RuntimeError
  /\ forall c, classidication theil_sen fit_gives_up Refined falling_depth <> Ok c.
Proof.
  split; [reflexivity|].
  assert (H : classidication theil_sen fit_gives_up Refined falling_depth
              = Raise RuntimeError) by (vm_compute; reflexivity).
  split; [exact H|]. intros c Hc. rewrite H in Hc. discriminate.
Qed.

Lemma fit_failure_propagates_witness :
  with_sequence falling_depth = Ok falling_depth_sequenced
  /\ iloc_back 1 (map sequence falling_depth_sequenced) = Ok 9%Z
  /\ iloc_back 0 (map sequence falling_depth_sequenced) = Ok 10%Z
  /\ py_min (map y_value falling_depth_sequenced) = Ok 11
  /\ py_max (map y_value falling_depth_sequenced) = Ok 20
  /\ fit_gives_up (map seq_Q falling_depth_sequenced)
                  (map y_value falling_depth_sequenced)
                  (fit_p0 9 11 20) fit_lower (fit_upper 9 10) = Raise RuntimeError
  /\ classidication theil_sen fit_gives_up Earlier falling_depth = Raise RuntimeError.
Proof.
  repeat (split; [reflexivity|]).
  apply (fit_failure_propagates theil_sen fit_gives_up Earlier falling_depth
           (YMG := falling_depth_sequenced) (s2 := 9%Z) (s1 := 10%Z)
           (a0 := 11) (a1 := 20)); reflexivity.
Defined.

(** ** Series without any spread *)

(** C10, counterexample.  Ten identical annual values are classified
    without any complaint and the R2 that comes back is NaN; six identical
    daily readings leave stage 2 with a NaN standard deviation. *)
Lemma constant_series_yields_NaN :
  classidication theil_sen fit_returns_start Refined constant_depth
  = Ok constant_depth_result
  /\ pw_R2 constant_depth_result = NaN
  /\ var_ddof1 (deviations (R3TCSV stuck_sensor_series)) = NaN.
Proof.
  split; [vm_compute; reflexivity|]. split; reflexivity.
Qed.


(** * Further properties of the code *)

(** ** The order of timestamps *)

Ltac ts_bool :=
  unfold Ts.ltb, Ts.leb, Ts.eqb in *;
  repeat match goal with t : Timestamp |- _ => destruct t end;
  cbn [year month day] in *;
  rewrite ?andb_true_iff, ?orb_true_iff, ?negb_true_iff, ?andb_false_iff,
    ?orb_false_iff, ?negb_false_iff, ?Z.ltb_lt, ?Z.leb_le, ?Z.eqb_eq,
    ?Z.ltb_ge, ?Z.leb_gt, ?Z.eqb_neq in *.

Lemma Ts_ltb_trans (a b c : Timestamp) :
  Ts.ltb a b = true -> Ts.ltb b c = true -> Ts.ltb a c = true.
Proof. ts_bool. lia. Qed.

Lemma Ts_ltb_irrefl (a : Timestamp) : Ts.ltb a a = false.
Proof. ts_bool. lia. Qed.

Lemma Ts_trichotomy (a b : Timestamp) :
  Ts.ltb a b = true \/ a = b \/ Ts.ltb b a = true.
Proof.
  destruct (Ts.eqb a b) eqn:E; [right; left; apply Ts_eqb_eq; exact E|].
  destruct (Ts.leb a b) eqn:L.
  - left. unfold Ts.ltb. rewrite L, E. reflexivity.
  - right; right. revert E L. ts_bool. lia.
Qed.

Lemma Ts_not_leb_ltb (a b : Timestamp) :
  Ts.eqb a b = false -> Ts.leb a b = false -> Ts.ltb b a = true.
Proof. ts_bool. lia. Qed.

Lemma Ts_ltb_leb (a b : Timestamp) : Ts.ltb a b = true -> Ts.leb a b = true.
Proof. unfold Ts.ltb. intros H. apply andb_true_iff in H. tauto. Qed.

Lemma Ts_ltb_neq (a b : Timestamp) : Ts.ltb a b = true -> a <> b.
Proof. intros H E. subst b. rewrite Ts_ltb_irrefl in H. discriminate. Qed.

(** ** Resampling keeps the index sorted *)

Lemma increasing_cons (t : Timestamp) (l : list Timestamp) :
  increasing (t :: l) = true <->
  increasing l = true /\ (forall u, In u l -> Ts.ltb t u = true).
Proof.
  revert t. induction l as [|u l IH]; intros t.
  - cbn. split; [intros _; split; [reflexivity|intros u []]|reflexivity].
  - change (increasing (t :: u :: l)) with (Ts.ltb t u && increasing (u :: l)).
    rewrite andb_true_iff. split.
    + intros [Htu Hl]. split; [exact Hl|]. intros w [<-|Hw]; [exact Htu|].
      eapply Ts_ltb_trans; [exact Htu|]. apply IH in Hl. apply Hl. exact Hw.
    + intros [Hl Hall]. split; [apply Hall; left; reflexivity|exact Hl].
Qed.

Lemma insert_label_In (t x : Timestamp) (l : list Timestamp) :
  In x (insert_label t l) <-> x = t \/ In x l.
Proof.
  induction l as [|u l IH]; cbn [insert_label].
  - cbn. intuition.
  - destruct (Ts.eqb t u) eqn:E.
    + apply Ts_eqb_eq in E. subst u. cbn. intuition.
    + destruct (Ts.leb t u); cbn [In]; [intuition|]. rewrite IH. intuition.
Qed.

Lemma insert_label_increasing (t : Timestamp) (l : list Timestamp) :
  increasing l = true -> increasing (insert_label t l) = true.
Proof.
  induction l as [|u l IH]; intros Hl; [reflexivity|].
  cbn [insert_label]. destruct (Ts.eqb t u) eqn:E; [exact Hl|].
  destruct (Ts.leb t u) eqn:L.
  - apply increasing_cons. split; [exact Hl|].
    assert (Htu : Ts.ltb t u = true) by (unfold Ts.ltb; rewrite L, E; reflexivity).
    intros w [<-|Hw]; [exact Htu|].
    eapply Ts_ltb_trans; [exact Htu|]. apply increasing_cons in Hl. apply Hl. exact Hw.
  - apply increasing_cons in Hl. destruct Hl as [Hl Hall].
    apply increasing_cons. split; [apply IH; exact Hl|].
    intros w Hw. apply insert_label_In in Hw. destruct Hw as [->|Hw].
    + apply Ts_not_leb_ltb; assumption.
    + apply Hall. exact Hw.
Qed.

Lemma insert_label_length (t : Timestamp) (l : list Timestamp) :
  (length (insert_label t l) <= S (length l))%nat.
Proof.
  induction l as [|u l IH]; cbn [insert_label]; [cbn; lia|].
  destruct (Ts.eqb t u); [cbn; lia|]. destruct (Ts.leb t u); cbn [length]; lia.
Qed.

Lemma labels_increasing (ts : list Timestamp) :
  increasing (fold_right insert_label [] ts) = true.
Proof.
  induction ts as [|t ts IH]; [reflexivity|]. cbn [fold_right].
  apply insert_label_increasing. exact IH.
Qed.

Lemma labels_In (ts : list Timestamp) (x : Timestamp) :
  In x (fold_right insert_label [] ts) <-> In x ts.
Proof.
  induction ts as [|t ts IH]; [reflexivity|]. cbn [fold_right].
  rewrite insert_label_In, IH. cbn. intuition.
Qed.

Lemma labels_length (ts : list Timestamp) :
  (length (fold_right insert_label [] ts) <= length ts)%nat.
Proof.
  induction ts as [|t ts IH]; [cbn; lia|]. cbn [fold_right length].
  generalize (insert_label_length t (fold_right insert_label [] ts)). lia.
Qed.

Lemma resample_dates (label : Timestamp -> Timestamp) (agg : list Q -> Q) (s : list row) :
  map date (resample label agg s) = bin_labels label s.
Proof.
  unfold resample. rewrite map_map. cbn [date]. apply map_id.
Qed.

(** X7.  Whatever the rule and the aggregate, [resample(...).agg().dropna()]
    returns one row per non-empty bin, in strictly increasing date order, and
    never more rows than it was given. *)
Theorem resample_index (label : Timestamp -> Timestamp) (agg : list Q -> Q) (s : list row) :
  increasing (map date (resample label agg s)) = true
  /\ (forall t, In t (map date (resample label agg s))
                <-> exists r, In r s /\ label (date r) = t)
  /\ (length (resample label agg s) <= length s)%nat.
Proof.
  rewrite <- (length_map date (resample label agg s)), resample_dates. unfold bin_labels.
  split; [apply labels_increasing|]. split.
  - intros t. rewrite labels_In, in_map_iff.
    split; intros (r & H1 & H2); exists r; tauto.
  - generalize (labels_length (map (fun r => label (date r)) s)).
    rewrite length_map. tauto.
Qed.

(** ** Days between first days of October *)

Lemma to_days_october (y : Z) :
  Ts.to_days (mkTs y 10 1) = (365 * y + leap_days y - 719254)%Z.
Proof.
  unfold Ts.to_days, leap_days. cbn [year month day].
  change (10 <=? 2)%Z with false. change (10 >? 2)%Z with true. cbv iota.
  change ((153 * (10 - 3) + 2) / 5)%Z with 214%Z.
  Z.to_euclidean_division_equations; lia.
Qed.

Lemma leap_days_span (y k : Z) :
  (0 <= k)%Z -> (0 <= leap_days (y + k) - leap_days y <= k / 4 + 1)%Z.
Proof. unfold leap_days. intros Hk. Z.to_euclidean_division_equations; lia. Qed.

Lemma october_first_form (t : Timestamp) :
  october_first t = true -> t = mkTs (year t) 10 1.
Proof.
  unfold october_first. rewrite andb_true_iff, !Z.eqb_eq. destruct t; cbn.
  intros [-> ->]. reflexivity.
Qed.

(** [int(days / 365 + 1)] between two first days of October is the number
    of years between them plus one, as long as fewer than 1400 years lie
    between: the leap days then add up to less than a year. *)
Lemma years_spanned_october (y k : Z) :
  (0 <= k < 1400)%Z ->
  years_spanned (Ts.days_between (mkTs (y + k) 10 1) (mkTs y 10 1)) = (k + 1)%Z.
Proof.
  intros Hk. unfold Ts.days_between. rewrite !to_days_october.
  assert (H := @leap_days_span y k ltac:(lia)). unfold years_spanned.
  Z.to_euclidean_division_equations; lia.
Qed.

Lemma years_spanned_positive (d : Z) : (0 <= d)%Z -> (1 <= years_spanned d)%Z.
Proof. unfold years_spanned. intros H. Z.to_euclidean_division_equations; lia. Qed.

Lemma days_between_octobers (y1 y2 : Z) :
  (y1 <= y2)%Z -> (0 <= Ts.days_between (mkTs y2 10 1) (mkTs y1 10 1))%Z.
Proof.
  intros H. unfold Ts.days_between. rewrite !to_days_october.
  assert (Hs := @leap_days_span y1 (y2 - y1) ltac:(lia)).
  replace (y1 + (y2 - y1))%Z with y2 in Hs by lia. lia.
Qed.

(** ** The ['sequence'] column *)

Lemma with_sequence_nonempty (r : row) (YMG0 : list row) :
  with_sequence (r :: YMG0)
  = Ok (map (fun x => mkYrow (date x) (value x)
                             (years_spanned (Ts.days_between (date x) (date r))))
            (r :: YMG0)).
Proof. reflexivity. Qed.

(** X17.  On an annual series (first days of October, fewer than 1400 years after
    the first row) the sequence number of a row is its water year counted
    from the first row's, starting at 1. *)
Theorem sequence_counts_water_years (YMG0 : list row) (first : row) :
  iloc_first YMG0 = Ok first ->
  (forall r, In r YMG0 ->
     october_first (date r) = true
     /\ (0 <= year (date r) - year (date first) < 1400)%Z) ->
  exists YMG,
    with_sequence YMG0 = Ok YMG
    /\ map y_date YMG = map date YMG0
    /\ map y_value YMG = map value YMG0
    /\ map sequence YMG
       = map (fun r => (year (date r) - year (date first) + 1)%Z) YMG0.
Proof.
  intros Hf Hall. destruct YMG0 as [|r0 YMG0]; [discriminate|].
  cbn in Hf. inversion Hf; subst r0. clear Hf.
  eexists. split; [apply with_sequence_nonempty|].
  rewrite !map_map. cbn [y_date y_value sequence].
  split; [reflexivity|]. split; [reflexivity|].
  apply map_ext_in. intros r Hr.
  destruct (Hall r Hr) as [Ho Hy].
  destruct (Hall first (or_introl eq_refl)) as [Hof _].
  rewrite (october_first_form _ Ho), (october_first_form _ Hof). cbn [year].
  replace (year (date r)) with (year (date first) + (year (date r) - year (date first)))%Z
    at 1 by lia.
  rewrite years_spanned_october by lia. reflexivity.
Qed.

(** ** The flat--ramp--flat curve *)

Lemma Qle_bool_false_lt (a b : Q) : Qle_bool a b = false -> b < a.
Proof.
  intros H. apply Qnot_le_lt. intros Hle. apply Qle_bool_iff in Hle. congruence.
Qed.

Lemma Qlt_bool_false_le (a b : Q) : Qlt_bool a b = false -> b <= a.
Proof.
  unfold Qlt_bool. rewrite negb_false_iff. apply Qle_bool_iff.
Qed.

(** X13.  [piecewise] does not depend on the order in which the two breakpoints
    are given: the curve starts at [y0] and ends at [y1] either way. *)
Theorem piecewise_breakpoints_commute (x0 x1 y0 y1 x : Q) :
  piecewise (mkParams x0 x1 y0 y1) x = piecewise (mkParams x1 x0 y0 y1) x.
Proof.
  unfold piecewise. cbn [px0 px1 py0 py1].
  destruct (Qle_bool x1 x0) eqn:E10, (Qle_bool x0 x1) eqn:E01; try reflexivity.
  - apply Qle_bool_iff in E10, E01.
    assert (E : x0 == x1) by lra.
    assert (R1 : Qlt_bool x1 x && Qle_bool x x0 = false).
    { destruct (Qlt_bool x1 x) eqn:A; [|reflexivity].
      destruct (Qle_bool x x0) eqn:B; [|reflexivity].
      apply Qlt_bool_iff in A. apply Qle_bool_iff in B. lra. }
    assert (R2 : Qlt_bool x0 x && Qle_bool x x1 = false).
    { destruct (Qlt_bool x0 x) eqn:A; [|reflexivity].
      destruct (Qle_bool x x1) eqn:B; [|reflexivity].
      apply Qlt_bool_iff in A. apply Qle_bool_iff in B. lra. }
    rewrite R1, R2. unfold Qlt_bool. rewrite E. reflexivity.
  - apply Qle_bool_false_lt in E10, E01. lra.
Qed.


Lemma ramp_between (lo hi y0 y1 x : Q) :
  lo < x -> x <= hi ->
  (y0 <= y1 -> y0 <= (x - lo) * (y1 - y0) / (hi - lo) + y0 <= y1)
  /\ (y1 <= y0 -> y1 <= (x - lo) * (y1 - y0) / (hi - lo) + y0 <= y0).
Proof.
  intros Hlo Hhi.
  assert (Hd : 0 < hi - lo) by lra.
  set (t := (x - lo) / (hi - lo)).
  assert (Ht0 : 0 <= t).
  { unfold t. apply Qle_shift_div_l; [exact Hd|]. lra. }
  assert (Ht1 : t <= 1).
  { unfold t. apply Qle_shift_div_r; [exact Hd|]. lra. }
  assert (Hv : (x - lo) * (y1 - y0) / (hi - lo) + y0 == y0 + t * (y1 - y0)).
  { unfold t. field. lra. }
  rewrite Hv. split; intros H; split; nra.
Qed.

(** X15.  The curve never leaves the band between its two plateau levels, and the
    ramp is never evaluated with a zero denominator. *)
Theorem piecewise_between_plateaus (p : params) (x : Q) :
  (py0 p <= py1 p -> py0 p <= piecewise p x <= py1 p)
  /\ (py1 p <= py0 p -> py1 p <= piecewise p x <= py0 p).
Proof.
  unfold piecewise.
  set (lo := if Qle_bool (px1 p) (px0 p) then px1 p else px0 p).
  set (hi := if Qle_bool (px1 p) (px0 p) then px0 p else px1 p).
  destruct (Qlt_bool hi x) eqn:A; [split; intros H; lra|].
  destruct (Qlt_bool lo x && Qle_bool x hi) eqn:B.
  - apply andb_true_iff in B. destruct B as [B1 B2].
    apply Qlt_bool_iff in B1. apply Qle_bool_iff in B2.
    apply ramp_between; assumption.
  - destruct (Qle_bool x lo) eqn:C; [split; intros H; lra|].
    exfalso. apply Qlt_bool_false_le in A. apply Qle_bool_false_lt in C.
    apply andb_false_iff in B. destruct B as [B|B].
    + apply Qlt_bool_false_le in B. lra.
    + apply Qle_bool_false_lt in B. lra.
Qed.

(** ** The goodness of fit *)

Lemma sum_Q_nonneg_terms (A : Type) (f : A -> Q) (l : list A) :
  (forall x, In x l -> 0 <= f x) -> 0 <= sum_Q (map f l).
Proof.
  induction l as [|a l IH]; intros H; [apply Qle_refl|].
  cbn [map sum_Q fold_right]. fold (sum_Q (map f l)).
  assert (0 <= f a) by (apply H; left; reflexivity).
  assert (0 <= sum_Q (map f l)) by (apply IH; intros x Hx; apply H; right; exact Hx).
  lra.
Qed.

Lemma sum_Q_term_le (A : Type) (f : A -> Q) (l : list A) (a : A) :
  (forall x, In x l -> 0 <= f x) -> In a l -> f a <= sum_Q (map f l).
Proof.
  induction l as [|b l IH]; intros H Ha; [destruct Ha|].
  cbn [map sum_Q fold_right]. fold (sum_Q (map f l)).
  assert (Hb : 0 <= f b) by (apply H; left; reflexivity).
  assert (Hl : 0 <= sum_Q (map f l)).
  { apply sum_Q_nonneg_terms. intros x Hx. apply H. right. exact Hx. }
  destruct Ha as [->|Ha]; [lra|].
  assert (f a <= sum_Q (map f l)) by (apply IH; [intros x Hx; apply H; right; exact Hx|exact Ha]).
  lra.
Qed.

Lemma sum_Q_zero_terms (A : Type) (f : A -> Q) (l : list A) :
  (forall x, In x l -> 0 <= f x) -> sum_Q (map f l) == 0 ->
  forall x, In x l -> f x == 0.
Proof.
  intros Hpos Hsum x Hx.
  assert (f x <= sum_Q (map f l)) by (apply sum_Q_term_le; assumption).
  assert (0 <= f x) by (apply Hpos; exact Hx). lra.
Qed.

Lemma sq_nonneg (x : Q) : 0 <= sq x.
Proof. unfold sq. nra. Qed.

Lemma sq_zero (x : Q) : sq x == 0 <-> x == 0.
Proof. unfold sq. split; intros H; nra. Qed.

(** Data with spread have a positive total sum of squares. *)
Lemma spread_positive (yy : list Q) (a b : Q) :
  In a yy -> In b yy -> ~ a == b ->
  0 < sum_Q (map (fun y => sq (y - sum_Q yy / len_Q yy)) yy).
Proof.
  intros Ha Hb Hab. set (m := sum_Q yy / len_Q yy).
  assert (Hpos : forall y, In y yy -> 0 <= sq (y - m)) by (intros; apply sq_nonneg).
  assert (H0 : 0 <= sum_Q (map (fun y => sq (y - m)) yy))
    by (apply sum_Q_nonneg_terms; exact Hpos).
  destruct (Qlt_le_dec 0 (sum_Q (map (fun y => sq (y - m)) yy))) as [H|H]; [exact H|].
  exfalso. assert (Hz : sum_Q (map (fun y => sq (y - m)) yy) == 0) by lra.
  assert (Ea := sum_Q_zero_terms (fun y => sq (y - m)) yy Hpos Hz a Ha).
  assert (Eb := sum_Q_zero_terms (fun y => sq (y - m)) yy Hpos Hz b Hb).
  cbv beta in Ea, Eb. apply (proj1 (sq_zero _)) in Ea. apply (proj1 (sq_zero _)) in Eb.
  apply Hab. clearbody m. lra.
Qed.

(** X16.  When the data are not all equal, R2 is a number and never above 1,
    and it is 1 when the fitted curve passes through every point.  (The
    converse holds of the exact quotient only: in binary64 a residual sum far
    below the total sum of squares is rounded away.) *)
Theorem r_squared_at_most_one (y_t yy : list Q) (a b : Q) :
  In a yy -> In b yy -> ~ a == b ->
  exists q,
    r_squared y_t yy = Fin q
    /\ q <= 1
    /\ ((forall p, In p (combine y_t yy) -> fst p == snd p) -> q == 1).
Proof.
  intros Ha Hb Hab. unfold r_squared.
  set (ssr := sum_Q (map (fun p => sq (fst p - snd p)) (combine y_t yy))).
  set (sst := sum_Q (map (fun y => sq (y - sum_Q yy / len_Q yy)) yy)).
  assert (Hsst : 0 < sst) by (apply (spread_positive yy Ha Hb Hab)).
  assert (Hpos : forall p, In p (combine y_t yy) -> 0 <= sq (fst p - snd p))
    by (intros; apply sq_nonneg).
  assert (Hssr : 0 <= ssr) by (apply sum_Q_nonneg_terms; exact Hpos).
  unfold Np.div.
  destruct (Qeq_bool sst 0) eqn:E; [apply Qeq_bool_iff in E; lra|].
  cbn [Np.sub]. exists (1 - ssr / sst).
  assert (Hq : 0 <= ssr / sst) by (apply Qle_shift_div_l; [exact Hsst|lra]).
  split; [reflexivity|]. split; [lra|].
  intros Hall.
  assert (Hz : ssr == 0).
  { apply sum_Q_zero. intros p Hp. apply sq_zero. rewrite (Hall p Hp). lra. }
  rewrite Hz. field. lra.
Qed.

(** ** When the classifier returns *)

Lemma iloc_back_In (A : Type) (k : nat) (s : list A) (x : A) :
  iloc_back k s = Ok x -> In x s.
Proof.
  unfold iloc_back. destruct (nth_error (rev s) k) as [y|] eqn:E; [|discriminate].
  intros H. inversion H; subst y. apply in_rev. apply (nth_error_In _ _ E).
Qed.

Lemma iloc_back_defined (A : Type) (k : nat) (s : list A) :
  (k < length s)%nat -> exists x, iloc_back k s = Ok x.
Proof.
  intros H. unfold iloc_back. destruct (nth_error (rev s) k) as [y|] eqn:E.
  - exists y. reflexivity.
  - apply nth_error_None in E. rewrite length_rev in E. lia.
Qed.

Section ClassifierRuns.

Variable theilslopes : list Q -> list Q -> option Q.
Variable curve_fit : list Q -> list Q -> params -> params -> params -> result params.
Variable v : variant.

(** X18.  A series of fewer than two rows is never classified: the empty series
    has no first index, and with one row [YMG['sequence'].iloc[-2]] is out of
    bounds before the fit is called.  The exception is [IndexError] whatever
    the slope estimator and the fit do. *)
Theorem classidication_needs_two_rows (YMG0 : list row) :
  (length YMG0 < 2)%nat ->
  classidication theilslopes curve_fit v YMG0 = Raise IndexError.
Proof.
  intros H. destruct YMG0 as [|r [|r' YMG0]]; [reflexivity| |cbn in H; lia].
  unfold classidication. rewrite with_sequence_nonempty. cbn [bind map].
  destruct (Np.lt _ _); [reflexivity|]. destruct (Np.gt _ _); reflexivity.
Qed.

Lemma step_change_defined (R2 : npfloat) (w t : Z) :
  t <> 0%Z -> exists b, step_change R2 w t = Ok b.
Proof.
  intros Ht. unfold step_change. destruct (Np.ge R2 (Fin (7 # 10))).
  - apply Z.eqb_neq in Ht. rewrite Ht. eexists; reflexivity.
  - eexists; reflexivity.
Qed.

(** The rows, bounds and indices [classidication] and [suddenchange] read
    from an annual series of two or more first days of October in increasing
    order: all are there, and the record spans at least one year. *)
Lemma annual_series_indices (YMG0 : list row) :
  (2 <= length YMG0)%nat ->
  (forall r, In r YMG0 -> october_first (date r) = true) ->
  increasing (map date YMG0) = true ->
  exists YMG a0 a1 first l s2 s1,
    with_sequence YMG0 = Ok YMG
    /\ py_min (map y_value YMG) = Ok a0
    /\ py_max (map y_value YMG) = Ok a1
    /\ iloc_first (map y_date YMG) = Ok first
    /\ iloc_back 0 (map y_date YMG) = Ok l
    /\ iloc_back 1 (map sequence YMG) = Ok s2
    /\ iloc_back 0 (map sequence YMG) = Ok s1
    /\ years_spanned (Ts.days_between l first) <> 0%Z.
Proof.
  intros Hlen Hoct Hinc.
  destruct YMG0 as [|r0 YMG0]; [cbn in Hlen; lia|].
  assert (Hseq := with_sequence_nonempty r0 YMG0).
  set (YMG := map (fun x => mkYrow (date x) (value x)
                     (years_spanned (Ts.days_between (date x) (date r0))))
                  (r0 :: YMG0)) in *.
  assert (HYlen : length YMG = length (r0 :: YMG0)) by (unfold YMG; apply length_map).
  assert (Hdates : map y_date YMG = map date (r0 :: YMG0)).
  { unfold YMG. rewrite map_map. reflexivity. }
  assert (Hmin : exists a0, py_min (map y_value YMG) = Ok a0).
  { unfold YMG. cbn [map py_min]. eexists; reflexivity. }
  assert (Hmax : exists a1, py_max (map y_value YMG) = Ok a1).
  { unfold YMG. cbn [map py_max]. eexists; reflexivity. }
  destruct Hmin as (a0 & Hmin). destruct Hmax as (a1 & Hmax).
  destruct (@iloc_back_defined _ 0 (map y_date YMG)) as (l & Hl);
    [rewrite length_map, HYlen; lia|].
  destruct (@iloc_back_defined _ 1 (map sequence YMG)) as (s2 & Hs2);
    [rewrite length_map, HYlen; lia|].
  destruct (@iloc_back_defined _ 0 (map sequence YMG)) as (s1 & Hs1);
    [rewrite length_map, HYlen; lia|].
  assert (Hfirst : iloc_first (map y_date YMG) = Ok (date r0)) by reflexivity.
  exists YMG, a0, a1, (date r0), l, s2, s1.
  repeat (split; [assumption|]).
  (* the last index is not before the first *)
  apply iloc_back_In in Hl. rewrite Hdates in Hl.
  assert (Hyear : (year (date r0) <= year l)%Z).
  { cbn [map] in Hl, Hinc. destruct Hl as [<-|Hl]; [lia|].
    apply increasing_cons in Hinc. destruct Hinc as [_ Hall].
    specialize (Hall l Hl). revert Hall. ts_bool. lia. }
  assert (Hol : october_first l = true).
  { apply in_map_iff in Hl. destruct Hl as (r & <- & Hr). apply Hoct. exact Hr. }
  assert (Ho0 : october_first (date r0) = true) by (apply Hoct; left; reflexivity).
  rewrite (october_first_form _ Hol), (october_first_form _ Ho0).
  generalize (days_between_octobers Hyear). intros Hd.
  generalize (years_spanned_positive Hd). lia.
Qed.

(** With those in hand the only thing left that can fail is the call of
    [curve_fit] in [suddenchange]: what it raises is raised, and when it
    returns, so does [classidication], with the slope of the whole series,
    the R2 of the fitted curve and, in the dead-zone, the label 'No trend'. *)
Lemma classidication_after_fit (YMG0 : list row) (YMG : list yrow) (a0 a1 : Q)
    (first l : Timestamp) (s2 s1 : Z) :
  with_sequence YMG0 = Ok YMG ->
  py_min (map y_value YMG) = Ok a0 ->
  py_max (map y_value YMG) = Ok a1 ->
  iloc_first (map y_date YMG) = Ok first ->
  iloc_back 0 (map y_date YMG) = Ok l ->
  iloc_back 1 (map sequence YMG) = Ok s2 ->
  iloc_back 0 (map sequence YMG) = Ok s1 ->
  years_spanned (Ts.days_between l first) <> 0%Z ->
  match curve_fit (map seq_Q YMG) (map y_value YMG)
                  (fit_p0 s2 a0 a1) fit_lower (fit_upper s2 s1) with
  | Raise e => classidication theilslopes curve_fit v YMG0 = Raise e
  | Ok fitted =>
      exists c,
        classidication theilslopes curve_fit v YMG0 = Ok c
        /\ ts_slope c = slope_of theilslopes YMG
        /\ pw_R2 c = r_squared (map (piecewise fitted) (map seq_Q YMG)) (map y_value YMG)
        /\ (Np.lt (slope_of theilslopes YMG) (Fin (- dead_zone v)) = false ->
            Np.gt (slope_of theilslopes YMG) (Fin (dead_zone v)) = false ->
            label c = NoTrend)
  end.
Proof.
  intros Hseq Hmin Hmax Hfirst Hl Hs2 Hs1 Ht.
  unfold classidication. rewrite Hseq. cbn [bind]. rewrite Hmin, Hmax. cbn [bind].
  unfold suddenchange. rewrite Hfirst, Hl. cbn [bind]. rewrite Hs2, Hs1. cbn [bind].
  destruct (curve_fit _ _ _ _ _) as [fitted|e]; cbn [bind].
  - set (R2 := r_squared _ _).
    match goal with |- context [step_change R2 ?w ?t] =>
      destruct (@step_change_defined R2 w t Ht) as (b & Hb); rewrite Hb end.
    cbn [bind].
    destruct (Np.lt _ _).
    + eexists. split; [reflexivity|]. cbn [ts_slope pw_R2].
      split; [reflexivity|]. split; [reflexivity|]. discriminate.
    + destruct (Np.gt _ _).
      * eexists. split; [reflexivity|]. cbn [ts_slope pw_R2].
        split; [reflexivity|]. split; [reflexivity|]. discriminate.
      * eexists. split; [reflexivity|]. cbn [ts_slope pw_R2 label].
        split; [reflexivity|]. split; [reflexivity|]. reflexivity.
  - destruct (Np.lt _ _); [reflexivity|]. destruct (Np.gt _ _); reflexivity.
Qed.

(** X19.  On an annual series as the pipeline saves it (at least two rows, first
    days of October in increasing order), [classidication] stands or falls
    with its one call of [curve_fit], made on the sequence and value columns
    with the start and the bounds of lines 69--71: when that call returns
    parameters [classidication] returns a classification, and when it raises,
    that exception is the one [classidication] raises.  No index is out of
    bounds and the total number of years is never zero. *)
Theorem classidication_returns_on_annual_series (YMG0 : list row) :
  (2 <= length YMG0)%nat ->
  (forall r, In r YMG0 -> october_first (date r) = true) ->
  increasing (map date YMG0) = true ->
  exists YMG a0 a1 s2 s1,
    with_sequence YMG0 = Ok YMG
    /\ py_min (map y_value YMG) = Ok a0
    /\ py_max (map y_value YMG) = Ok a1
    /\ iloc_back 1 (map sequence YMG) = Ok s2
    /\ iloc_back 0 (map sequence YMG) = Ok s1
    /\ match curve_fit (map seq_Q YMG) (map y_value YMG)
                       (fit_p0 s2 a0 a1) fit_lower (fit_upper s2 s1) with
       | Ok _ => exists c, classidication theilslopes curve_fit v YMG0 = Ok c
       | Raise e => classidication theilslopes curve_fit v YMG0 = Raise e
       end.
Proof.
  intros Hlen Hoct Hinc.
  destruct (annual_series_indices YMG0 Hlen Hoct Hinc)
    as (YMG & a0 & a1 & first & l & s2 & s1
        & Hseq & Hmin & Hmax & Hfirst & Hl & Hs2 & Hs1 & Ht).
  exists YMG, a0, a1, s2, s1.
  repeat (split; [assumption|]).
  generalize (classidication_after_fit YMG0 Hseq Hmin Hmax Hfirst Hl Hs2 Hs1 Ht).
  destruct (curve_fit _ _ _ _ _) as [fitted|e]; [|tauto].
  intros (c & Hc & _). exists c. exact Hc.
Qed.

(** X20.  The direction of a label is the direction of the robust slope: an
    upward label ('Sudden upward change', 'Increasing') is only given for a
    slope below minus the dead-zone, a downward label for a slope above it. *)
Theorem label_follows_slope (YMG0 : list row) (c : classification) :
  classidication theilslopes curve_fit v YMG0 = Ok c ->
  (label c = SuddenUpwardChange \/ label c = Increasing ->
   exists s, ts_slope c = Fin s /\ s < - dead_zone v)
  /\ (label c = SuddenDownwardChange \/ label c = Decreasing ->
      exists s, ts_slope c = Fin s /\ dead_zone v < s).
Proof.
  intros H. apply classidication_inv in H.
  destruct H as (YMG & a0 & a1 & t & _ & _ & _ & _ & Hs & Hcase).
  assert (Hfin : forall b, Np.lt (ts_slope c) (Fin b) = true ->
                           exists s, ts_slope c = Fin s /\ s < b).
  { intros b Hb. rewrite Hs in *.
    destruct (slope_of_cases theilslopes YMG) as [E|[s E]]; rewrite E in *;
      [discriminate|]. exists s. split; [reflexivity|]. apply Qlt_bool_iff. exact Hb. }
  assert (Hfin' : forall b, Np.gt (ts_slope c) (Fin b) = true ->
                            exists s, ts_slope c = Fin s /\ b < s).
  { intros b Hb. rewrite Hs in *.
    destruct (slope_of_cases theilslopes YMG) as [E|[s E]]; rewrite E in *;
      [discriminate|]. exists s. split; [reflexivity|]. apply Qlt_bool_iff. exact Hb. }
  split; intros Hlab.
  - destruct Hcase as [(Hlt & _)|[(_ & _ & b & _ & Hl)|(_ & _ & Hl)]].
    + apply Hfin. exact Hlt.
    + exfalso. rewrite Hl in Hlab. destruct b; [|destruct (forallb _ _)];
        destruct Hlab; discriminate.
    + exfalso. rewrite Hl in Hlab. destruct Hlab; discriminate.
  - destruct Hcase as [(_ & b & _ & Hl)|[(_ & Hgt & _)|(_ & _ & Hl)]].
    + exfalso. rewrite Hl in Hlab. destruct b; [|destruct (forallb _ _)];
        destruct Hlab; discriminate.
    + apply Hfin'. exact Hgt.
    + exfalso. rewrite Hl in Hlab. destruct Hlab; discriminate.
Qed.

End ClassifierRuns.

(** ** The spatial scorer *)

Lemma tally_total (labels : list consistency) :
  fst (fst (tally labels)) = (snd (fst (tally labels)) + snd (tally labels))%nat.
Proof.
  unfold tally. cbn [fst snd]. induction labels as [|l labels IH]; [reflexivity|].
  destruct l; cbn [filter length]; lia.
Qed.

Lemma ts_max_comm (a b : Timestamp) : ts_max a b = ts_max b a.
Proof.
  unfold ts_max. destruct (Ts_trichotomy a b) as [H|[->|H]].
  - rewrite H. destruct (Ts.ltb b a) eqn:E; [|reflexivity].
    exfalso. generalize (@Ts_ltb_trans _ _ _ H E). rewrite Ts_ltb_irrefl. discriminate.
  - reflexivity.
  - rewrite H. destruct (Ts.ltb a b) eqn:E; [|reflexivity].
    exfalso. generalize (@Ts_ltb_trans _ _ _ H E). rewrite Ts_ltb_irrefl. discriminate.
Qed.

Lemma ts_min_comm (a b : Timestamp) : ts_min a b = ts_min b a.
Proof.
  unfold ts_min. destruct (Ts_trichotomy a b) as [H|[->|H]].
  - rewrite H. destruct (Ts.ltb b a) eqn:E; [|reflexivity].
    exfalso. generalize (@Ts_ltb_trans _ _ _ H E). rewrite Ts_ltb_irrefl. discriminate.
  - reflexivity.
  - rewrite H. destruct (Ts.ltb a b) eqn:E; [|reflexivity].
    exfalso. generalize (@Ts_ltb_trans _ _ _ H E). rewrite Ts_ltb_irrefl. discriminate.
Qed.

Lemma product_sign_comm (a b : npfloat) :
  Np.gt (Np.mul a b) (Fin 0) = Np.gt (Np.mul b a) (Fin 0).
Proof.
  destruct a as [x| | |], b as [y| | |]; try reflexivity.
  cbn. unfold Qlt_bool. rewrite (Qmult_comm x y). reflexivity.
Qed.

Section SpatialFacts.

Variable theilslopes : list Q -> list Q -> option Q.
Variable curve_fit : list Q -> list Q -> params -> params -> params -> result params.
Variable v : variant.
Variable read_csv : Z -> result (list row).
Variable geodesic_km : Q -> Q -> Q -> Q -> Q.

(** X21.  The verdict on a pair does not depend on which of the two stations is
    the centre: the common period, the two classifications and the sign
    test come out the same with the series exchanged. *)
Theorem compare_pair_symmetric (GWL_1 GWL_2 : list row) (verdict : option consistency) :
  compare_pair theilslopes curve_fit v GWL_1 GWL_2 = Ok verdict ->
  compare_pair theilslopes curve_fit v GWL_2 GWL_1 = Ok verdict.
Proof.
  unfold compare_pair.
  destruct (iloc_first (map date GWL_1)) as [f1|]; [|discriminate].
  destruct (iloc_first (map date GWL_2)) as [f2|]; [|discriminate].
  destruct (iloc_back 0 (map date GWL_1)) as [l1|]; [|discriminate].
  destruct (iloc_back 0 (map date GWL_2)) as [l2|]; [|discriminate].
  cbn [bind]. rewrite (ts_max_comm f2 f1), (ts_min_comm l2 l1).
  set (W1 := common_period (ts_max f1 f2) (ts_min l1 l2) GWL_1).
  set (W2 := common_period (ts_max f1 f2) (ts_min l1 l2) GWL_2).
  rewrite (andb_comm (8 <? length W2)%nat).
  destruct ((8 <? length W1)%nat && (8 <? length W2)%nat); [|tauto].
  destruct (classidication theilslopes curve_fit v W1) as [c1|] eqn:H1; [|discriminate].
  destruct (classidication theilslopes curve_fit v W2) as [c2|] eqn:H2; [|discriminate].
  cbn [bind]. intros H. inversion H; subst verdict; clear H. do 2 f_equal.
  assert (R12 := agreement_rule _ _ _ _ _ H1 H2).
  assert (R21 := agreement_rule _ _ _ _ _ H2 H1).
  rewrite (product_sign_comm (ts_slope c2)) in R21.
  destruct (agreement c1 c2), (agreement c2 c1); try reflexivity; exfalso.
  - assert (T : @Consistent = Consistent) by reflexivity.
    apply R12 in T. assert (F : Inconsistent = Consistent) by (apply R21; tauto).
    discriminate.
  - assert (T : @Consistent = Consistent) by reflexivity.
    apply R21 in T. assert (F : Inconsistent = Consistent) by (apply R12; tauto).
    discriminate.
Qed.

Lemma neighbour_labels (centre other : station) (labels labels' : list consistency) :
  neighbour theilslopes curve_fit v read_csv geodesic_km centre labels other = Ok labels' ->
  (exists l, labels' = labels ++ [l]
             /\ eligible geodesic_km centre other = true)
  \/ labels' = labels.
Proof.
  unfold neighbour, eligible.
  destruct (read_csv (No centre)) as [G1|]; [|discriminate]. cbn [bind].
  destruct (Qle_bool _ 15); [|intros H; inversion H; right; reflexivity].
  destruct (negb _ && _); [|intros H; inversion H; right; reflexivity].
  destruct (read_csv (No other)) as [G2|]; [|discriminate]. cbn [bind].
  destruct (compare_pair _ _ _ G1 G2) as [[l|]|]; [| |discriminate]; cbn [bind];
    intros H; inversion H.
  - left. exists l. split; reflexivity.
  - right. reflexivity.
Qed.

Lemma neighbours_length (centre : station) (others : list station)
    (labels labels' : list consistency) :
  neighbours theilslopes curve_fit v read_csv geodesic_km centre labels others = Ok labels' ->
  (length labels' <= length labels
                     + length (filter (eligible geodesic_km centre) others))%nat.
Proof.
  revert labels. induction others as [|o others IH]; intros labels H.
  - cbn in H. inversion H. cbn. lia.
  - cbn [neighbours] in H.
    destruct (neighbour _ _ _ _ _ centre labels o) as [mid|] eqn:E; [|discriminate].
    cbn [bind] in H. apply IH in H. apply neighbour_labels in E. cbn [filter].
    destruct E as [(l & -> & El)| ->].
    + rewrite El. rewrite length_app in H. cbn [length] in *. lia.
    + destruct (eligible geodesic_km centre o); cbn [length]; lia.
Qed.

(** X22.  The row written for a centre station carries its own number; the number
    of stations in it is the number of consistent plus the number of
    inconsistent neighbours, and it is at most the number of other stations
    in the box that lie within 15 km and share the centre's aquifer.  A
    centre 'Unallocated to aquifers' gets the row 0, 0, 0. *)
Theorem consistency_row_counts (data : list station) (centre : station)
    (id : Z) (n c i : nat) :
  consistency_row theilslopes curve_fit v read_csv geodesic_km data centre
  = Ok (id, (n, c, i)) ->
  id = No centre
  /\ n = (c + i)%nat
  /\ (n <= length (filter (eligible geodesic_km centre) (ini_select data centre)))%nat
  /\ (revised_aquifers centre = "Unallocated to aquifers"%string -> n = 0%nat).
Proof.
  unfold consistency_row.
  destruct (neighbours _ _ _ _ _ centre [] (ini_select data centre)) as [labels|] eqn:E;
    [|discriminate].
  cbn [bind]. intros H.
  assert (Hid : id = No centre) by (inversion H; reflexivity).
  assert (Ht : tally labels = (n, c, i)) by (inversion H; reflexivity).
  clear H.
  assert (Hn : n = length labels) by (unfold tally in Ht; inversion Ht; reflexivity).
  assert (Hsum := tally_total labels). rewrite Ht in Hsum. cbn [fst snd] in Hsum.
  apply neighbours_length in E. cbn [length] in E.
  split; [exact Hid|]. split; [exact Hsum|]. split; [lia|].
  intros Hu. assert (Hz : filter (eligible geodesic_km centre) (ini_select data centre) = []).
  { assert (Hneg : negb (String.eqb (revised_aquifers centre) "Unallocated to aquifers")
                   = false) by (rewrite Hu; reflexivity).
    clear E. induction (ini_select data centre) as [|o l IH]; [reflexivity|].
    cbn [filter]. unfold eligible at 1. rewrite Hneg. cbn [andb].
    rewrite andb_false_r. exact IH. }
  rewrite Hz in E. cbn in E. lia.
Qed.

(** No station is compared with itself, and every candidate lies strictly
    inside the box of 0.15 by 0.25 degrees around the centre. *)
Theorem ini_select_box (data : list station) (centre s : station) :
  In s (ini_select data centre) <->
  In s data
  /\ No s <> No centre
  /\ lat centre - (15 # 100) < lat s < lat centre + (15 # 100)
  /\ long centre - (25 # 100) < long s < long centre + (25 # 100).
Proof.
  unfold ini_select. rewrite filter_In, !andb_true_iff, negb_true_iff, Z.eqb_neq,
    !Qlt_bool_iff. tauto.
Qed.

End SpatialFacts.

(** ** Downloading *)

Lemma day_values_nonempty (df : list reading) (t : Timestamp) :
  day_values df t <> [] <->
  exists d, In d df /\ r_date d = t /\ has_value d = true.
Proof.
  unfold day_values, has_value. induction df as [|d df IH]; cbn [flat_map].
  - split; [congruence|]. intros (d & [] & _).
  - split.
    + intros H. destruct (Ts.eqb (r_date d) t) eqn:E.
      * destruct (r_value d) as [x|] eqn:V.
        -- exists d. split; [left; reflexivity|]. split; [apply Ts_eqb_eq; exact E|].
           rewrite V. reflexivity.
        -- cbn [app] in H. apply IH in H. destruct H as (d' & H1 & H2).
           exists d'. split; [right; exact H1|exact H2].
      * cbn [app] in H. apply IH in H. destruct H as (d' & H1 & H2).
        exists d'. split; [right; exact H1|exact H2].
    + intros (d' & [<-|Hin] & Hd & Hv).
      * apply Ts_eqb_eq in Hd. rewrite Hd. destruct (r_value d); [discriminate|discriminate].
      * assert (Hne : flat_map
                 (fun d0 => if Ts.eqb (r_date d0) t
                            then match r_value d0 with Some x => [x] | None => [] end
                            else []) df <> []).
        { apply IH. exists d'. tauto. }
        intros Happ. apply app_eq_nil in Happ. tauto.
Qed.

Lemma daily_mean_dates_In (df : list reading) (t : Timestamp) :
  In t (map date (daily_mean df)) <->
  exists d, In d df /\ r_date d = t /\ has_value d = true.
Proof.
  rewrite <- day_values_nonempty. unfold daily_mean.
  assert (G : forall labels,
    In t (map date (flat_map (fun t0 =>
        match day_values df t0 with [] => [] | vs => [mkRow t0 (agg_mean vs)] end) labels))
    <-> In t labels /\ day_values df t <> []).
  { induction labels as [|u labels IH]; cbn [flat_map map].
    - cbn. tauto.
    - rewrite map_app, in_app_iff, IH. cbn [In].
      destruct (day_values df u) eqn:E; cbn [map In date].
      + split; [intros [[]|H]; tauto|]. intros [[->|H] Hne]; [congruence|tauto].
      + split.
        * intros [[<-|[]]|H]; [split; [left; reflexivity|congruence]|tauto].
        * intros [[->|H] Hne]; [left; left; reflexivity|tauto]. }
  rewrite G, labels_In. split; [tauto|]. intros H. split; [|exact H].
  apply day_values_nonempty in H. destruct H as (d & Hd & <- & _).
  apply in_map. exact Hd.
Qed.

Lemma daily_mean_increasing (df : list reading) :
  increasing (map date (daily_mean df)) = true.
Proof.
  unfold daily_mean. generalize (labels_increasing (map r_date df)).
  generalize (fold_right insert_label [] (map r_date df)) as labels.
  induction labels as [|u labels IH]; intros Hinc; [reflexivity|].
  apply increasing_cons in Hinc. destruct Hinc as [Hl Hall].
  cbn [flat_map]. rewrite map_app.
  assert (Hsub : forall w, In w (map date (flat_map (fun t0 =>
              match day_values df t0 with [] => [] | vs => [mkRow t0 (agg_mean vs)] end)
              labels)) -> In w labels).
  { clear. intros w. induction labels as [|x labels IH]; cbn [flat_map map]; [tauto|].
    rewrite map_app, in_app_iff. intros [H|H]; [|right; apply IH; exact H].
    destruct (day_values df x); cbn in H; [tauto|]. left. tauto. }
  destruct (day_values df u); cbn [map app date]; [apply IH; exact Hl|].
  apply increasing_cons. split; [apply IH; exact Hl|].
  intros w Hw. apply Hall. apply Hsub. exact Hw.
Qed.

Lemma daily_mean_no_values (df : list reading) :
  (forall d, In d df -> has_value d = false) -> daily_mean df = [].
Proof.
  intros H. destruct (daily_mean df) as [|r rows] eqn:E; [reflexivity|]. exfalso.
  assert (Hin : In (date r) (map date (daily_mean df))) by (rewrite E; left; reflexivity).
  apply daily_mean_dates_In in Hin. destruct Hin as (d & Hd & _ & Hv).
  rewrite (H d Hd) in Hv. discriminate.
Qed.

Lemma get_data_connection_error (resp : response) :
  status_code resp <> 200%Z -> get_data resp = ConnectionError.
Proof.
  intros H. unfold get_data. apply Z.eqb_neq in H. rewrite H. reflexivity.
Qed.

Lemma get_data_days (resp : response) :
  status_code resp = 200%Z ->
  exists f,
    get_data resp = Downloaded f
    /\ (f = EmptyDataFrame <-> forall d, In d (items resp) -> has_value d = false)
    /\ increasing (map date (rows_of f)) = true
    /\ (forall t, In t (map date (rows_of f))
                  <-> exists d, In d (items resp) /\ r_date d = t
                                /\ has_value d = true /\ accepted d = true).
Proof.
  intros H. unfold get_data. apply Z.eqb_eq in H. rewrite H. cbn [negb].
  destruct (forallb (fun d => negb (has_value d)) (items resp)) eqn:E; cbn [negb].
  - rewrite forallb_forall in E.
    exists EmptyDataFrame. split; [reflexivity|]. split; [|split; [reflexivity|]].
    + split; [|reflexivity]. intros _ d Hd. apply E in Hd.
      apply negb_true_iff in Hd. exact Hd.
    + intros t. cbn. split; [tauto|]. intros (d & Hd & _ & Hv & _).
      apply E in Hd. rewrite Hv in Hd. discriminate.
  - eexists. split; [reflexivity|]. split; [|split; [apply daily_mean_increasing|]].
    + split; [discriminate|]. intros Hall. exfalso.
      assert (T : forallb (fun d => negb (has_value d)) (items resp) = true).
      { apply forallb_forall. intros d Hd. rewrite (Hall d Hd). reflexivity. }
      congruence.
    + intros t. cbn [rows_of]. rewrite daily_mean_dates_In. split.
      * intros (d & Hd & Ht & Hv). apply filter_In in Hd. exists d. tauto.
      * intros (d & Hd & Ht & Hv & Ha). exists d. rewrite filter_In. tauto.
Qed.

(** X11.  [get_data] raises [ConnectionError] exactly when the status is not 200.
    Otherwise it returns [pd.DataFrame()] exactly when no reading has a
    value, and else a frame indexed by date whose dates are strictly
    increasing, with one row for each day that has at least one reading with
    a value and quality 'Good' or 'Estimated', and no other row. *)
Theorem get_data_outcome (resp : response) :
  (get_data resp = ConnectionError <-> status_code resp <> 200%Z)
  /\ (forall f, get_data resp = Downloaded f ->
        (f = EmptyDataFrame <-> forall d, In d (items resp) -> has_value d = false)
        /\ increasing (map date (rows_of f)) = true
        /\ (forall t, In t (map date (rows_of f))
                      <-> exists d, In d (items resp) /\ r_date d = t
                                    /\ has_value d = true /\ accepted d = true)).
Proof.
  destruct (Z.eq_dec (status_code resp) 200) as [H|H].
  - destruct (get_data_days resp H) as (f & Hf & Hfacts). split.
    + rewrite Hf. split; [discriminate|]. intros N. contradiction.
    + intros f' Hf'. rewrite Hf in Hf'. inversion Hf'; subst f'. exact Hfacts.
  - rewrite (get_data_connection_error resp H). split; [tauto|]. intros f Hf. discriminate.
Qed.

(** X12.  Readings of a rejected quality never change the rows that come
    back, but they can change the kind of frame.  With the rejected readings
    taken out of the payload beforehand the result is the same, except when
    the status is 200 and every reading that has a value is a rejected one:
    then [get_data] returns a date-indexed frame without rows, and on the
    payload without them [pd.DataFrame()]. *)
Theorem get_data_rejected_readings (resp : response) :
  let kept := mkResponse (status_code resp) (filter accepted (items resp)) in
  (get_data resp = ConnectionError <-> get_data kept = ConnectionError)
  /\ (forall f, get_data resp = Downloaded f ->
        exists f', get_data kept = Downloaded f' /\ rows_of f' = rows_of f)
  /\ (get_data resp = get_data kept
      <-> status_code resp <> 200%Z
          \/ (forall d, In d (items resp) -> has_value d = false)
          \/ (exists d, In d (items resp) /\ has_value d = true /\ accepted d = true))
  /\ (status_code resp = 200%Z ->
      (exists d, In d (items resp) /\ has_value d = true) ->
      (forall d, In d (items resp) -> has_value d = true -> accepted d = false) ->
      get_data resp = Downloaded (DateIndexed [])
      /\ get_data kept = Downloaded EmptyDataFrame).
Proof.
  intros kept.
  assert (Hff : filter accepted (filter accepted (items resp))
                = filter accepted (items resp)).
  { rewrite filter_filter. apply filter_ext. intros d. apply andb_diag. }
  assert (Hall : forallb (fun d => negb (has_value d)) (items resp) = true
                 <-> forall d, In d (items resp) -> has_value d = false).
  { rewrite forallb_forall. split; intros H d Hd.
    - apply negb_true_iff. apply H. exact Hd.
    - apply negb_true_iff. apply H. exact Hd. }
  assert (Hacc : forallb (fun d => negb (has_value d)) (filter accepted (items resp)) = false
                 <-> exists d, In d (items resp) /\ has_value d = true /\ accepted d = true).
  { split.
    - intros F.
      destruct (existsb (fun d => has_value d) (filter accepted (items resp))) eqn:X.
      + apply existsb_exists in X. destruct X as (d & Hd & Hv).
        apply filter_In in Hd. exists d. tauto.
      + exfalso.
        assert (T : forallb (fun d => negb (has_value d)) (filter accepted (items resp))
                    = true).
        { apply forallb_forall. intros d Hd.
          destruct (has_value d) eqn:Hv; [|reflexivity]. exfalso.
          assert (Y : existsb (fun d => has_value d) (filter accepted (items resp)) = true).
          { apply existsb_exists. exists d. tauto. }
          congruence. }
        congruence.
    - intros (d & Hd & Hv & Ha).
      destruct (forallb _ (filter accepted (items resp))) eqn:F; [|reflexivity].
      exfalso. rewrite forallb_forall in F.
      assert (Hin : In d (filter accepted (items resp))) by (apply filter_In; tauto).
      apply F in Hin. rewrite Hv in Hin. discriminate. }
  assert (Hnone : forallb (fun d => negb (has_value d)) (filter accepted (items resp)) = true ->
                  daily_mean (filter accepted (items resp)) = []).
  { intros F. apply daily_mean_no_values. intros d Hd. rewrite forallb_forall in F.
    apply F in Hd. apply negb_true_iff in Hd. exact Hd. }
  unfold get_data, kept. cbn [status_code items]. rewrite Hff.
  destruct (Z.eqb_spec (status_code resp) 200) as [Hs|Hs]; cbn [negb].
  - destruct (forallb (fun d => negb (has_value d)) (items resp)) eqn:G; cbn [negb].
    + (* no reading has a value *)
      assert (F : forallb (fun d => negb (has_value d)) (filter accepted (items resp)) = true).
      { apply forallb_forall. intros d Hd. rewrite forallb_forall in G. apply G.
        apply filter_In in Hd. tauto. }
      rewrite F. cbn [negb].
      split; [tauto|]. split; [|split].
      * intros f Hf. exists f. split; [exact Hf|reflexivity].
      * split; [|reflexivity]. intros _. right. left. apply Hall. reflexivity.
      * intros _ (d & Hd & Hv) _. exfalso.
        rewrite (proj1 Hall eq_refl d Hd) in Hv. discriminate.
    + destruct (forallb (fun d => negb (has_value d)) (filter accepted (items resp))) eqn:F;
        cbn [negb].
      * (* every reading with a value is rejected *)
        rewrite (Hnone eq_refl).
        split; [split; discriminate|]. split; [|split].
        -- intros f Hf. exists EmptyDataFrame. split; [reflexivity|].
           inversion Hf. reflexivity.
        -- split; [discriminate|]. intros [N|[N|N]].
           ++ contradiction.
           ++ apply Hall in N. congruence.
           ++ apply Hacc in N. congruence.
        -- intros _ _ _. split; reflexivity.
      * split; [split; discriminate|]. split; [|split].
        -- intros f Hf. exists f. split; [exact Hf|reflexivity].
        -- split; [|reflexivity]. intros _. right. right. apply Hacc. reflexivity.
        -- intros _ _ Hrej. exfalso. destruct (proj1 Hacc eq_refl) as (d & Hd & Hv & Ha).
           rewrite (Hrej d Hd Hv) in Ha. discriminate.
  - split; [tauto|]. split; [|split].
    + intros f Hf. discriminate.
    + split; [|reflexivity]. intros _. left. exact Hs.
    + intros N. contradiction.
Qed.

(** ** The quality filter selects rows *)

Lemma loc_loc (A : Type) (s : list A) (m1 m2 : list bool) :
  length m2 = length s ->
  exists m, length m = length s /\ loc m1 (loc m2 s) = loc m s.
Proof.
  revert m1 m2. induction s as [|x s IH]; intros m1 m2 Hl.
  - exists []. split; [reflexivity|]. destruct m2; [|discriminate].
    destruct m1; reflexivity.
  - destruct m2 as [|b m2]; [discriminate|]. cbn [length] in Hl.
    destruct b; cbn [loc].
    + destruct m1 as [|c m1].
      * exists (repeat false (S (length s))). split; [apply repeat_length|].
        cbn [loc repeat]. symmetry. apply loc_all_false. intros i Hi.
        apply nth_repeat.
      * destruct (IH m1 m2 ltac:(lia)) as (m & Hm & E).
        exists (c :: m). split; [cbn; lia|]. cbn [loc]. rewrite E. reflexivity.
    + destruct (IH m1 m2 ltac:(lia)) as (m & Hm & E).
      exists (false :: m). split; [cbn; lia|]. cbn [loc]. exact E.
Qed.

Lemma loc_length (A : Type) (m : list bool) (s : list A) :
  (length (loc m s) <= length s)%nat.
Proof.
  revert s. induction m as [|b m IH]; intros [|x s]; cbn [loc length]; try lia.
  specialize (IH s). destruct b; cbn [length]; lia.
Qed.

Lemma loc_increasing (m : list bool) (s : list row) :
  increasing (map date s) = true -> increasing (map date (loc m s)) = true.
Proof.
  revert m. induction s as [|x s IH]; intros m H.
  - destruct m; reflexivity.
  - destruct m as [|b m]; [reflexivity|]. cbn [map] in H.
    apply increasing_cons in H. destruct H as [Hs Hall].
    cbn [loc]. destruct b; [|apply IH; exact Hs].
    cbn [map]. apply increasing_cons. split; [apply IH; exact Hs|].
    intros u Hu. apply Hall. apply in_map_iff in Hu. destruct Hu as (r & <- & Hr).
    apply in_map. apply (loc_In _ _ _ Hr).
Qed.

(** X6.  The quality filter only ever takes rows away: its output is the input
    with some rows selected, each kept as it was and in the same order.  So
    it is never longer than the input, and dates that were strictly
    increasing remain so. *)
Theorem quality_control_selects (gw : DailySeries) :
  (exists mask, length mask = length gw /\ quality_control gw = loc mask gw)
  /\ (length (quality_control gw) <= length gw)%nat
  /\ (increasing (map date gw) = true ->
      increasing (map date (quality_control gw)) = true).
Proof.
  assert (H : exists mask, length mask = length gw /\ quality_control gw = loc mask gw).
  { assert (Hl1 : length (map negb (R3TCSV_duplicates (map value gw))) = length gw).
    { rewrite length_map, R3TCSV_duplicates_length, length_map. reflexivity. }
    assert (Hs2 : exists m12, length m12 = length gw /\ RVZ3 (R3TCSV gw) = loc m12 gw).
    { unfold RVZ3. cbv zeta.
      match goal with |- context [loc ?m (R3TCSV gw)] => generalize m end.
      intros m2. rewrite R3TCSV_mask. apply loc_loc. exact Hl1. }
    destruct Hs2 as (m12 & Hm12 & E12).
    unfold quality_control. rewrite RDRVI_exact.
    match goal with |- context [filter ?P _] => generalize P end. intros P.
    rewrite E12, <- loc_map_filter. apply loc_loc. exact Hm12. }
  split; [exact H|]. destruct H as (mask & Hm & ->).
  split; [apply loc_length|]. apply loc_increasing.
Qed.

(** ** Stage 3 on a single water year *)

Lemma bin_labels_single (label : Timestamp -> Timestamp) (w : Timestamp)
    (r : row) (s : list row) :
  (forall x, In x (r :: s) -> label (date x) = w) ->
  bin_labels label (r :: s) = [w].
Proof.
  unfold bin_labels. revert r. induction s as [|y s IH]; intros r H.
  - cbn. rewrite (H r (or_introl eq_refl)). reflexivity.
  - assert (IHy := IH y (fun x Hx => H x (or_intror Hx))).
    cbn [map fold_right] in IHy |- *. rewrite IHy, (H r (or_introl eq_refl)).
    cbn [insert_label].
    assert (E : Ts.eqb w w = true) by (apply Ts_eqb_eq; reflexivity).
    rewrite E. reflexivity.
Qed.

(** X5.  A series that lies in one water year passes stage 3 unchanged: its RVI
    is 1, or NaN when all its values are equal, and NaN is neither above 5
    nor below 0.2. *)
Theorem RDRVI_single_water_year (gw : DailySeries) (w : Timestamp) :
  (forall r, In r gw -> Ts.water_year (date r) = w) -> RDRVI gw = gw.
Proof.
  intros H. destruct gw as [|r gw]; [reflexivity|].
  apply RDRVI_within_bounds. unfold RVI_within_bounds, Range_Y, Max_Y, Min_Y, resample.
  rewrite (bin_labels_single Ts.water_year H). cbn [map combine fst snd value forallb].
  rewrite andb_true_r. apply negb_true_iff.
  set (rg := agg_max _ - agg_min _).
  assert (Hmed : median [rg] = Fin rg) by reflexivity.
  rewrite Hmed. unfold RVI_out_of_bounds, Np.div.
  destruct (Qeq_bool rg 0) eqn:E.
  - apply Qeq_bool_iff in E.
    assert (A : Qlt_bool 0 rg = false).
    { destruct (Qlt_bool 0 rg) eqn:A; [apply Qlt_bool_iff in A; lra|reflexivity]. }
    assert (B : Qlt_bool rg 0 = false).
    { destruct (Qlt_bool rg 0) eqn:B; [apply Qlt_bool_iff in B; lra|reflexivity]. }
    rewrite A, B. reflexivity.
  - assert (Hne : ~ rg == 0).
    { intros Hz. apply Qeq_bool_iff in Hz. congruence. }
    assert (H1 : rg / rg == 1) by (field; exact Hne).
    cbn [Np.gt Np.lt]. apply orb_false_iff. split.
    + destruct (Qlt_bool 5 (rg / rg)) eqn:A; [apply Qlt_bool_iff in A; lra|reflexivity].
    + destruct (Qlt_bool (rg / rg) (2 # 10)) eqn:A;
        [apply Qlt_bool_iff in A; lra|reflexivity].
Qed.

(** ** Stage 2 on short series *)

Lemma sum_Q_app (l1 l2 : list Q) : sum_Q (l1 ++ l2) == sum_Q l1 + sum_Q l2.
Proof.
  induction l1 as [|a l1 IH]; cbn [app sum_Q fold_right].
  - change (fold_right Qplus 0 l2) with (sum_Q l2). lra.
  - fold (sum_Q (l1 ++ l2)). fold (sum_Q l1). rewrite IH. lra.
Qed.

Lemma len_Q_app (A : Type) (l1 l2 : list A) : len_Q (l1 ++ l2) == len_Q l1 + len_Q l2.
Proof.
  unfold len_Q. rewrite length_app, Nat2Z.inj_add, inject_Z_plus. reflexivity.
Qed.

(** Cauchy--Schwarz against the constant vector. *)
Lemma square_of_sum (l : list Q) : sq (sum_Q l) <= len_Q l * sum_Q (map sq l).
Proof.
  induction l as [|a l IH].
  - change (sq 0 <= 0 * 0). unfold sq. lra.
  - cbn [map sum_Q fold_right]. fold (sum_Q l). fold (sum_Q (map sq l)).
    rewrite len_Q_cons.
    assert (Hq : 0 <= sum_Q (map sq l)).
    { apply sum_Q_nonneg_terms. intros x _. apply sq_nonneg. }
    assert (Hm : 0 <= len_Q l) by apply len_Q_nonneg.
    set (s := sum_Q l) in *. set (q := sum_Q (map sq l)) in *. set (m := len_Q l) in *.
    clearbody s q m.
    assert (Hc : 0 <= (m * a - s) * (m * a - s)) by apply (sq_nonneg (m * a - s)).
    unfold sq in *.
    destruct (Qlt_le_dec 0 m) as [Hpos|Hz].
    + assert (Hk : m * (2 * a * s) <= m * (m * (a * a) + q)) by nra.
      assert (Hd : 2 * a * s <= m * (a * a) + q).
      { apply (Qmult_le_l _ _ m Hpos). exact Hk. }
      nra.
    + assert (Hm0 : m == 0) by lra.
      assert (Hs0 : s * s <= 0) by (rewrite Hm0 in IH; lra).
      assert (Hs : s == 0) by nra.
      rewrite Hs, Hm0. nra.
Qed.

(** Samuelson's inequality: in data that sum to zero no entry is larger, in
    square, than (n - 1) / n times the sum of the squares. *)
Lemma largest_deviation (l : list Q) (e : Q) :
  In e l -> sum_Q l == 0 ->
  len_Q l * sq e <= (len_Q l - 1) * sum_Q (map sq l).
Proof.
  intros He Hsum. apply in_split in He. destruct He as (l1 & l2 & ->).
  assert (Hcs := square_of_sum (l1 ++ l2)).
  assert (E1 : sum_Q (l1 ++ e :: l2) == sum_Q l1 + (e + sum_Q l2)).
  { rewrite sum_Q_app. reflexivity. }
  assert (E2 : len_Q (l1 ++ e :: l2) == len_Q l1 + (len_Q l2 + 1)).
  { rewrite len_Q_app, len_Q_cons. reflexivity. }
  assert (E3 : sum_Q (map sq (l1 ++ e :: l2))
               == sum_Q (map sq l1) + (sq e + sum_Q (map sq l2))).
  { rewrite map_app, sum_Q_app. reflexivity. }
  assert (E4 : sum_Q (l1 ++ l2) == sum_Q l1 + sum_Q l2) by apply sum_Q_app.
  assert (E5 : len_Q (l1 ++ l2) == len_Q l1 + len_Q l2) by apply len_Q_app.
  assert (E6 : sum_Q (map sq (l1 ++ l2)) == sum_Q (map sq l1) + sum_Q (map sq l2)).
  { rewrite map_app. apply sum_Q_app. }
  rewrite E1 in Hsum. rewrite E2, E3. unfold sq at 1 in Hcs. rewrite E4, E5, E6 in Hcs.
  assert (H1 : 0 <= sum_Q (map sq l1)).
  { apply sum_Q_nonneg_terms. intros x _. apply sq_nonneg. }
  assert (H2 : 0 <= sum_Q (map sq l2)).
  { apply sum_Q_nonneg_terms. intros x _. apply sq_nonneg. }
  assert (Hn1 := len_Q_nonneg l1). assert (Hn2 := len_Q_nonneg l2).
  clear E1 E2 E3 E4 E5 E6.
  set (s1 := sum_Q l1) in *. set (s2 := sum_Q l2) in *.
  set (q1 := sum_Q (map sq l1)) in *. set (q2 := sum_Q (map sq l2)) in *.
  set (n1 := len_Q l1) in *. set (n2 := len_Q l2) in *.
  clearbody s1 s2 q1 q2 n1 n2.
  assert (Hrest : s1 + s2 == - e) by lra.
  rewrite Hrest in Hcs. unfold sq in *. nra.
Qed.

Lemma len_Q_bounds (A : Type) (l : list A) (a b : nat) :
  (a <= length l <= b)%nat ->
  inject_Z (Z.of_nat a) <= len_Q l <= inject_Z (Z.of_nat b).
Proof.
  intros [Ha Hb]. unfold len_Q. rewrite <- !Zle_Qle. lia.
Qed.

Lemma short_series_within_3std (ds : list Q) (d : Q) :
  (2 <= length ds <= 10)%nat -> sum_Q ds == 0 -> In d ds ->
  abs_le_3std d (var_ddof1 ds) = true.
Proof.
  intros Hlen Hsum Hd.
  assert (Hn := len_Q_bounds ds Hlen).
  change (inject_Z (Z.of_nat 2)) with 2 in Hn.
  change (inject_Z (Z.of_nat 10)) with 10 in Hn.
  assert (Hv : var_ddof1 ds
               = Fin (sum_Q (map (fun x => sq (x - sum_Q ds / len_Q ds)) ds)
                      / (len_Q ds - 1))).
  { destruct ds as [|a [|b ds]]; [cbn in Hlen; lia|cbn in Hlen; lia|reflexivity]. }
  rewrite Hv. unfold abs_le_3std. cbn [Np.mul Np.le]. apply Qle_bool_iff.
  assert (Hss : sum_Q (map (fun x => sq (x - sum_Q ds / len_Q ds)) ds)
                == sum_Q (map sq ds)).
  { apply sum_Q_map_ext. intros x _. unfold sq. rewrite Hsum. field. lra. }
  rewrite Hss.
  assert (Hsam := largest_deviation ds d Hd Hsum).
  assert (Hq : 0 <= sum_Q (map sq ds)).
  { apply sum_Q_nonneg_terms. intros x _. apply sq_nonneg. }
  set (n := len_Q ds) in *. set (S := sum_Q (map sq ds)) in *.
  clearbody n S.
  set (T := S / (n - 1)).
  assert (HT : S == T * (n - 1)) by (unfold T; field; lra).
  assert (HT0 : 0 <= T) by (unfold T; apply Qle_shift_div_l; lra).
  assert (Hk : (n - 1) * (n - 1) <= 9 * n) by nra.
  assert (Hk' : (n - 1) * (n - 1) * T <= 9 * n * T) by (apply Qmult_le_compat_r; assumption).
  assert (Hfin : n * sq d <= n * (9 * T)).
  { rewrite HT in Hsam. nra. }
  apply (Qmult_le_l _ _ n); [lra|exact Hfin].
Qed.

(** X3.  Stage 2 cannot remove anything from a series of two to ten rows: no
    value of so short a series lies more than three sample standard
    deviations from the mean. *)
Theorem RVZ3_short_series (gw : DailySeries) :
  (2 <= length gw <= 10)%nat -> RVZ3 gw = gw.
Proof.
  intros Hlen. apply RVZ3_within_3std. unfold within_3std. apply forallb_forall.
  intros d Hd. apply short_series_within_3std.
  - rewrite deviations_length. exact Hlen.
  - apply deviations_sum.
  - exact Hd.
Qed.

(** ** The statistics row *)

Lemma october_years_increase (a b : Timestamp) :
  october_first a = true -> october_first b = true -> Ts.ltb a b = true ->
  (year a < year b)%Z.
Proof.
  intros Ha Hb. rewrite (october_first_form _ Ha), (october_first_form _ Hb).
  cbn [year]. generalize (year a) (year b). intros ya yb. ts_bool. lia.
Qed.

(** Water years in increasing order fit between the first and the last. *)
Lemma octobers_counted (ts : list Timestamp) (f : Timestamp) (Y : Z) :
  increasing (f :: ts) = true ->
  (forall t, In t (f :: ts) -> october_first t = true /\ (year t <= Y)%Z) ->
  (Z.of_nat (length (f :: ts)) <= Y - year f + 1)%Z.
Proof.
  revert f. induction ts as [|g ts IH]; intros f Hinc Hall.
  - destruct (Hall f (or_introl eq_refl)) as [_ Hy]. cbn [length]. lia.
  - apply increasing_cons in Hinc. destruct Hinc as [Hinc Hlt].
    assert (Hfg : (year f < year g)%Z).
    { apply october_years_increase.
      - apply Hall. left. reflexivity.
      - apply Hall. right. left. reflexivity.
      - apply Hlt. left. reflexivity. }
    assert (IHg := IH g Hinc (fun t Ht => Hall t (or_intror Ht))).
    change (length (f :: g :: ts)) with (S (length (g :: ts))).
    rewrite Nat2Z.inj_succ. lia.
Qed.

Lemma years_spanned_at_least (y k : Z) :
  (0 <= k)%Z ->
  (k + 1 <= years_spanned (Ts.days_between (mkTs (y + k) 10 1) (mkTs y 10 1)))%Z.
Proof.
  intros Hk. unfold Ts.days_between. rewrite !to_days_october.
  assert (H := @leap_days_span y k Hk). unfold years_spanned.
  Z.to_euclidean_division_equations; lia.
Qed.

Lemma annual_index (gd_m : list row) :
  increasing (map date (annual gd_m)) = true
  /\ forall t, In t (map date (annual gd_m)) -> october_first t = true.
Proof.
  unfold annual. rewrite resample_dates. unfold bin_labels.
  split; [apply labels_increasing|]. intros t Ht.
  apply (proj1 (labels_In _ _)) in Ht. apply in_map_iff in Ht.
  destruct Ht as (r & <- & _).
  unfold Ts.water_year. destruct (10 <=? month (date r))%Z; reflexivity.
Qed.

(** X9.  When DownloadData.py writes statistics for a station, the annual series
    is saved with them, 'data amount' is the length of the cleaned series
    and exceeds 100, 'cover year' is the length of the annual series and
    exceeds 8, the mean depth of the annual series is positive, and 'cover
    year' never exceeds 'total year'. *)
Theorem station_statistics_row (gd : DailySeries) (out : station_output)
    (n cy : nat) (m mx mn : Q) (fy ly : Timestamp) (ty : Z) :
  station_summary gd = Ok out ->
  summary_row out = Statistics n m mx mn fy ly ty cy ->
  annual_file out = Some (annual (monthly gd))
  /\ n = length gd /\ (100 < n)%nat
  /\ cy = length (annual (monthly gd)) /\ (8 < cy)%nat
  /\ Np.le (mean (map value (annual (monthly gd)))) (Fin 0) = false
  /\ (Z.of_nat cy <= ty)%Z.
Proof.
  unfold station_summary.
  destruct (Nat.leb_spec (length gd) 100) as [H1|H1];
    [cbn [orb]; intros H; inversion H; subst out; discriminate|].
  destruct (Nat.leb_spec (length (annual (monthly gd))) 8) as [H2|H2];
    [cbn [orb]; intros H; inversion H; subst out; discriminate|].
  cbn [orb].
  destruct (Np.le (mean (map value (annual (monthly gd)))) (Fin 0)) eqn:Hm;
    [intros H; inversion H; subst out; discriminate|].
  destruct (annual_index (monthly gd)) as [Hinc Hoct].
  destruct (annual (monthly gd)) as [|y YMG] eqn:EY; [cbn in H2; lia|].
  cbn [map iloc_first bind].
  destruct (iloc_back 0 (date y :: map date YMG)) as [l|] eqn:El; [|discriminate].
  cbn [bind]. destruct (py_max (map value gd)) as [mx'|]; [|discriminate].
  destruct (py_min (map value gd)) as [mn'|]; [|discriminate].
  cbn [bind]. intros H. inversion H; subst out; clear H. cbn [summary_row annual_file].
  intros H. injection H as Hn _ _ _ _ _ Hty Hcy. subst n cy ty.
  split; [reflexivity|]. split; [reflexivity|]. split; [exact H1|].
  split; [reflexivity|]. split; [exact H2|]. split; [reflexivity|].
  (* cover year against total year *)
  cbn [map] in Hinc, Hoct.
  assert (Hl : In l (date y :: map date YMG)) by (apply (iloc_back_In _ _ El)).
  assert (Hlast : forall t, In t (date y :: map date YMG) -> (year t <= year l)%Z).
  { unfold iloc_back in El. cbn [nth_error] in El.
    destruct (rev (date y :: map date YMG)) as [|z zs] eqn:Er; [discriminate|].
    inversion El; subst z. clear El.
    assert (Hrev : increasing (rev (l :: zs)) = true).
    { rewrite <- Er, rev_involutive. exact Hinc. }
    intros t Ht.
    assert (Ht' : In t (rev (l :: zs))) by (rewrite <- Er, rev_involutive; exact Ht).
    cbn [rev] in Hrev, Ht'. apply in_app_iff in Ht'. destruct Ht' as [Ht'|[<-|[]]]; [|lia].
    assert (Hlt : Ts.ltb t l = true).
    { clear - Hrev Ht'. induction (rev zs) as [|a rs IH]; [destruct Ht'|].
      cbn [app] in Hrev. apply increasing_cons in Hrev. destruct Hrev as [Hr Hall].
      destruct Ht' as [->|Ht']; [apply Hall; apply in_app_iff; right; left; reflexivity|].
      apply IH; assumption. }
    assert (Hot : october_first t = true) by (apply Hoct; exact Ht).
    assert (Hol : october_first l = true) by (apply Hoct; exact Hl).
    generalize (@october_years_increase t l Hot Hol Hlt). lia. }
  assert (Hcount := @octobers_counted (map date YMG) (date y) (year l) Hinc
                      (fun t Ht => conj (Hoct t Ht) (Hlast t Ht))).
  cbn [length] in Hcount |- *. rewrite length_map in Hcount.
  assert (Hoy : october_first (date y) = true) by (apply Hoct; left; reflexivity).
  assert (Hol : october_first l = true) by (apply Hoct; exact Hl).
  rewrite (october_first_form _ Hol), (october_first_form _ Hoy). cbn [year].
  assert (Hk : (0 <= year l - year (date y))%Z).
  { generalize (Hlast (date y) (or_introl eq_refl)). lia. }
  generalize (@years_spanned_at_least (year (date y)) _ Hk).
  replace (year (date y) + (year l - year (date y)))%Z with (year l) by lia.
  cbn [length] in *. lia.
Qed.

Lemma station_statistics_row_witness :
  station_summary ten_year_record = Ok ten_year_output
  /\ annual_file ten_year_output = Some (annual (monthly ten_year_record))
  /\ (100 < length ten_year_record)%nat.
Proof.
  assert (H : station_summary ten_year_record = Ok ten_year_output)
    by (vm_compute; reflexivity).
  split; [exact H|].
  assert (R : exists n m mx mn fy ly ty cy,
            summary_row ten_year_output = Statistics n m mx mn fy ly ty cy).
  { unfold ten_year_output. cbn [summary_row]. do 8 eexists. reflexivity. }
  destruct R as (n & m & mx & mn & fy & ly & ty & cy & R).
  destruct (station_statistics_row _ H R) as (Hf & Hn & Hgt & _).
  split; [exact Hf|]. rewrite <- Hn. exact Hgt.
Defined.

(** ** Stage 1 is idempotent *)

Lemma skipn_nth (A : Type) (k : nat) (l : list A) (d : A) :
  (k < length l)%nat -> skipn k l = nth k l d :: skipn (S k) l.
Proof.
  revert l. induction k as [|k IH]; intros [|x l] H; cbn in H; try lia.
  - reflexivity.
  - cbn [skipn nth]. apply IH. lia.
Qed.

Lemma skipn_all_nil (A : Type) (l : list A) : skipn (length l) l = [].
Proof. induction l as [|x l IH]; [reflexivity|exact IH]. Qed.

Section Stage1Pass.

Variable gw : DailySeries.

Let vs := map value gw.

Lemma value_nth (k : nat) (d : row) :
  (k < length gw)%nat -> value (nth k gw d) = nth k vs 0.
Proof.
  intros H. unfold vs. rewrite (nth_indep _ 0 (value d)) by (rewrite length_map; exact H).
  symmetry. apply map_nth.
Qed.

Lemma closes_flat3_local (k : nat) :
  (k < length gw)%nat ->
  closes_flat3 vs k
  = ((1 <=? k)%nat && Qeq_bool (nth (k - 1) vs 0) (nth k vs 0))
    && (((2 <=? k)%nat && Qeq_bool (nth (k - 2) vs 0) (nth (k - 1) vs 0))
        || ((S k <? length gw)%nat && Qeq_bool (nth k vs 0) (nth (S k) vs 0))).
Proof.
  intros Hk. unfold closes_flat3, flat3_at.
  assert (Hn : length vs = length gw) by (unfold vs; apply length_map).
  rewrite Hn.
  destruct k as [|[|k]].
  - reflexivity.
  - cbn [Nat.leb Nat.sub Nat.add andb orb].
    destruct (2 <? length gw)%nat, (Qeq_bool (nth 0 vs 0) (nth 1 vs 0)),
      (Qeq_bool (nth 1 vs 0) (nth 2 vs 0)); reflexivity.
  - replace (S (S k) - 2)%nat with k by lia.
    replace (S (S k) - 1)%nat with (S k) by lia.
    replace (k + 2)%nat with (S (S k)) by lia.
    replace (k + 1)%nat with (S k) by lia.
    replace (S k + 2)%nat with (S (S (S k))) by lia.
    replace (S k + 1)%nat with (S (S k)) by lia.
    cbn [Nat.leb andb].
    destruct (Nat.ltb_spec (S (S k)) (length gw)) as [_|]; [|lia].
    destruct (S (S (S k)) <? length gw)%nat, (Qeq_bool (nth k vs 0) (nth (S k) vs 0)),
      (Qeq_bool (nth (S k) vs 0) (nth (S (S k)) vs 0)),
      (Qeq_bool (nth (S (S k)) vs 0) (nth (S (S (S k))) vs 0)); reflexivity.
Qed.

Lemma R3TCSV_pass_from (m k : nat) :
  length gw = (k + m)%nat ->
  loc (map (fun i => negb (closes_flat3 vs i)) (seq k m)) (skipn k gw)
  = R3TCSV_pass (above vs k 2) (above vs k 1) (skipn k gw).
Proof.
  revert k. induction m as [|m IH]; intros k Hn.
  - replace k with (length gw) by lia. rewrite skipn_all_nil. reflexivity.
  - assert (Hk : (k < length gw)%nat) by lia.
    rewrite (skipn_nth gw (mkRow (mkTs 0 0 0) 0) Hk).
    cbn [seq map loc R3TCSV_pass].
    rewrite (IH (S k)) by lia.
    assert (A2 : above vs (S k) 2 = above vs k 1).
    { unfold above. destruct k as [|k]; [reflexivity|].
      cbn [Nat.leb]. replace (S (S k) - 2)%nat with (S k - 1)%nat by lia. reflexivity. }
    assert (A1 : above vs (S k) 1 = Some (value (nth k gw (mkRow (mkTs 0 0 0) 0)))).
    { unfold above. cbn [Nat.leb]. rewrite value_nth by exact Hk.
      replace (S k - 1)%nat with k by lia. reflexivity. }
    rewrite A2, A1.
    assert (Hc : closes_flat3 vs k
      = match above vs k 1 with
        | Some b => Qeq_bool b (value (nth k gw (mkRow (mkTs 0 0 0) 0)))
        | None => false
        end
        && (match above vs k 2, above vs k 1 with
            | Some a, Some b => Qeq_bool a b
            | _, _ => false
            end
            || match skipn (S k) gw with
               | y :: _ => Qeq_bool (value (nth k gw (mkRow (mkTs 0 0 0) 0))) (value y)
               | [] => false
               end)).
    { rewrite closes_flat3_local by exact Hk. rewrite value_nth by exact Hk.
      f_equal; [|f_equal].
      - unfold above. destruct (1 <=? k)%nat; reflexivity.
      - unfold above. destruct (Nat.leb_spec 2 k) as [H2|H2].
        + destruct (Nat.leb_spec 1 k) as [_|]; [|lia].
          replace (k - 1)%nat with (k - 1)%nat by lia. reflexivity.
        + destruct (1 <=? k)%nat; reflexivity.
      - destruct (Nat.ltb_spec (S k) (length gw)) as [H|H].
        + rewrite (skipn_nth gw (mkRow (mkTs 0 0 0) 0) H).
          rewrite value_nth by exact H. reflexivity.
        + replace (S k) with (length gw) by lia. rewrite skipn_all_nil. reflexivity. }
    rewrite Hc. destruct (_ && _); reflexivity.
Qed.

(** Stage 1 is the row-by-row pass started with nothing above. *)
Lemma R3TCSV_as_pass : R3TCSV gw = R3TCSV_pass None None gw.
Proof.
  rewrite R3TCSV_exact. fold vs.
  apply (R3TCSV_pass_from (length gw) 0). reflexivity.
Qed.

End Stage1Pass.

Lemma Qeq_bool_shift (a b c : Q) :
  Qeq_bool a b = true -> Qeq_bool a c = Qeq_bool b c.
Proof.
  intros H. apply Qeq_bool_iff in H.
  destruct (Qeq_bool a c) eqn:E1, (Qeq_bool b c) eqn:E2; try reflexivity.
  - apply Qeq_bool_iff in E1. assert (E : b == c) by (rewrite <- H; exact E1).
    apply Qeq_bool_iff in E. congruence.
  - apply Qeq_bool_iff in E2. assert (E : a == c) by (rewrite H; exact E2).
    apply Qeq_bool_iff in E. congruence.
Qed.

(** After two equal values the pass lets nothing equal through first. *)
Lemma pass_after_pair (l : list row) (a b : Q) :
  Qeq_bool a b = true ->
  match R3TCSV_pass (Some a) (Some b) l with
  | o :: _ => Qeq_bool b (value o) = false
  | [] => True
  end.
Proof.
  revert a b. induction l as [|x rest IH]; intros a b Hab; [exact I|].
  cbn [R3TCSV_pass]. rewrite Hab. cbn [orb]. rewrite andb_true_r.
  destruct (Qeq_bool b (value x)) eqn:E; [|exact E].
  specialize (IH b (value x) E).
  destruct (R3TCSV_pass (Some b) (Some (value x)) rest) as [|o out]; [exact I|].
  rewrite (@Qeq_bool_shift b (value x) (value o) E). exact IH.
Qed.

(** If the first row let through equals the value above, the second one
    differs from it. *)
Lemma pass_first_equal (l : list row) (p2 : option Q) (b : Q) :
  match R3TCSV_pass p2 (Some b) l with
  | o :: o2 :: _ =>
      Qeq_bool b (value o) = true -> Qeq_bool (value o) (value o2) = false
  | _ => True
  end.
Proof.
  destruct l as [|x rest]; [exact I|]. cbn [R3TCSV_pass].
  destruct (Qeq_bool b (value x)) eqn:E.
  - assert (Hp := pass_after_pair rest b (value x) E).
    destruct (_ && _).
    + destruct (R3TCSV_pass (Some b) (Some (value x)) rest) as [|o [|o2 out]];
        try exact I. intros Ho. rewrite (@Qeq_bool_shift b (value x) (value o) E) in Ho.
      congruence.
    + destruct (R3TCSV_pass (Some b) (Some (value x)) rest) as [|o2 out]; [exact I|].
      intros _. exact Hp.
  - cbn [andb].
    destruct (R3TCSV_pass (Some b) (Some (value x)) rest) as [|o2 out]; [exact I|].
    intros Ho. congruence.
Qed.

Lemma pass_no_flat3 (l : list row) (p2 p1 : option Q) :
  has_flat3 (map value (R3TCSV_pass p2 p1 l)) = false.
Proof.
  revert p2 p1. induction l as [|x rest IH]; intros p2 p1; [reflexivity|].
  cbn [R3TCSV_pass]. destruct (_ && _); [apply IH|].
  assert (Hf := pass_first_equal rest p1 (value x)). specialize (IH p1 (Some (value x))).
  destruct (R3TCSV_pass p1 (Some (value x)) rest) as [|o [|o2 out]].
  - reflexivity.
  - reflexivity.
  - change (map value (x :: o :: o2 :: out))
      with (value x :: map value (o :: o2 :: out)).
    cbn [has_flat3]. rewrite orb_false_iff. split; [|exact IH].
    cbn [map flat3_head].
    destruct (Qeq_bool (value x) (value o)) eqn:E; [|reflexivity].
    rewrite (Hf eq_refl). reflexivity.
Qed.

(** X2.  What stage 1 returns holds no three equal values in a row, so a second
    run of stage 1 changes nothing. *)
Theorem R3TCSV_idempotent (gw : DailySeries) :
  has_flat3 (map value (R3TCSV gw)) = false
  /\ R3TCSV (R3TCSV gw) = R3TCSV gw.
Proof.
  assert (H : has_flat3 (map value (R3TCSV gw)) = false).
  { rewrite R3TCSV_as_pass. apply pass_no_flat3. }
  split; [exact H|]. apply R3TCSV_no_flat3. exact H.
Qed.

(** ** Means stay inside the data *)

Lemma sum_Q_between (vs : list Q) (lo hi : Q) :
  (forall x, In x vs -> lo <= x <= hi) ->
  len_Q vs * lo <= sum_Q vs <= len_Q vs * hi.
Proof.
  induction vs as [|a vs IH]; intros H.
  - change (0 * lo <= 0 <= 0 * hi). lra.
  - cbn [sum_Q fold_right]. fold (sum_Q vs). rewrite len_Q_cons.
    assert (Ha := H a (or_introl eq_refl)).
    assert (Hv := IH (fun x Hx => H x (or_intror Hx))).
    generalize dependent (len_Q vs). intros n Hv. nra.
Qed.

Lemma agg_mean_between (vs : list Q) (lo hi : Q) :
  vs <> [] -> (forall x, In x vs -> lo <= x <= hi) -> lo <= agg_mean vs <= hi.
Proof.
  intros Hne H. destruct vs as [|a vs]; [contradiction|].
  assert (Hs := sum_Q_between (a :: vs) H). assert (Hp := len_Q_pos a vs).
  unfold agg_mean. split.
  - apply Qle_shift_div_l; [exact Hp|]. lra.
  - apply Qle_shift_div_r; [exact Hp|]. lra.
Qed.

Lemma resample_mean_between (label : Timestamp -> Timestamp) (s : list row) (lo hi : Q) :
  (forall r, In r s -> lo <= value r <= hi) ->
  forall r, In r (resample label agg_mean s) -> lo <= value r <= hi.
Proof.
  intros H r Hr. unfold resample in Hr. apply in_map_iff in Hr.
  destruct Hr as (l & <- & Hl). cbn [value].
  unfold bin_labels in Hl. apply (proj1 (labels_In _ _)) in Hl. apply in_map_iff in Hl.
  destruct Hl as (r0 & Hl0 & Hr0).
  apply agg_mean_between.
  - unfold bin_values. intros E.
    assert (Hin : In (value r0) (map value (filter (fun x => Ts.eqb (label (date x)) l) s))).
    { apply in_map. apply filter_In. split; [exact Hr0|]. apply Ts_eqb_eq. exact Hl0. }
    rewrite E in Hin. destruct Hin.
  - intros x Hx. unfold bin_values in Hx. apply in_map_iff in Hx.
    destruct Hx as (r1 & <- & Hr1). apply filter_In in Hr1. apply H. tauto.
Qed.

(** X8.  Every value of the annual series lies between the smallest and the
    largest value of the cleaned daily series it was averaged from. *)
Theorem annual_values_between (gd : DailySeries) (lo hi : Q) :
  (forall r, In r gd -> lo <= value r <= hi) ->
  forall r, In r (annual (monthly gd)) -> lo <= value r <= hi.
Proof.
  intros H. unfold annual, monthly.
  apply resample_mean_between. apply resample_mean_between. exact H.
Qed.

(** X10.  A station whose cleaned depths are all positive is never marked
    'negative mean depth': the row is the insufficient-data sentinel or the
    statistics. *)
Theorem positive_depths_not_negative_mean (gd : DailySeries) (out : station_output) :
  (forall r, In r gd -> 0 < value r) ->
  station_summary gd = Ok out ->
  summary_row out <> NegativeMeanDepth.
Proof.
  intros Hpos. unfold station_summary.
  destruct ((length gd <=? 100)%nat || (length (annual (monthly gd)) <=? 8)%nat);
    [intros H; inversion H; discriminate|].
  destruct (Np.le (mean (map value (annual (monthly gd)))) (Fin 0)) eqn:Hm.
  - exfalso. destruct gd as [|g gd].
    + assert (E : annual (monthly []) = []) by reflexivity.
      rewrite E in Hm. discriminate.
    + destruct (annual (monthly (g :: gd))) as [|y YMG] eqn:EY; [discriminate|].
      (* a positive lower bound of the daily values *)
      assert (Hlo : exists lo, 0 < lo /\ forall r, In r (g :: gd) -> lo <= value r).
      { clear - Hpos. induction (g :: gd) as [|a l IH].
        - exists 1. split; [lra|]. intros r [].
        - destruct (IH (fun r Hr => Hpos r (or_intror Hr))) as (lo & Hlo & Hall).
          assert (Ha := Hpos a (or_introl eq_refl)).
          destruct (Qlt_le_dec (value a) lo) as [Hlt|Hge].
          + exists (value a). split; [exact Ha|]. intros r [<-|Hr]; [lra|].
            specialize (Hall r Hr). lra.
          + exists lo. split; [exact Hlo|]. intros r [<-|Hr]; [exact Hge|]. auto. }
      destruct Hlo as (lo & Hlo & Hall).
      assert (Hhi : exists hi, forall r, In r (g :: gd) -> value r <= hi).
      { clear. induction (g :: gd) as [|a l IH]; [exists 0; intros r []|].
        destruct IH as (hi & Hhi).
        destruct (Qlt_le_dec hi (value a)) as [Hlt|Hge].
        - exists (value a). intros r [<-|Hr]; [lra|]. specialize (Hhi r Hr). lra.
        - exists hi. intros r [<-|Hr]; [exact Hge|]. auto. }
      destruct Hhi as (hi & Hhi).
      assert (Hb : forall r, In r (y :: YMG) -> lo <= value r <= hi).
      { rewrite <- EY. unfold annual, monthly.
        apply resample_mean_between. apply resample_mean_between.
        intros r Hr. split; auto. }
      cbn [map] in Hm. rewrite mean_nonempty in Hm. cbn [Np.le] in Hm.
      apply Qle_bool_iff in Hm.
      assert (Hv : forall x, In x (value y :: map value YMG) -> lo <= x <= hi).
      { intros x Hx. change (value y :: map value YMG) with (map value (y :: YMG)) in Hx.
        apply in_map_iff in Hx. destruct Hx as (r & <- & Hr). apply Hb. exact Hr. }
      assert (Hmean := @agg_mean_between (value y :: map value YMG) lo hi
                         ltac:(discriminate) Hv).
      unfold agg_mean in Hmean. lra.
  - destruct (iloc_first _); [|discriminate]. cbn [bind].
    destruct (iloc_back _ _); [|discriminate]. cbn [bind].
    destruct (py_max _); [|discriminate]. destruct (py_min _); [|discriminate].
    cbn [bind]. intros H. inversion H. discriminate.
Qed.

(** ** Stages 1 and 3, row by row *)

(** X1.  Stage 1 drops row [i] exactly when it closes three equal values in a
    row: rows [i-2], [i-1], [i] are equal, or rows [i-1], [i], [i+1] are.
    Every other row is kept, in its place. *)
Theorem R3TCSV_drops_exactly (gw : DailySeries) :
  R3TCSV gw
  = loc (map (fun i => negb (closes_flat3 (map value gw) i)) (seq 0 (length gw))) gw
  /\ forall i, (i < length gw)%nat ->
       (closes_flat3 (map value gw) i = true
        <-> ((2 <= i)%nat
             /\ Qeq_bool (nth (i - 2) (map value gw) 0) (nth (i - 1) (map value gw) 0) = true
             /\ Qeq_bool (nth (i - 1) (map value gw) 0) (nth i (map value gw) 0) = true)
            \/ ((1 <= i)%nat /\ (i + 1 < length gw)%nat
                /\ Qeq_bool (nth (i - 1) (map value gw) 0) (nth i (map value gw) 0) = true
                /\ Qeq_bool (nth i (map value gw) 0) (nth (i + 1) (map value gw) 0) = true)).
Proof.
  split; [apply R3TCSV_exact|]. intros i Hi.
  unfold closes_flat3, flat3_at. rewrite length_map.
  set (vs := map value gw). clearbody vs.
  rewrite orb_true_iff, !andb_true_iff.
  destruct (Nat.leb_spec 2 i) as [H2|H2]; destruct (Nat.leb_spec 1 i) as [H1|H1]; try lia.
  - replace (i - 2 + 1)%nat with (i - 1)%nat by lia.
    replace (i - 2 + 2)%nat with i by lia.
    replace (i - 1 + 1)%nat with i by lia.
    replace (i - 1 + 2)%nat with (i + 1)%nat by lia.
    rewrite !Nat.ltb_lt. intuition.
  - replace (i - 1 + 1)%nat with i by lia.
    replace (i - 1 + 2)%nat with (i + 1)%nat by lia.
    rewrite !Nat.ltb_lt. split.
    + intros [(F & _)|(_ & (Hl & Ha) & Hb)]; [discriminate|]. right. tauto.
    + intros [(F & _)|(_ & Hl & Ha & Hb)]; [lia|]. right. tauto.
Qed.

(** X4.  Stage 3 keeps the rows in order and drops a row exactly when some water
    year is out of bounds (RVI above 5 or below 0.2, against the median
    range of the series as it entered the stage) and the row's date lies in
    the closed interval from the date of that year's row to the same day one
    year later. *)
Theorem RDRVI_drops_flagged_years (gw : DailySeries) :
  exists keep : row -> bool,
    RDRVI gw = filter keep gw
    /\ forall r, keep r = false
         <-> exists mx mn,
               In (mx, mn) (combine (Max_Y gw) (Min_Y gw))
               /\ RVI_out_of_bounds (RVI (value mx) (value mn) (median (Range_Y gw))) = true
               /\ Ts.leb (date mx) (date r) = true
               /\ Ts.leb (date r) (Ts.add_years (date mx) 1) = true.
Proof.
  eexists. split; [apply RDRVI_exact|]. intros r. cbv beta.
  rewrite negb_false_iff, existsb_exists. split.
  - intros ((mx & mn) & Hin & H). cbn [fst snd] in H.
    apply andb_true_iff in H. destruct H as (Ho & H).
    apply andb_true_iff in H. destruct H as (Ha & Hb).
    exists mx, mn. tauto.
  - intros (mx & mn & Hin & Ho & Ha & Hb). exists (mx, mn).
    split; [exact Hin|]. cbn [fst snd]. rewrite Ho, Ha, Hb. reflexivity.
Qed.

(** ** Series without any spread, from the daily readings to the label *)

Lemma insert_sorted_length (x : Q) (l : list Q) :
  length (insert_sorted x l) = S (length l).
Proof.
  induction l as [|y l IH]; [reflexivity|]. cbn [insert_sorted].
  destruct (Qle_bool x y); cbn [length]; [reflexivity|]. rewrite IH. reflexivity.
Qed.

Lemma sort_Q_length (l : list Q) : length (sort_Q l) = length l.
Proof.
  induction l as [|x l IH]; [reflexivity|]. cbn [sort_Q fold_right].
  rewrite insert_sorted_length. fold (sort_Q l). rewrite IH. reflexivity.
Qed.

Lemma median_defined (l : list Q) : l <> [] -> exists s, median l = Fin s.
Proof.
  intros H. unfold median. rewrite sort_Q_length.
  destruct l as [|x l]; [contradiction|]. cbn [length].
  destruct (Nat.even (S (length l))); eexists; reflexivity.
Qed.

Lemma pairwise_slopes_In (y x : list Q) (xi yi xj yj : Q) :
  In (xi, yi) (combine x y) -> In (xj, yj) (combine x y) -> 0 < xi - xj ->
  In ((yi - yj) / (xi - xj)) (pairwise_slopes y x).
Proof.
  intros Hi Hj Hlt. unfold pairwise_slopes.
  apply in_flat_map. exists (xi, yi). split; [exact Hi|].
  apply in_flat_map. exists (xj, yj). split; [exact Hj|].
  cbn [fst snd]. apply Qlt_bool_iff in Hlt. rewrite Hlt. left. reflexivity.
Qed.

(** On two or more first days of October the sequence numbers differ, so
    there is a pair to take a slope from: the Theil--Sen slope of identical
    values is 0, not NaN. *)
Lemma theil_sen_constant_zero (YMG0 : list row) (YMG : list yrow) (k : Q) :
  (2 <= length YMG0)%nat ->
  (forall r, In r YMG0 -> october_first (date r) = true) ->
  increasing (map date YMG0) = true ->
  (forall r, In r YMG0 -> value r == k) ->
  with_sequence YMG0 = Ok YMG ->
  exists s, slope_of theil_sen YMG = Fin s /\ s == 0.
Proof.
  intros Hlen Hoct Hinc Hk Hseq.
  destruct YMG0 as [|r0 [|r1 YMG0]]; [cbn in Hlen; lia|cbn in Hlen; lia|].
  assert (HY : YMG = map (fun x => mkYrow (date x) (value x)
                            (years_spanned (Ts.days_between (date x) (date r0))))
                         (r0 :: r1 :: YMG0)).
  { rewrite with_sequence_nonempty in Hseq. injection Hseq as <-. reflexivity. }
  assert (Hy : forall y, In y (map y_value YMG) -> y == k).
  { intros y Hy. rewrite (with_sequence_values _ Hseq) in Hy.
    apply in_map_iff in Hy. destruct Hy as (r & <- & Hr). auto. }
  assert (Hne : pairwise_slopes (map y_value YMG) (map seq_Q YMG) <> []).
  { assert (H0 : october_first (date r0) = true) by (apply Hoct; left; reflexivity).
    assert (H1 : october_first (date r1) = true)
      by (apply Hoct; right; left; reflexivity).
    assert (Hlt : Ts.ltb (date r0) (date r1) = true).
    { cbn [map] in Hinc. apply increasing_cons in Hinc. destruct Hinc as [_ Hall].
      apply Hall. left. reflexivity. }
    assert (Hyear := @october_years_increase (date r0) (date r1) H0 H1 Hlt).
    set (x0 := years_spanned (Ts.days_between (date r0) (date r0))).
    set (x1 := years_spanned (Ts.days_between (date r1) (date r0))).
    assert (Hx0 : x0 = 1%Z).
    { unfold x0, Ts.days_between. rewrite Z.sub_diag. reflexivity. }
    assert (Hx1 : (2 <= x1)%Z).
    { unfold x1. rewrite (october_first_form _ H1), (october_first_form _ H0).
      replace (year (date r1)) with (year (date r0) + (year (date r1) - year (date r0)))%Z
        by lia.
      generalize (@years_spanned_at_least (year (date r0))
                    (year (date r1) - year (date r0)) ltac:(lia)). lia. }
    assert (Hin : In ((value r1 - value r0) / (inject_Z x1 - inject_Z x0))
                     (pairwise_slopes (map y_value YMG) (map seq_Q YMG))).
    { apply pairwise_slopes_In.
      - rewrite HY. cbn [map combine seq_Q y_value sequence]. right. left. reflexivity.
      - rewrite HY. cbn [map combine seq_Q y_value sequence]. left. reflexivity.
      - assert (Hq : inject_Z x0 < inject_Z x1) by (rewrite <- Zlt_Qlt; lia). lra. }
    intros E. rewrite E in Hin. destruct Hin. }
  unfold slope_of, theil_sen.
  destruct (median_defined Hne) as (s & Hs).
  destruct (@median_zero _
              (@pairwise_slopes_constant (map y_value YMG) (map seq_Q YMG) k Hy))
    as [E|(s' & E & Hs')]; [congruence|].
  rewrite E. exists s'. split; [reflexivity|exact Hs'].
Qed.

(** C10 as the code has it.  Nothing looks for a series without spread.
    For three or more identical daily readings the standard deviation that
    the z-score stage computes is NaN; the filter returns no rows and the
    station gets the insufficient-data row.  For identical annual values
    (two or more first days of October) the Theil--Sen slope is 0 and the
    piecewise fit is still called: what [curve_fit] raises is raised by
    [classidication], and nothing else is; when it returns, the label is
    'No trend' with that slope, and the R2 returned with the label is
    [1 - SSR / SST] of the fitted curve, taken without any test of [SST]. *)
Theorem degenerate_series_outcome
    (curve_fit : list Q -> list Q -> params -> params -> params -> result params)
    (v : variant) (gw : DailySeries) (YMG0 : list row) (k k' : Q) :
  (3 <= length gw)%nat ->
  (forall r, In r gw -> value r == k) ->
  (2 <= length YMG0)%nat ->
  (forall r, In r YMG0 -> october_first (date r) = true) ->
  increasing (map date YMG0) = true ->
  (forall r, In r YMG0 -> value r == k') ->
  (var_ddof1 (deviations (R3TCSV gw)) = NaN
   /\ quality_control gw = []
   /\ station_summary (quality_control gw) = Ok (mkOutput NoEnoughData None))
  /\ exists YMG a0 a1 s2 s1,
       with_sequence YMG0 = Ok YMG
       /\ py_min (map y_value YMG) = Ok a0
       /\ py_max (map y_value YMG) = Ok a1
       /\ iloc_back 1 (map sequence YMG) = Ok s2
       /\ iloc_back 0 (map sequence YMG) = Ok s1
       /\ (exists s, slope_of theil_sen YMG = Fin s /\ s == 0)
       /\ match curve_fit (map seq_Q YMG) (map y_value YMG)
                          (fit_p0 s2 a0 a1) fit_lower (fit_upper s2 s1) with
          | Raise e => classidication theil_sen curve_fit v YMG0 = Raise e
          | Ok fitted =>
              exists c,
                classidication theil_sen curve_fit v YMG0 = Ok c
                /\ label c = NoTrend
                /\ ts_slope c = slope_of theil_sen YMG
                /\ pw_R2 c = r_squared (map (piecewise fitted) (map seq_Q YMG))
                                       (map y_value YMG)
          end.
Proof.
  intros Hn Hk Hlen Hoct Hinc Hk'. split.
  - destruct (quality_control_constant gw Hn Hk) as [Hstd Hqc].
    split; [exact Hstd|]. split; [exact Hqc|]. rewrite Hqc. reflexivity.
  - destruct (annual_series_indices YMG0 Hlen Hoct Hinc)
      as (YMG & a0 & a1 & first & l & s2 & s1
          & Hseq & Hmin & Hmax & Hfirst & Hl & Hs2 & Hs1 & Ht).
    exists YMG, a0, a1, s2, s1.
    repeat (split; [assumption|]).
    split; [apply (@theil_sen_constant_zero YMG0 YMG k' Hlen Hoct Hinc Hk' Hseq)|].
    assert (Hvals : forall r, In r YMG -> y_value r == k').
    { intros r Hr. assert (Hin : In (y_value r) (map value YMG0)).
      { rewrite <- (with_sequence_values _ Hseq). apply in_map. exact Hr. }
      apply in_map_iff in Hin. destruct Hin as (r0 & <- & Hr0). auto. }
    destruct (theil_sen_constant_in_dead_zone v YMG Hvals) as [Hlt Hgt].
    generalize (classidication_after_fit theil_sen curve_fit v YMG0
                  Hseq Hmin Hmax Hfirst Hl Hs2 Hs1 Ht).
    destruct (curve_fit _ _ _ _ _) as [fitted|e]; [|tauto].
    intros (c & Hc & Hslope & HR2 & Hlabel). exists c.
    split; [exact Hc|]. split; [apply Hlabel; assumption|]. split; assumption.
Qed.

(** ** Concrete instances *)

Lemma RVZ3_short_series_witness :
  (2 <= length small_clean_series <= 10)%nat
  /\ RVZ3 small_clean_series = small_clean_series.
Proof.
  assert (H : (2 <= length small_clean_series <= 10)%nat) by (cbn; lia).
  split; [exact H|]. apply (RVZ3_short_series small_clean_series H).
Defined.

Lemma RDRVI_single_water_year_witness :
  (forall r, In r small_clean_series -> Ts.water_year (date r) = mkTs 2000 10 1)
  /\ RDRVI small_clean_series = small_clean_series.
Proof.
  assert (H : forall r, In r small_clean_series
                        -> Ts.water_year (date r) = mkTs 2000 10 1).
  { intros r Hr. cbn in Hr. repeat (destruct Hr as [<-|Hr]; [reflexivity|]). destruct Hr. }
  split; [exact H|]. apply (RDRVI_single_water_year small_clean_series H).
Defined.

Lemma annual_values_between_witness :
  (forall r, In r two_year_series -> 10 <= value r <= 30)
  /\ forall r, In r (annual (monthly two_year_series)) -> 10 <= value r <= 30.
Proof.
  assert (H : forall r, In r two_year_series -> 10 <= value r <= 30).
  { intros r Hr. cbn in Hr.
    repeat (destruct Hr as [<-|Hr]; [cbn [value on]; lra|]). destruct Hr. }
  split; [exact H|]. apply (annual_values_between two_year_series H).
Defined.

Lemma r_squared_at_most_one_witness :
  In 1 [1; 3] /\ In 3 [1; 3] /\ ~ 1 == 3
  /\ exists q, r_squared [1; 2] [1; 3] = Fin q /\ q <= 1.
Proof.
  assert (H1 : In 1 [1; 3]) by (left; reflexivity).
  assert (H3 : In 3 [1; 3]) by (right; left; reflexivity).
  assert (Hne : ~ 1 == 3) by (intros E; apply Qeq_bool_iff in E; discriminate).
  repeat (split; [assumption|]).
  destruct (@r_squared_at_most_one [1; 2] [1; 3] 1 3 H1 H3 Hne) as (q & Hq & Hle & _).
  exists q. split; assumption.
Defined.

Lemma sequence_counts_water_years_witness :
  iloc_first falling_depth = Ok (on 2000 10 1 20)
  /\ (forall r, In r falling_depth ->
        october_first (date r) = true
        /\ (0 <= year (date r) - year (date (on 2000 10 1 20)) < 1400)%Z)
  /\ exists YMG,
       with_sequence falling_depth = Ok YMG
       /\ map sequence YMG = [1; 2; 3; 4; 5; 6; 7; 8; 9; 10]%Z.
Proof.
  assert (H1 : iloc_first falling_depth = Ok (on 2000 10 1 20)) by reflexivity.
  assert (H2 : forall r, In r falling_depth ->
                 october_first (date r) = true
                 /\ (0 <= year (date r) - year (date (on 2000 10 1 20)) < 1400)%Z).
  { intros r Hr. cbn in Hr.
    repeat (destruct Hr as [<-|Hr]; [split; [reflexivity|cbn; lia]|]). destruct Hr. }
  split; [exact H1|]. split; [exact H2|].
  destruct (sequence_counts_water_years falling_depth H1 H2) as (YMG & Hs & _ & _ & Hq).
  exists YMG. split; [exact Hs|]. rewrite Hq. reflexivity.
Defined.

Lemma classidication_needs_two_rows_witness :
  (length [on 2000 10 1 7] < 2)%nat
  /\ classidication theil_sen fit_returns_start Refined [on 2000 10 1 7]
     = Raise IndexError.
Proof.
  assert (H : (length [on 2000 10 1 7] < 2)%nat) by (cbn; lia).
  split; [exact H|].
  apply (classidication_needs_two_rows theil_sen fit_returns_start Refined _ H).
Defined.

Lemma classidication_returns_on_annual_series_witness :
  (2 <= length falling_depth)%nat
  /\ (forall r, In r falling_depth -> october_first (date r) = true)
  /\ increasing (map date falling_depth) = true
  /\ (exists c, classidication theil_sen fit_returns_start Earlier falling_depth = Ok c)
  /\ classidication theil_sen fit_gives_up Earlier falling_depth = Raise RuntimeError.
Proof.
  assert (H1 : (2 <= length falling_depth)%nat) by (cbn; lia).
  assert (H2 : forall r, In r falling_depth -> october_first (date r) = true).
  { intros r Hr. cbn in Hr. repeat (destruct Hr as [<-|Hr]; [reflexivity|]). destruct Hr. }
  assert (H3 : increasing (map date falling_depth) = true) by reflexivity.
  repeat (split; [assumption|]). split.
  - destruct (classidication_returns_on_annual_series theil_sen fit_returns_start Earlier
                falling_depth H1 H2 H3) as (YMG & a0 & a1 & s2 & s1 & _ & _ & _ & _ & _ & H).
    exact H.
  - destruct (classidication_returns_on_annual_series theil_sen fit_gives_up Earlier
                falling_depth H1 H2 H3) as (YMG & a0 & a1 & s2 & s1 & _ & _ & _ & _ & _ & H).
    exact H.
Defined.

Lemma label_follows_slope_witness :
  classidication theil_sen fit_returns_start Refined falling_depth
  = Ok falling_depth_result
  /\ exists s, ts_slope falling_depth_result = Fin s /\ s < - dead_zone Refined.
Proof.
  assert (H : classidication theil_sen fit_returns_start Refined falling_depth
              = Ok falling_depth_result) by (vm_compute; reflexivity).
  split; [exact H|].
  destruct (label_follows_slope theil_sen fit_returns_start Refined falling_depth H)
    as [Hup _].
  apply Hup. right. reflexivity.
Defined.

Lemma compare_pair_symmetric_witness :
  compare_pair theil_sen fit_returns_start Refined falling_depth rising_depth
  = Ok (Some Inconsistent)
  /\ compare_pair theil_sen fit_returns_start Refined rising_depth falling_depth
     = Ok (Some Inconsistent).
Proof.
  assert (H : compare_pair theil_sen fit_returns_start Refined falling_depth rising_depth
              = Ok (Some Inconsistent)) by (vm_compute; reflexivity).
  split; [exact H|].
  apply (compare_pair_symmetric theil_sen fit_returns_start Refined
           falling_depth rising_depth H).
Defined.

Lemma consistency_row_counts_witness :
  consistency_row theil_sen fit_returns_start Refined two_files ten_km
                  [station_a; station_b] station_a
  = Ok (1%Z, (1, 0, 1)%nat)
  /\ (1 = 0 + 1)%nat.
Proof.
  assert (H : consistency_row theil_sen fit_returns_start Refined two_files ten_km
                [station_a; station_b] station_a = Ok (1%Z, (1, 0, 1)%nat))
    by (vm_compute; reflexivity).
  split; [exact H|].
  destruct (consistency_row_counts theil_sen fit_returns_start Refined two_files ten_km
              [station_a; station_b] station_a H) as (_ & Hsum & _).
  exact Hsum.
Defined.

Lemma positive_depths_not_negative_mean_witness :
  (forall r, In r ten_year_record -> 0 < value r)
  /\ station_summary ten_year_record = Ok ten_year_output
  /\ summary_row ten_year_output <> NegativeMeanDepth.
Proof.
  assert (H1 : forall r, In r ten_year_record -> 0 < value r).
  { intros r Hr. unfold ten_year_record in Hr. apply in_map_iff in Hr.
    destruct Hr as (i & <- & _). cbn [value].
    assert (0 <= inject_Z (Z.of_nat (i mod 5))).
    { change 0 with (inject_Z 0). rewrite <- Zle_Qle. lia. }
    lra. }
  assert (H2 : station_summary ten_year_record = Ok ten_year_output)
    by (vm_compute; reflexivity).
  split; [exact H1|]. split; [exact H2|].
  apply (positive_depths_not_negative_mean ten_year_record H1 H2).
Defined.

Lemma degenerate_series_outcome_witness :
  (3 <= length stuck_sensor_series)%nat
  /\ (forall r, In r stuck_sensor_series -> value r == 7)
  /\ (2 <= length constant_depth)%nat
  /\ (forall r, In r constant_depth -> october_first (date r) = true)
  /\ increasing (map date constant_depth) = true
  /\ (forall r, In r constant_depth -> value r == 7)
  /\ quality_control stuck_sensor_series = []
  /\ (exists c, classidication theil_sen fit_returns_start Refined constant_depth = Ok c
                /\ label c = NoTrend)
  /\ classidication theil_sen fit_gives_up Refined constant_depth = Raise RuntimeError.
Proof.
  assert (H1 : (3 <= length stuck_sensor_series)%nat) by (cbn; lia).
  assert (H2 : forall r, In r stuck_sensor_series -> value r == 7).
  { intros r Hr. cbn in Hr. repeat (destruct Hr as [<-|Hr]; [reflexivity|]). destruct Hr. }
  assert (H3 : (2 <= length constant_depth)%nat) by (cbn; lia).
  assert (H4 : forall r, In r constant_depth -> october_first (date r) = true).
  { intros r Hr. cbn in Hr. repeat (destruct Hr as [<-|Hr]; [reflexivity|]). destruct Hr. }
  assert (H5 : increasing (map date constant_depth) = true) by reflexivity.
  assert (H6 : forall r, In r constant_depth -> value r == 7).
  { intros r Hr. cbn in Hr. repeat (destruct Hr as [<-|Hr]; [reflexivity|]). destruct Hr. }
  repeat (split; [assumption|]).
  destruct (@degenerate_series_outcome fit_returns_start Refined stuck_sensor_series
              constant_depth 7 7 H1 H2 H3 H4 H5 H6)
    as [(_ & Hqc & _) (YMG & a0 & a1 & s2 & s1 & _ & _ & _ & _ & _ & _ & Hfit)].
  destruct (@degenerate_series_outcome fit_gives_up Refined stuck_sensor_series
              constant_depth 7 7 H1 H2 H3 H4 H5 H6)
    as [_ (YMG' & a0' & a1' & s2' & s1' & _ & _ & _ & _ & _ & _ & Hfail)].
  split; [exact Hqc|]. split.
  - unfold fit_returns_start in Hfit at 1. destruct Hfit as (c & Hc & Hlab & _).
    exists c. split; assumption.
  - unfold fit_gives_up in Hfail at 1. exact Hfail.
Defined.

Lemma get_data_rejected_readings_witness :
  get_data suspect_response = Downloaded (DateIndexed [])
  /\ get_data (mkResponse 200 []) = Downloaded EmptyDataFrame.
Proof.
  destruct (get_data_rejected_readings suspect_response) as (_ & _ & _ & H).
  apply H.
  - reflexivity.
  - eexists. split; [left; reflexivity|reflexivity].
  - intros d [<-|[]] _. reflexivity.
Defined.
